(** * Running analytics: synchronisation and analytics pipeline

    A shallow embedding of [src/app.py] and [src/update_data.py]: the
    paginated fetch, the record processing with its derived columns, the
    snapshot load with schema backfill, the refresh schedule and the
    sync paths (also over a config file that cannot be read), the
    streaks and the activity heatmap, and of the
    dashboard the selection of the period, the key metrics, the monthly
    goal and the most active month.

    Modelling conventions.
    - A float64 or int64 cell is a [num]: an exact rational or [NaN]
      (the missing value).  Comparisons follow IEEE: every comparison with
      [NaN] is false.  Rounding of float64 arithmetic is not modelled.
    - A calendar date is its proleptic Gregorian ordinal (day 1 is
      0001-01-01, as [date.toordinal()]), so that [(d1 - d2).days] is a
      subtraction on [Z].
    - Exceptions are the [Raise] results of the [result] monad.
    - The clock ([datetime.now()]) and the remote service are arguments:
      [now], [today] and a [network] giving the reply to each request.
    - What [pd.to_datetime] makes of a string is an argument too
      ([parse_datetime]), so that the properties hold for any parser;
      [iso_parser] instantiates it to run the model.
    - The persisted snapshot is the table of cells that
      [df.to_csv(CSV_FILE, index=False)] received; the text of the file
      is not modelled.  What the text does to a cell on its way back
      ([pd.read_csv] takes [NA], [None], an empty field and the like for
      a missing value and infers the type of each column anew) is
      therefore not represented, and what is stated of a snapshot that
      is loaded again concerns the derived columns, whose cells
      (numbers, dates and the labels of the classifications) are read
      back as they were written.
    - [files] holds the config file as [json.load] returns it for a file
      with a JSON object whose timestamp parses.  [disk] has the other
      contents as well (text that is not JSON, a JSON value that is no
      object, a timestamp that does not parse), and [OnDisk] follows
      the sync paths over them.
    - A call of [get_access_token] or [fetch_strava_data] runs its body:
      the answers that Streamlit's [st.cache_data] would serve from its
      cache are not modelled. *)

Set Warnings "-register-all".
From Stdlib Require Import ZArith QArith Lqa List String Ascii Bool Lia Sorting.Sorted.
From Stdlib Require Import Qround.
From Stdlib Require DecimalString.
Import ListNotations.
Local Open Scope Z_scope.

(** ** Exceptions *)

Inductive exn : Type :=
| KeyError (key : string)
| TypeError
| ValueError
| AttributeError
| RequestException
| JSONDecodeError.

Inductive result (A : Type) : Type :=
| Ok (a : A)
| Raise (e : exn).
Arguments Ok {A} a.
Arguments Raise {A} e.

Definition bind {A B : Type} (m : result A) (k : A -> result B) : result B :=
  match m with
  | Ok a => k a
  | Raise e => Raise e
  end.

Declare Scope result_scope.
Delimit Scope result_scope with result.
Notation "x <- m ;; k" := (bind m (fun x => k))
  (at level 61, m at next level, right associativity) : result_scope.
Local Open Scope result_scope.

Fixpoint mapM {A B : Type} (f : A -> result B) (l : list A) : result (list B) :=
  match l with
  | [] => Ok []
  | a :: l' => b <- f a ;; bs <- mapM f l' ;; Ok (b :: bs)
  end.

Definition is_ok {A : Type} (r : result A) : bool :=
  match r with Ok _ => true | Raise _ => false end.

(** ** Numbers *)

Inductive num : Type :=
| Fin (q : Q)
| NaN.

Definition num_eqb (x y : num) : bool :=
  match x, y with
  | Fin a, Fin b => Qeq_bool a b
  | _, _ => false
  end.

Definition num_leb (x y : num) : bool :=
  match x, y with
  | Fin a, Fin b => Qle_bool a b
  | _, _ => false
  end.

Definition num_ltb (x y : num) : bool :=
  match x, y with
  | Fin a, Fin b => negb (Qle_bool b a)
  | _, _ => false
  end.

Definition num_gtb (x y : num) : bool := num_ltb y x.

(** [x / y] for a non-zero [y]; the callers guard the divisor. *)
Definition num_div (x y : num) : num :=
  match x, y with
  | Fin a, Fin b => Fin (a / b)
  | _, _ => NaN
  end.

Definition num_of_Z (z : Z) : num := Fin (inject_Z z).

Definition is_nan (x : num) : bool :=
  match x with NaN => true | Fin _ => false end.

(** ** Calendar dates and timestamps

    The calendar arithmetic follows CPython's [datetime] module
    ([_ymd2ord], [_ord2ymd], [weekday], [isocalendar]). *)

Definition date : Type := Z.

Definition is_leap (year : Z) : bool :=
  (year mod 4 =? 0) && (negb (year mod 100 =? 0) || (year mod 400 =? 0)).

Definition days_before_year (year : Z) : Z :=
  let y := year - 1 in
  y * 365 + y / 4 - y / 100 + y / 400.

Definition DAYS_IN_MONTH : list Z :=
  [31; 28; 31; 30; 31; 30; 31; 31; 30; 31; 30; 31].

Definition DAYS_BEFORE_MONTH : list Z :=
  [0; 31; 59; 90; 120; 151; 181; 212; 243; 273; 304; 334].

Definition days_before_month (year month : Z) : Z :=
  nth (Z.to_nat (month - 1)) DAYS_BEFORE_MONTH 0
  + (if (2 <? month) && is_leap year then 1 else 0).

Definition ymd2ord (year month day : Z) : date :=
  days_before_year year + days_before_month year month + day.

Definition DI400Y : Z := 146097.
Definition DI100Y : Z := 36524.
Definition DI4Y : Z := 1461.

Definition ord2ymd (ordinal : date) : Z * Z * Z :=
  let n := ordinal - 1 in
  let n400 := n / DI400Y in
  let n := n mod DI400Y in
  let year := n400 * 400 + 1 in
  let n100 := n / DI100Y in
  let n := n mod DI100Y in
  let n4 := n / DI4Y in
  let n := n mod DI4Y in
  let n1 := n / 365 in
  let n := n mod 365 in
  let year := year + n100 * 100 + n4 * 4 + n1 in
  if (n1 =? 4) || (n100 =? 4) then (year - 1, 12, 31)
  else
    let leapyear := (n1 =? 3) && (negb (n4 =? 24) || (n100 =? 3)) in
    let month := Z.shiftr (n + 50) 5 in
    let preceding :=
      nth (Z.to_nat (month - 1)) DAYS_BEFORE_MONTH 0
      + (if (2 <? month) && leapyear then 1 else 0) in
    if n <? preceding then
      let month := month - 1 in
      let preceding :=
        preceding - (nth (Z.to_nat (month - 1)) DAYS_IN_MONTH 0
                     + (if (month =? 2) && leapyear then 1 else 0)) in
      (year, month, n - preceding + 1)
    else (year, month, n - preceding + 1).

Definition year_of (d : date) : Z := fst (fst (ord2ymd d)).
Definition month_of (d : date) : Z := snd (fst (ord2ymd d)).

(** [date.weekday()] and [.dt.dayofweek]: 0 is Monday, 6 is Sunday. *)
Definition weekday (d : date) : Z := (d + 6) mod 7.

Definition DAY_NAMES : list string :=
  ["Monday"; "Tuesday"; "Wednesday"; "Thursday"; "Friday"; "Saturday"; "Sunday"]%string.

Definition day_name (d : date) : string :=
  nth (Z.to_nat (weekday d)) DAY_NAMES ""%string.

Definition isoweek1monday (year : Z) : date :=
  let firstday := ymd2ord year 1 1 in
  let firstweekday := (firstday + 6) mod 7 in
  let week1monday := firstday - firstweekday in
  if 3 <? firstweekday then week1monday + 7 else week1monday.

(** The week component of [isocalendar()]. *)
Definition isoweek (d : date) : Z :=
  let year := year_of d in
  let week := (d - isoweek1monday year) / 7 in
  if week <? 0 then (d - isoweek1monday (year - 1)) / 7 + 1
  else if (52 <=? week) && (isoweek1monday (year + 1) <=? d) then 1
  else week + 1.

Record datetime : Type := mkDatetime {
  dt_date : date;
  dt_hour : Z;
  dt_minute : Z;
  dt_second : Z;
  dt_microsecond : Z
}.

Definition midnight (d : date) : datetime := mkDatetime d 0 0 0 0.

(** [now.replace(hour=h, minute=m, second=s, microsecond=us)] *)
Definition replace_time (t : datetime) (h m s us : Z) : datetime :=
  mkDatetime (dt_date t) h m s us.

(** Timestamps compare field by field, the date first. *)
Definition datetime_ltb (a b : datetime) : bool :=
  (dt_date a <? dt_date b)
  || ((dt_date a =? dt_date b)
      && ((dt_hour a <? dt_hour b)
          || ((dt_hour a =? dt_hour b)
              && ((dt_minute a <? dt_minute b)
                  || ((dt_minute a =? dt_minute b)
                      && ((dt_second a <? dt_second b)
                          || ((dt_second a =? dt_second b)
                              && (dt_microsecond a <? dt_microsecond b)))))))).

Definition datetime_eqb (a b : datetime) : bool :=
  (dt_date a =? dt_date b) && (dt_hour a =? dt_hour b)
  && (dt_minute a =? dt_minute b) && (dt_second a =? dt_second b)
  && (dt_microsecond a =? dt_microsecond b).

Definition datetime_leb (a b : datetime) : bool :=
  datetime_ltb a b || datetime_eqb a b.

(** ** JSON payloads and the remote API

    A decoded payload.  The fields of an object have distinct keys, as
    in a Python dict; a string is held as the bytes of its UTF-8
    encoding. *)

Inductive json : Type :=
| JNull
| JBool (b : bool)
| JNum (q : Q)
| JStr (s : string)
| JArr (items : list json)
| JObj (fields : list (string * json)).

(** Python truthiness of a decoded payload ([not data]). *)
Definition truthy (j : json) : bool :=
  match j with
  | JNull => false
  | JBool b => b
  | JNum q => negb (Qeq_bool q 0)
  | JStr s => negb (String.eqb s "")
  | JArr items => negb (Nat.eqb (List.length items) 0)
  | JObj fields => negb (Nat.eqb (List.length fields) 0)
  end.

(** A byte [10xxxxxx] continues the encoding of the character begun
    before it. *)
Definition continuation_byte (c : ascii) : bool :=
  match c with
  | Ascii _ _ _ _ _ _ b6 b7 => b7 && negb b6
  end.

(** The characters of a string, each with the bytes of its encoding. *)
Fixpoint characters (s : string) : list string :=
  match s with
  | EmptyString => []
  | String c s' =>
      match characters s' with
      | g :: gs =>
          if match s' with
             | String c' _ => continuation_byte c'
             | EmptyString => false
             end
          then String c g :: gs
          else String c EmptyString :: g :: gs
      | [] => [String c EmptyString]
      end
  end.

(** What [list.extend(data)] appends: the items of a list, the keys of a
    dict, the characters of a string; a number or a boolean is not
    iterable. *)
Definition iterate (j : json) : result (list json) :=
  match j with
  | JArr items => Ok items
  | JObj fields => Ok (map (fun kv => JStr (fst kv)) fields)
  | JStr s => Ok (map JStr (characters s))
  | JNull | JBool _ | JNum _ => Raise TypeError
  end.

(** [len(data)] *)
Definition len (j : json) : result Z :=
  match j with
  | JArr items => Ok (Z.of_nat (List.length items))
  | JObj fields => Ok (Z.of_nat (List.length fields))
  | JStr s => Ok (Z.of_nat (List.length (characters s)))
  | JNull | JBool _ | JNum _ => Raise TypeError
  end.

Fixpoint assoc {A : Type} (k : string) (l : list (string * A)) : option A :=
  match l with
  | [] => None
  | (k', a) :: l' => if String.eqb k k' then Some a else assoc k l'
  end.

(** The outcome of one HTTP request: the transport failed, or a response
    arrived with a status code and a body that may or may not parse as
    JSON. *)
Inductive reply : Type :=
| ConnectionFailed
| Response (status : Z) (body : option json).

(** [res.raise_for_status()] *)
Definition raise_for_status (status : Z) : result unit :=
  if (400 <=? status) && (status <? 600) then Raise RequestException else Ok tt.

(** [requests.get(...)] / [requests.post(...)] followed by [res.json()],
    with no status check in between. *)
Definition request_json (r : reply) : result json :=
  match r with
  | ConnectionFailed => Raise RequestException
  | Response _ None => Raise JSONDecodeError
  | Response _ (Some j) => Ok j
  end.

(** The remote service as the program sees it: the reply of the token
    endpoint and the reply of the activity listing for each
    [(per_page, page)] query. *)
Record network : Type := mkNetwork {
  token_endpoint : reply;
  activities_endpoint : Z -> Z -> reply
}.

(** ** Cells and data frames (the part of pandas the program uses) *)

Inductive value : Type :=
| VNum (x : num)
| VStr (s : string)
| VBool (b : bool)
| VTime (t : datetime)
| VNaT
| VDate (d : date)
| VObj (j : json).

Definition value_of_json (j : json) : value :=
  match j with
  | JNull => VNum NaN
  | JBool b => VBool b
  | JNum q => VNum (Fin q)
  | JStr s => VStr s
  | JArr _ | JObj _ => VObj j
  end.

(** A frame is column oriented: the labels in order, each with its cells.
    Every column has [nrows] cells. *)
Record DataFrame : Type := mkDataFrame {
  nrows : nat;
  cols : list (string * list value)
}.

(** [pd.DataFrame()] *)
Definition empty_frame : DataFrame := mkDataFrame 0 [].

Definition columns (df : DataFrame) : list string := map fst (cols df).

(** [c in df.columns] *)
Definition has_column (c : string) (df : DataFrame) : bool :=
  existsb (String.eqb c) (columns df).

(** [df[c]] *)
Definition getitem (df : DataFrame) (c : string) : result (list value) :=
  match assoc c (cols df) with
  | Some col => Ok col
  | None => Raise (KeyError c)
  end.

Fixpoint replace_col (c : string) (col : list value) (l : list (string * list value))
  : list (string * list value) :=
  match l with
  | [] => [(c, col)]
  | (c', col') :: l' =>
      if String.eqb c c' then (c, col) :: l' else (c', col') :: replace_col c col l'
  end.

(** [df[c] = col]: an existing column is replaced in place, a new one is
    appended. *)
Definition setitem (df : DataFrame) (c : string) (col : list value) : DataFrame :=
  mkDataFrame (nrows df) (replace_col c col (cols df)).

(** [df[names]] for labels that are all present. *)
Definition select (df : DataFrame) (names : list string) : result DataFrame :=
  cs <- mapM (fun c => col <- getitem df c ;; Ok (c, col)) names ;;
  Ok (mkDataFrame (nrows df) cs).

Definition record_keys (j : json) : option (list string) :=
  match j with
  | JObj fields => Some (map fst fields)
  | _ => None
  end.

(** Labels of a frame built from records: the keys in order of first
    appearance. *)
Fixpoint union_keys (seen : list string) (records : list json) : option (list string) :=
  match records with
  | [] => Some seen
  | r :: rest =>
      match record_keys r with
      | Some ks =>
          union_keys
            (fold_left (fun acc k => if existsb (String.eqb k) acc then acc else acc ++ [k]) ks seen)
            rest
      | None => None
      end
  end.

Definition record_cell (c : string) (r : json) : value :=
  match r with
  | JObj fields =>
      match assoc c fields with
      | Some j => value_of_json j
      | None => VNum NaN
      end
  | _ => VNum NaN
  end.

(** [pd.DataFrame(data)] for a list.  A list of dicts (also the empty
    list) gives one row per dict and one column per key, a key missing
    from a record giving NaN; a dict followed by an element that is not
    a dict raises ([x.keys()] fails).  When the first element is not a
    dict pandas labels the columns 0, 1, ... (or raises): such a frame
    has no string label, and the model keeps none of its columns. *)
Definition pd_DataFrame (data : list json) : result DataFrame :=
  match data with
  | [] | JObj _ :: _ =>
      match union_keys [] data with
      | Some labels =>
          Ok (mkDataFrame (List.length data)
                (map (fun c => (c, map (record_cell c) data)) labels))
      | None => Raise AttributeError
      end
  | _ :: _ => Ok (mkDataFrame (List.length data) [])
  end.

Definition as_num (v : value) : option num :=
  match v with
  | VNum x => Some x
  | VBool b => Some (Fin (if b then 1 else 0))
  | _ => None
  end.

(** [series / k] *)
Definition series_div (col : list value) (k : Q) : result (list value) :=
  mapM (fun v => match as_num v with
                 | Some x => Ok (VNum (num_div x (Fin k)))
                 | None => Raise TypeError
                 end) col.

(** [series.apply(f)] for a function of a number returning a label. *)
Definition series_apply (f : num -> string) (col : list value) : result (list value) :=
  mapM (fun v => match as_num v with
                 | Some x => Ok (VStr (f x))
                 | None => Raise TypeError
                 end) col.

(** [df.apply(lambda x: f(x[a], x[b]), axis=1)] *)
Fixpoint apply_rows2 (f : value -> value -> result value) (a b : list value)
  : result (list value) :=
  match a, b with
  | va :: a', vb :: b' => v <- f va vb ;; vs <- apply_rows2 f a' b' ;; Ok (v :: vs)
  | _, _ => Ok []
  end.

(** The [.dt] accessor: defined on a column of timestamps, NaT giving the
    missing value [na]. *)
Definition dt_accessor (f : datetime -> value) (na : value) (col : list value)
  : result (list value) :=
  mapM (fun v => match v with
                 | VTime t => Ok (f t)
                 | VNaT => Ok na
                 | _ => Raise AttributeError
                 end) col.

Definition dt_get_date : list value -> result (list value) :=
  dt_accessor (fun t => VDate (dt_date t)) VNaT.
Definition dt_get_hour : list value -> result (list value) :=
  dt_accessor (fun t => VNum (num_of_Z (dt_hour t))) (VNum NaN).
Definition dt_day_name : list value -> result (list value) :=
  dt_accessor (fun t => VStr (day_name (dt_date t))) (VNum NaN).
Definition dt_isocalendar_week : list value -> result (list value) :=
  dt_accessor (fun t => VNum (num_of_Z (isoweek (dt_date t)))) (VNum NaN).
Definition dt_get_month : list value -> result (list value) :=
  dt_accessor (fun t => VNum (num_of_Z (month_of (dt_date t)))) (VNum NaN).
Definition dt_get_year : list value -> result (list value) :=
  dt_accessor (fun t => VNum (num_of_Z (year_of (dt_date t)))) (VNum NaN).

Section ToDatetime.

(** [pd.to_datetime] on a scalar that is neither missing nor already a
    timestamp or a date: what pandas makes of a string or a number,
    [None] when it raises. *)
Variable parse_datetime : value -> option datetime.

Definition to_datetime_scalar (v : value) : result value :=
  match v with
  | VTime t => Ok (VTime t)
  | VNaT => Ok VNaT
  | VDate d => Ok (VTime (midnight d))
  | VNum NaN => Ok VNaT
  | _ =>
      match parse_datetime v with
      | Some t => Ok (VTime t)
      | None => Raise ValueError
      end
  end.

(** [pd.to_datetime(series)] *)
Definition to_datetime (col : list value) : result (list value) :=
  mapM to_datetime_scalar col.

End ToDatetime.

(** [pd.read_csv]: a file without any column cannot be parsed. *)
Definition read_csv (snapshot : DataFrame) : result DataFrame :=
  match cols snapshot with
  | [] => Raise ValueError
  | _ => Ok snapshot
  end.

(** ** Persistent files *)

Record config : Type := mkConfig {
  monthly_goal : option Z;
  last_update : option datetime
}.

Record files : Type := mkFiles {
  csv_file : option DataFrame;
  config_file : option config
}.

(** [df.to_csv(CSV_FILE, index=False)] *)
Definition to_csv (fs : files) (df : DataFrame) : files :=
  mkFiles (Some df) (config_file fs).

(** [json.dump(config, f)] on the config file *)
Definition dump_config (fs : files) (c : config) : files :=
  mkFiles (csv_file fs) (Some c).

(** *** The config file as it lies on disk

    [files] holds the config as [json.load] returns it for a file that
    holds a JSON object whose timestamp, if any, parses.  On disk the
    file may hold anything else as well, and the sync paths read it
    after they have written the snapshot: [disk] has these contents
    too. *)

(** The value under ['last_update']: none (the key is missing, or its
    value is null, an empty string or another falsy value), an ISO
    timestamp, a string that is no ISO timestamp, or a truthy value
    that is no string. *)
Inductive stamp : Type :=
| NoStamp
| Stamp (t : datetime)
| NotISO
| NotText.

(** A JSON object as the programs use it: the monthly goal, if the key
    is there, and the timestamp. *)
Record config_dict : Type := mkDict {
  dict_goal : option Z;
  dict_last_update : stamp
}.

(** The contents of the config file: text that is not JSON (an empty
    or truncated file), a JSON value that is not an object, or an
    object. *)
Inductive config_text : Type :=
| NotJSON
| NotObject
| ObjectText (c : config_dict).

Record disk : Type := mkDisk {
  disk_csv : option DataFrame;
  disk_config : option config_text
}.

(** What [json.load] returns: a dict, or a value of another type. *)
Inductive loaded_json : Type :=
| Dict (c : config_dict)
| NotDict.

(** [json.load(f)] *)
Definition json_load (content : config_text) : result loaded_json :=
  match content with
  | NotJSON => Raise JSONDecodeError
  | NotObject => Ok NotDict
  | ObjectText c => Ok (Dict c)
  end.

(** [config['last_update'] = datetime.now().isoformat()]: only a dict
    supports the assignment. *)
Definition set_last_update (config : loaded_json) (now : datetime) : result config_dict :=
  match config with
  | Dict c => Ok (mkDict (dict_goal c) (Stamp now))
  | NotDict => Raise TypeError
  end.

(** The files of [fs] on disk. *)
Definition stamp_of (last_update : option datetime) : stamp :=
  match last_update with
  | Some t => Stamp t
  | None => NoStamp
  end.

Definition dict_of (c : config) : config_dict :=
  mkDict (monthly_goal c) (stamp_of (last_update c)).

Definition disk_of (fs : files) : disk :=
  mkDisk (csv_file fs) (option_map (fun c => ObjectText (dict_of c)) (config_file fs)).

(** ** Labels *)

Definition UNKNOWN : string := "Unknown".
Definition SPEED : string := "🔥 Speed (< 4:30)".
Definition TEMPO : string := "⚡ Tempo (4:30-5:30)".
Definition EASY : string := "🏃 Easy (5:30-6:30)".
Definition RECOVERY : string := "🚶 Recovery (> 6:30)".
Definition MORNING : string := "🌅 Morning".
Definition AFTERNOON : string := "☀️ Afternoon".
Definition EVENING : string := "🌙 Evening".

(** The whitelist of raw fields kept by [process_data]. *)
Definition RAW_COLS : list string :=
  ["name"; "distance"; "moving_time"; "start_date_local"; "total_elevation_gain";
   "type"; "average_heartrate"; "max_heartrate"; "average_speed"; "max_speed"]%string.

Definition PER_PAGE : Z := 200.
Definition PAGE_CAP : Z := 100.

(** Insertion into an ascending list without repetition: the effect of
    [sorted(series.unique())] and of the sorted labels of a pivot. *)
Fixpoint insert_unique (x : Z) (l : list Z) : list Z :=
  match l with
  | [] => [x]
  | y :: l' =>
      if x <? y then x :: l
      else if x =? y then l
      else y :: insert_unique x l'
  end.

Definition sorted_unique (l : list Z) : list Z :=
  fold_right insert_unique [] l.

(** [n] consecutive integers from [start]: the days of
    [pd.date_range(start, ..., freq='D')], the pages of a fetch. *)
Fixpoint consecutive (start : Z) (n : nat) : list Z :=
  match n with
  | O => []
  | S n' => start :: consecutive (start + 1) n'
  end.

(** Totals per date, ascending by date. *)
Fixpoint add_to_group (d : date) (x : Q) (groups : list (date * Q)) : list (date * Q) :=
  match groups with
  | [] => [(d, x)]
  | (d', total) :: groups' =>
      if d <? d' then (d, x) :: groups
      else if d =? d' then (d', (x + total)%Q) :: groups'
      else (d', total) :: add_to_group d x groups'
  end.

Fixpoint lookup_group (d : date) (groups : list (date * Q)) : option Q :=
  match groups with
  | [] => None
  | (d', total) :: groups' => if d =? d' then Some total else lookup_group d groups'
  end.

(** [df.pivot(index=..., columns=..., values=...)] on rows
    [((index, column), value)]: the labels on both axes are the distinct
    keys in ascending order, a cell without a row is NaN, and two rows
    with the same pair of keys are an error. *)
Record pivot_table : Type := mkPivot {
  pv_index : list Z;
  pv_columns : list Z;
  pv_values : list (list num)
}.

Definition key_eqb (a b : Z * Z) : bool :=
  (fst a =? fst b) && (snd a =? snd b).

Fixpoint lookup_cell (k : Z * Z) (rows : list ((Z * Z) * num)) : option num :=
  match rows with
  | [] => None
  | (k', v) :: rows' => if key_eqb k k' then Some v else lookup_cell k rows'
  end.

Fixpoint has_duplicate_key (rows : list ((Z * Z) * num)) : bool :=
  match rows with
  | [] => false
  | (k, _) :: rows' =>
      existsb (fun r => key_eqb k (fst r)) rows' || has_duplicate_key rows'
  end.

Definition pivot (rows : list ((Z * Z) * num)) : result pivot_table :=
  if has_duplicate_key rows then Raise ValueError
  else
    let index := sorted_unique (map (fun r => fst (fst r)) rows) in
    let columns := sorted_unique (map (fun r => snd (fst r)) rows) in
    Ok (mkPivot index columns
          (map (fun i => map (fun c => match lookup_cell (i, c) rows with
                                       | Some v => v
                                       | None => NaN
                                       end) columns) index)).

(** The data handed to the plot: [z], [x] and [y] of [go.Heatmap]. *)
Record heatmap : Type := mkHeatmap {
  hm_z : list (list num);
  hm_x : list Z;
  hm_y : list string
}.

(** ** Row selection and reductions

    What the dashboard uses of pandas beyond the pipeline: boolean masks,
    [df[mask]], [sum], [mean] and [max]. *)

(** [col[mask]]: the cells whose mask is true, in order. *)
Fixpoint select_rows {A : Type} (mask : list bool) (col : list A) : list A :=
  match mask, col with
  | b :: mask', x :: col' =>
      if b then x :: select_rows mask' col' else select_rows mask' col'
  | _, _ => []
  end.

(** [df[mask]] for a mask computed from a column of [df]. *)
Definition filter_rows (mask : list bool) (df : DataFrame) : DataFrame :=
  mkDataFrame (List.length (filter (fun b : bool => b) mask))
    (map (fun kc => (fst kc, select_rows mask (snd kc))) (cols df)).

(** [df.empty]: no row or no column. *)
Definition frame_empty (df : DataFrame) : bool :=
  Nat.eqb (nrows df) 0 || Nat.eqb (List.length (cols df)) 0.

(** [series == s] for a string [s]; a cell that is not a string differs. *)
Definition series_eq_str (col : list value) (s : string) : list bool :=
  map (fun v => match v with VStr s' => String.eqb s' s | _ => false end) col.

(** [series == n] for an int [n] on a column of numbers. *)
Definition series_eq_int (col : list value) (n : Z) : list bool :=
  map (fun v => match as_num v with
                | Some x => num_eqb x (num_of_Z n)
                | None => false
                end) col.

(** [series > k] on a column of numbers; a missing value compares false. *)
Definition series_gt (col : list value) (k : Q) : result (list bool) :=
  mapM (fun v => match as_num v with
                 | Some x => Ok (num_gtb x (Fin k))
                 | None => Raise TypeError
                 end) col.

(** [series >= d] for a date [d] on a column of dates; a missing value
    compares false. *)
Definition series_ge_date (col : list value) (d : date) : result (list bool) :=
  mapM (fun v => match v with
                 | VDate d' => Ok (d <=? d')
                 | VNaT | VNum NaN => Ok false
                 | _ => Raise TypeError
                 end) col.

(** [a & b] on two masks *)
Definition mask_and (a b : list bool) : list bool :=
  map (fun p => fst p && snd p) (combine a b).

(** [series.sum()]: missing values are skipped, and the sum of no value
    is 0. *)
Fixpoint series_sum (col : list value) : result Q :=
  match col with
  | [] => Ok 0%Q
  | v :: col' =>
      match as_num v with
      | Some (Fin q) => s <- series_sum col' ;; Ok (q + s)%Q
      | Some NaN => series_sum col'
      | None => Raise TypeError
      end
  end.

(** [series.count()]: the number of values present. *)
Fixpoint series_count (col : list value) : Z :=
  match col with
  | [] => 0
  | v :: col' =>
      match as_num v with
      | Some (Fin _) => 1 + series_count col'
      | _ => series_count col'
      end
  end.

(** [series.mean()]: the mean of the values present, NaN when there is
    none. *)
Definition series_mean (col : list value) : result num :=
  s <- series_sum col ;;
  let n := series_count col in
  Ok (if n =? 0 then NaN else Fin (s / inject_Z n)).

(** [series.max()]: the largest value present, NaN when there is none. *)
Fixpoint series_max (col : list value) : result num :=
  match col with
  | [] => Ok NaN
  | v :: col' =>
      match as_num v with
      | Some x =>
          m <- series_max col' ;;
          Ok (match x, m with
              | Fin a, Fin b => Fin (if Qle_bool a b then b else a)
              | Fin a, NaN => Fin a
              | NaN, _ => m
              end)
      | None => Raise TypeError
      end
  end.

(** A month as a period: the months are numbered through the years, so
    that the order of the numbers is the order of the periods. *)
Definition period_M (d : date) : Z := year_of d * 12 + (month_of d - 1).

(** [series.dt.to_period('M')]: the month of each timestamp, none for
    NaT. *)
Definition dt_to_period_M (col : list value) : result (list (option Z)) :=
  mapM (fun v => match v with
                 | VTime t => Ok (Some (period_M (dt_date t)))
                 | VNaT => Ok None
                 | _ => Raise AttributeError
                 end) col.

(** [df.groupby(keys)[c].sum()]: one total per key, the keys ascending;
    rows without a key are dropped, missing values skipped. *)
Fixpoint group_totals (keys : list (option Z)) (col : list value) : result (list (Z * Q)) :=
  match keys, col with
  | key :: keys', v :: col' =>
      groups <- group_totals keys' col' ;;
      x <- match as_num v with
           | Some (Fin q) => Ok q
           | Some NaN => Ok 0%Q
           | None => Raise TypeError
           end ;;
      match key with
      | Some k => Ok (add_to_group k x groups)
      | None => Ok groups
      end
  | _, _ => Ok []
  end.

(** [series.idxmax()]: the label of the first largest value; a series
    without values is an error. *)
Definition idxmax (s : list (Z * Q)) : result Z :=
  match s with
  | [] => Raise ValueError
  | first :: s' =>
      Ok (fst (fold_left
                 (fun best kv : Z * Q =>
                    if negb (Qle_bool (snd kv) (snd best)) then kv else best)
                 s' first))
  end.

(** ** Python numbers as text *)

(** [int(x)] for a finite [x]: truncation towards zero. *)
Definition int_of_Q (q : Q) : Z := Z.quot (Qnum q) (Z.pos (Qden q)).

(** [str(n)] and [f"{n}"] for an int [n]. *)
Definition str_of_int (n : Z) : string :=
  DecimalString.NilZero.string_of_int (Z.to_int n).

(** [f"{n:02d}"]: padded with a zero to two characters, the sign
    included. *)
Definition format_02d (n : Z) : string :=
  let s := str_of_int n in
  if (String.length s <? 2)%nat then ("0" ++ s)%string else s.

(** ** [src/app.py] *)

Module App.

(** *** Token and paginated fetch *)

Definition get_access_token (net : network) : result json :=
  match token_endpoint net with
  | ConnectionFailed => Raise RequestException
  | Response status body =>
      _ <- raise_for_status status ;;
      match body with
      | None => Raise JSONDecodeError
      | Some (JObj fields) =>
          match assoc "access_token" fields with
          | Some token => Ok token
          | None => Raise (KeyError "access_token")
          end
      | Some _ => Raise TypeError
      end
  end.

(** The [while True] loop of [fetch_strava_data].  [fuel] bounds the
    number of iterations the model runs; [None] means the loop was
    still running when the fuel ran out.  The second component is the
    list of the queries [(per_page, page)] sent so far, oldest first. *)
Fixpoint fetch_loop (fuel : nat) (net : network) (page : Z)
         (all_activities : list json) (requested : list (Z * Z))
  : option (result (list json) * list (Z * Z)) :=
  match fuel with
  | O => None
  | S fuel' =>
      let requested := requested ++ [(PER_PAGE, page)] in
      match request_json (activities_endpoint net PER_PAGE page) with
      | Raise e => Some (Raise e, requested)
      | Ok data =>
          if negb (truthy data) then Some (Ok all_activities, requested)
          else
            match iterate data, len data with
            | Ok items, Ok n =>
                let all_activities := all_activities ++ items in
                if n <? PER_PAGE then Some (Ok all_activities, requested)
                else
                  let page := page + 1 in
                  if PAGE_CAP <? page then Some (Ok all_activities, requested)
                  else fetch_loop fuel' net page all_activities requested
            | Raise e, _ => Some (Raise e, requested)
            | _, Raise e => Some (Raise e, requested)
            end
      end
  end.

(** [fetch_strava_data], with the pages it requested. *)
Definition fetch_strava_data_run (fuel : nat) (net : network)
  : option (result (list json) * list (Z * Z)) :=
  match get_access_token net with
  | Raise e => Some (Raise e, [])
  | Ok _ => fetch_loop fuel net 1 [] []
  end.

(** [fetch_strava_data()]: the loop never needs more than [PAGE_CAP]
    iterations (lemma [fetch_strava_data_total]). *)
Definition fetch_strava_data (net : network) : result (list json) :=
  match fetch_strava_data_run (Z.to_nat PAGE_CAP) net with
  | Some (r, _) => r
  | None => Raise ValueError
  end.

(** *** Classification *)

Definition classify_pace_zone (pace : num) : string :=
  if num_eqb pace (Fin 0) then UNKNOWN
  else if num_ltb pace (Fin (45 # 10)) then SPEED
  else if num_ltb pace (Fin (55 # 10)) then TEMPO
  else if num_ltb pace (Fin (65 # 10)) then EASY
  else RECOVERY.

Definition classify_time_of_day (hour : num) : string :=
  if num_leb (Fin 5) hour && num_ltb hour (Fin 12) then MORNING
  else if num_leb (Fin 12) hour && num_ltb hour (Fin 18) then AFTERNOON
  else EVENING.

(** [lambda x: x['moving_time_min'] / x['distance_km']
             if x['distance_km'] > 0 else 0] *)
Definition pace_lambda (moving_time_min distance_km : value) : result value :=
  match as_num distance_km, as_num moving_time_min with
  | Some d, Some m =>
      if num_gtb d (Fin 0) then Ok (VNum (num_div m d)) else Ok (VNum (Fin 0))
  | _, _ => Raise TypeError
  end.

Section WithPandas.

Variable parse_datetime : value -> option datetime.

(** *** Record processing *)

Definition process_data (data : json) : result DataFrame :=
  match data with
  | JArr records =>
      df <- pd_DataFrame records ;;
      let available_cols := filter (fun c => has_column c df) RAW_COLS in
      df <- select df available_cols ;;
      c <- getitem df "start_date_local" ;;
      c <- to_datetime parse_datetime c ;;
      let df := setitem df "start_date_local" c in
      c <- getitem df "start_date_local" ;;
      c <- to_datetime parse_datetime c ;;
      c <- dt_get_date c ;;
      let df := setitem df "date" c in
      c <- getitem df "start_date_local" ;;
      c <- dt_get_hour c ;;
      let df := setitem df "hour" c in
      c <- getitem df "start_date_local" ;;
      c <- dt_day_name c ;;
      let df := setitem df "weekday" c in
      c <- getitem df "start_date_local" ;;
      c <- dt_isocalendar_week c ;;
      let df := setitem df "week" c in
      c <- getitem df "start_date_local" ;;
      c <- dt_get_month c ;;
      let df := setitem df "month" c in
      c <- getitem df "start_date_local" ;;
      c <- dt_get_year c ;;
      let df := setitem df "year" c in
      c <- getitem df "distance" ;;
      c <- series_div c 1000 ;;
      let df := setitem df "distance_km" c in
      c <- getitem df "moving_time" ;;
      c <- series_div c 60 ;;
      let df := setitem df "moving_time_min" c in
      m <- getitem df "moving_time_min" ;;
      d <- getitem df "distance_km" ;;
      c <- apply_rows2 pace_lambda m d ;;
      let df := setitem df "pace" c in
      c <- getitem df "pace" ;;
      c <- series_apply classify_pace_zone c ;;
      let df := setitem df "pace_zone" c in
      c <- getitem df "hour" ;;
      c <- series_apply classify_time_of_day c ;;
      let df := setitem df "time_of_day" c in
      Ok df
  | _ => Ok empty_frame
  end.

(** *** Config and schedule *)

(** [load_config()] for a config file that holds a JSON object, or for
    none; [OnDisk.load_config] has the other contents of the file. *)
Definition load_config (fs : files) : config :=
  match config_file fs with
  | Some c => c
  | None => mkConfig (Some 100) None
  end.

Definition save_config (fs : files) (c : config) : files := dump_config fs c.

Definition should_update_data (cfg : config) (now : datetime) : bool :=
  match last_update cfg with
  | None => true
  | Some last_update =>
      let today_8am := replace_time now 8 0 0 0 in
      if datetime_ltb last_update today_8am && datetime_leb today_8am now then true
      else if dt_date last_update <? dt_date now then true
      else false
  end.

(** *** Snapshot load with backfill *)

(** [if cond: df[c] = compute(df)] *)
Definition assign_if (cond : bool) (c : string)
           (compute : DataFrame -> result (list value)) (df : DataFrame)
  : result DataFrame :=
  if cond then col <- compute df ;; Ok (setitem df c col)
  else Ok df.

Definition load_data (fs : files) (net : network) : result DataFrame * files :=
  match csv_file fs with
  | Some snapshot =>
      (df <- read_csv snapshot ;;
       c <- getitem df "start_date_local" ;;
       c <- to_datetime parse_datetime c ;;
       let df := setitem df "start_date_local" c in
       df <- (if negb (has_column "date" df) then
                c <- getitem df "start_date_local" ;;
                c <- to_datetime parse_datetime c ;;
                c <- dt_get_date c ;;
                Ok (setitem df "date" c)
              else
                c <- getitem df "date" ;;
                c <- to_datetime parse_datetime c ;;
                c <- dt_get_date c ;;
                Ok (setitem df "date" c)) ;;
       df <- assign_if (negb (has_column "hour" df)) "hour"
               (fun df => c <- getitem df "start_date_local" ;; dt_get_hour c) df ;;
       df <- assign_if (negb (has_column "weekday" df)) "weekday"
               (fun df => c <- getitem df "start_date_local" ;; dt_day_name c) df ;;
       df <- assign_if (negb (has_column "week" df)) "week"
               (fun df => c <- getitem df "start_date_local" ;; dt_isocalendar_week c) df ;;
       df <- assign_if (negb (has_column "month" df)) "month"
               (fun df => c <- getitem df "start_date_local" ;; dt_get_month c) df ;;
       df <- assign_if (negb (has_column "year" df)) "year"
               (fun df => c <- getitem df "start_date_local" ;; dt_get_year c) df ;;
       df <- assign_if (negb (has_column "pace_zone" df) && has_column "pace" df)
               "pace_zone"
               (fun df => c <- getitem df "pace" ;; series_apply classify_pace_zone c) df ;;
       df <- assign_if (negb (has_column "time_of_day" df) && has_column "hour" df)
               "time_of_day"
               (fun df => c <- getitem df "hour" ;; series_apply classify_time_of_day c) df ;;
       Ok df,
       fs)
  | None =>
      match (raw_data <- fetch_strava_data net ;; process_data (JArr raw_data)) with
      | Ok df => (Ok df, to_csv fs df)
      | Raise e => (Raise e, fs)
      end
  end.

(** *** Sync *)

(** [update_data()]: the [try] block writes the snapshot and the
    config only after fetch and processing returned.  The config is
    read as [files] holds it; [OnDisk.update_data] follows the read
    that can fail. *)
Definition update_data (now : datetime) (net : network) (fs : files)
  : option exn * files :=
  match (raw_data <- fetch_strava_data net ;; process_data (JArr raw_data)) with
  | Ok df =>
      let fs := to_csv fs df in
      let cfg := load_config fs in
      let fs := save_config fs (mkConfig (monthly_goal cfg) (Some now)) in
      (None, fs)
  | Raise e => (Some e, fs)
  end.

Definition auto_update_if_needed (now : datetime) (net : network) (fs : files)
  : option DataFrame * files :=
  let cfg := load_config fs in
  if should_update_data cfg now then
    match (raw_data <- fetch_strava_data net ;; process_data (JArr raw_data)) with
    | Ok df =>
        let fs := to_csv fs df in
        let fs := save_config fs (mkConfig (monthly_goal cfg) (Some now)) in
        (Some df, fs)
    | Raise e => (None, fs)
    end
  else (None, fs).


(** *** Activity heatmap *)

(** [df.groupby('date')['distance_km'].sum()]: one total per distinct
    date, rows without a date dropped, missing distances skipped. *)
Fixpoint groupby_sum (dates km : list value) : result (list (date * Q)) :=
  match dates, km with
  | vd :: dates', vk :: km' =>
      groups <- groupby_sum dates' km' ;;
      x <- match as_num vk with
           | Some (Fin q) => Ok q
           | Some NaN => Ok 0%Q
           | None => Raise TypeError
           end ;;
      match vd with
      | VDate d => Ok (add_to_group d x groups)
      | VNaT => Ok groups
      | VNum NaN => Ok groups
      | _ => Raise TypeError
      end
  | _, _ => Ok []
  end.

Definition create_activity_heatmap (df : DataFrame) (today : date)
  : result heatmap :=
  df <- assign_if (negb (has_column "date" df)) "date"
          (fun df => c <- getitem df "start_date_local" ;;
                     c <- to_datetime parse_datetime c ;;
                     dt_get_date c) df ;;
  let end_date := today in
  let start_date := end_date - 364 in
  dates <- getitem df "date" ;;
  km <- getitem df "distance_km" ;;
  daily_km <- groupby_sum dates km ;;
  let date_range := consecutive start_date (Z.to_nat (end_date - start_date + 1)) in
  let full_df :=
    map (fun d => (d, match lookup_group d daily_km with
                      | Some total => Fin total
                      | None => Fin 0
                      end)) date_range in
  let full_df :=
    map (fun r => ((weekday (fst r), (fst r - start_date) / 7), snd r)) full_df in
  heatmap_data <- pivot full_df ;;
  Ok (mkHeatmap (pv_values heatmap_data) (pv_columns heatmap_data)
        ["Mon"; "Tue"; "Wed"; "Thu"; "Fri"; "Sat"; "Sun"]%string).

End WithPandas.

(** *** Running streak (in [main]) *)

(** [sorted(df['date'].unique())] on a column of dates.  A cell that
    holds no date is left out; with a missing date among the dates
    Python's [sorted] raises a [TypeError] instead, which is why the
    properties of the streaks are stated for lists of dates and for
    columns without missing dates. *)
Definition unique_dates (col : list value) : list date :=
  sorted_unique
    (flat_map (fun v => match v with VDate d => [d] | _ => [] end) col).

(** The loop over [range(1, len(dates))]: [prev] is [dates[i-1]] and
    [rest] starts at [dates[i]]. *)
Fixpoint streak_loop (prev : date) (rest : list date) (max_streak temp_streak : Z)
  : Z * Z :=
  match rest with
  | [] => (max_streak, temp_streak)
  | d :: rest' =>
      if d - prev =? 1 then streak_loop d rest' max_streak (temp_streak + 1)
      else streak_loop d rest' (Z.max max_streak temp_streak) 1
  end.

(** [max_streak] after the final [max(max_streak, temp_streak)]. *)
Definition longest_streak (dates : list date) : Z :=
  let '(max_streak, temp_streak) :=
    match dates with
    | [] => (0, 1)
    | d0 :: rest => streak_loop d0 rest 0 1
    end in
  Z.max max_streak temp_streak.

(** *** Display of a pace *)

Definition format_pace (pace_minutes : num) : string :=
  if num_eqb pace_minutes (Fin 0) || is_nan pace_minutes then "-"
  else
    match pace_minutes with
    | Fin p =>
        let minutes := int_of_Q p in
        let seconds := int_of_Q ((p - inject_Z minutes) * 60) in
        (str_of_int minutes ++ ":" ++ format_02d seconds)%string
    | NaN => "-"
    end.

(** *** The dashboard ([main]) *)

(** [config.get('monthly_goal', 100)] *)
Definition config_monthly_goal (cfg : config) : Z :=
  match monthly_goal cfg with
  | Some goal => goal
  | None => 100
  end.

(** The goal entered in the sidebar is saved when it differs from the
    configured one. *)
Definition store_monthly_goal (monthly_goal : Z) (fs : files) : files :=
  let config := load_config fs in
  if negb (monthly_goal =? config_monthly_goal config) then
    save_config fs (mkConfig (Some monthly_goal) (last_update config))
  else fs.

Section Dashboard.

Variable parse_datetime : value -> option datetime.

(** [auto_df = auto_update_if_needed()] followed by [df = load_data()]:
    a failed automatic update is only reported, an exception of
    [load_data] ends [main]. *)
Definition refresh_and_load (now : datetime) (net : network) (fs : files)
  : result DataFrame * files :=
  let '(auto_df, fs) := auto_update_if_needed parse_datetime now net fs in
  load_data parse_datetime fs net.

(** [if 'type' in df.columns: df = df[df['type'] == 'Run']] *)
Definition run_rows (df : DataFrame) : result DataFrame :=
  if has_column "type" df then
    c <- getitem df "type" ;;
    Ok (filter_rows (series_eq_str c "Run") df)
  else Ok df.

(** [if 'date' not in df.columns: df['date'] = ...] *)
Definition with_date (df : DataFrame) : result DataFrame :=
  assign_if (negb (has_column "date" df)) "date"
    (fun df => c <- getitem df "start_date_local" ;;
               c <- to_datetime parse_datetime c ;;
               dt_get_date c) df.

(** [(df['start_date_local'].dt.year == today.year)] *)
Definition year_mask (today : datetime) (df : DataFrame) : result (list bool) :=
  c <- getitem df "start_date_local" ;;
  c <- dt_get_year c ;;
  Ok (series_eq_int c (year_of (dt_date today))).

(** [(df['start_date_local'].dt.month == today.month)] *)
Definition month_mask (today : datetime) (df : DataFrame) : result (list bool) :=
  c <- getitem df "start_date_local" ;;
  c <- dt_get_month c ;;
  Ok (series_eq_int c (month_of (dt_date today))).

(** [df['date'] >= (today - timedelta(days=n)).date()] *)
Definition since_mask (today : datetime) (n : Z) (df : DataFrame) : result (list bool) :=
  let cutoff_date := dt_date today - n in
  c <- getitem df "date" ;;
  series_ge_date c cutoff_date.

(** The condition between the brackets of [df[...]] for each choice of
    the period selectbox; [None] for the choice that keeps [df] as it
    is. *)
Definition period_mask (date_filter : string) (today : datetime) (df : DataFrame)
  : result (option (list bool)) :=
  if String.eqb date_filter "This Month" then
    y <- year_mask today df ;;
    m <- month_mask today df ;;
    Ok (Some (mask_and y m))
  else if String.eqb date_filter "Last 7 Days" then
    mask <- since_mask today 7 df ;; Ok (Some mask)
  else if String.eqb date_filter "Last 30 Days" then
    mask <- since_mask today 30 df ;; Ok (Some mask)
  else if String.eqb date_filter "Last 90 Days" then
    mask <- since_mask today 90 df ;; Ok (Some mask)
  else if String.eqb date_filter "This Year" then
    mask <- year_mask today df ;; Ok (Some mask)
  else Ok None.

Definition df_filtered (date_filter : string) (today : datetime) (df : DataFrame)
  : result DataFrame :=
  mask <- period_mask date_filter today df ;;
  Ok (match mask with
      | Some mask => filter_rows mask df
      | None => df
      end).

End Dashboard.

(** The key metrics of the selected period. *)

Definition total_km (df_filtered : DataFrame) : result Q :=
  c <- getitem df_filtered "distance_km" ;;
  series_sum c.

Definition total_runs (df_filtered : DataFrame) : Z :=
  Z.of_nat (nrows df_filtered).

Definition avg_pace (df_filtered : DataFrame) : result num :=
  c <- getitem df_filtered "pace" ;;
  mask <- series_gt c 0 ;;
  c <- getitem (filter_rows mask df_filtered) "pace" ;;
  series_mean c.

Definition total_elevation (df_filtered : DataFrame) : result Q :=
  if has_column "total_elevation_gain" df_filtered then
    c <- getitem df_filtered "total_elevation_gain" ;;
    series_sum c
  else Ok 0%Q.

Definition longest_run (df_filtered : DataFrame) : result num :=
  if negb (frame_empty df_filtered) then
    c <- getitem df_filtered "distance_km" ;;
    series_max c
  else Ok (Fin 0).

(** The monthly goal progress. *)

Definition current_month_km (today : datetime) (df : DataFrame) : result Q :=
  y <- year_mask today df ;;
  m <- month_mask today df ;;
  c <- getitem (filter_rows (mask_and y m) df) "distance_km" ;;
  series_sum c.

(** [min(a, b)] of Python: [b] when [b < a], else [a]. *)
Definition py_min (a b : Q) : Q :=
  if negb (Qle_bool a b) then b else a.

Definition progress_pct (current_month_km : Q) (monthly_goal : Z) : Q :=
  if 0 <? monthly_goal then
    py_min (current_month_km / inject_Z monthly_goal * 100) 100
  else 0.

(** *** Most active month (in [main]) *)

Definition monthly_totals (df : DataFrame) : result (list (Z * Q)) :=
  c <- getitem df "start_date_local" ;;
  keys <- dt_to_period_M c ;;
  km <- getitem df "distance_km" ;;
  group_totals keys km.

Definition best_month (df : DataFrame) : result Z :=
  monthly_totals <- monthly_totals df ;;
  idxmax monthly_totals.

(** *** Current streak (in [main]) *)

(** The loop over [range(len(dates)-1, 0, -1)], on the dates from the
    last one backwards: [d] is [dates[i]] and [earlier] starts at
    [dates[i-1]]. *)
Fixpoint current_streak_loop (d : date) (earlier : list date) (current_streak : Z) : Z :=
  match earlier with
  | [] => current_streak
  | p :: earlier' =>
      if d - p =? 1 then current_streak_loop p earlier' (current_streak + 1)
      else current_streak
  end.

Definition current_streak (today : date) (dates : list date) : Z :=
  match rev dates with
  | [] => 0
  | last :: earlier =>
      if today - last <=? 1 then current_streak_loop last earlier 0 + 1
      else 0
  end.

End App.

(** ** [src/update_data.py] *)

Module UpdateData.

Definition get_access_token (net : network) : result json :=
  match token_endpoint net with
  | ConnectionFailed => Raise RequestException
  | Response status body =>
      _ <- raise_for_status status ;;
      match body with
      | None => Raise JSONDecodeError
      | Some (JObj fields) =>
          match assoc "access_token" fields with
          | Some token => Ok token
          | None => Raise (KeyError "access_token")
          end
      | Some _ => Raise TypeError
      end
  end.

Fixpoint fetch_loop (fuel : nat) (net : network) (page : Z)
         (all_activities : list json) (requested : list (Z * Z))
  : option (result (list json) * list (Z * Z)) :=
  match fuel with
  | O => None
  | S fuel' =>
      let requested := requested ++ [(PER_PAGE, page)] in
      match request_json (activities_endpoint net PER_PAGE page) with
      | Raise e => Some (Raise e, requested)
      | Ok data =>
          if negb (truthy data) then Some (Ok all_activities, requested)
          else
            match iterate data, len data with
            | Ok items, Ok n =>
                let all_activities := all_activities ++ items in
                if n <? PER_PAGE then Some (Ok all_activities, requested)
                else
                  let page := page + 1 in
                  if PAGE_CAP <? page then Some (Ok all_activities, requested)
                  else fetch_loop fuel' net page all_activities requested
            | Raise e, _ => Some (Raise e, requested)
            | _, Raise e => Some (Raise e, requested)
            end
      end
  end.

(** [fetch_strava_data(access_token)], with the pages it requested. *)
Definition fetch_strava_data_run (fuel : nat) (net : network)
  : option (result (list json) * list (Z * Z)) :=
  fetch_loop fuel net 1 [] [].

Definition fetch_strava_data (net : network) : result (list json) :=
  match fetch_strava_data_run (Z.to_nat PAGE_CAP) net with
  | Some (r, _) => r
  | None => Raise ValueError
  end.

Definition classify_pace_zone (pace : num) : string :=
  if num_eqb pace (Fin 0) then UNKNOWN
  else if num_ltb pace (Fin (45 # 10)) then SPEED
  else if num_ltb pace (Fin (55 # 10)) then TEMPO
  else if num_ltb pace (Fin (65 # 10)) then EASY
  else RECOVERY.

Definition classify_time_of_day (hour : num) : string :=
  if num_leb (Fin 5) hour && num_ltb hour (Fin 12) then MORNING
  else if num_leb (Fin 12) hour && num_ltb hour (Fin 18) then AFTERNOON
  else EVENING.

Definition pace_lambda (moving_time_min distance_km : value) : result value :=
  match as_num distance_km, as_num moving_time_min with
  | Some d, Some m =>
      if num_gtb d (Fin 0) then Ok (VNum (num_div m d)) else Ok (VNum (Fin 0))
  | _, _ => Raise TypeError
  end.

Section WithPandas.

Variable parse_datetime : value -> option datetime.

Definition process_data (data : json) : result DataFrame :=
  match data with
  | JArr records =>
      df <- pd_DataFrame records ;;
      let available_cols := filter (fun c => has_column c df) RAW_COLS in
      df <- select df available_cols ;;
      c <- getitem df "start_date_local" ;;
      c <- to_datetime parse_datetime c ;;
      let df := setitem df "start_date_local" c in
      c <- getitem df "start_date_local" ;;
      c <- to_datetime parse_datetime c ;;
      c <- dt_get_date c ;;
      let df := setitem df "date" c in
      c <- getitem df "start_date_local" ;;
      c <- dt_get_hour c ;;
      let df := setitem df "hour" c in
      c <- getitem df "start_date_local" ;;
      c <- dt_day_name c ;;
      let df := setitem df "weekday" c in
      c <- getitem df "start_date_local" ;;
      c <- dt_isocalendar_week c ;;
      let df := setitem df "week" c in
      c <- getitem df "start_date_local" ;;
      c <- dt_get_month c ;;
      let df := setitem df "month" c in
      c <- getitem df "start_date_local" ;;
      c <- dt_get_year c ;;
      let df := setitem df "year" c in
      c <- getitem df "distance" ;;
      c <- series_div c 1000 ;;
      let df := setitem df "distance_km" c in
      c <- getitem df "moving_time" ;;
      c <- series_div c 60 ;;
      let df := setitem df "moving_time_min" c in
      m <- getitem df "moving_time_min" ;;
      d <- getitem df "distance_km" ;;
      c <- apply_rows2 pace_lambda m d ;;
      let df := setitem df "pace" c in
      c <- getitem df "pace" ;;
      c <- series_apply classify_pace_zone c ;;
      let df := setitem df "pace_zone" c in
      c <- getitem df "hour" ;;
      c <- series_apply classify_time_of_day c ;;
      let df := setitem df "time_of_day" c in
      Ok df
  | _ => Ok empty_frame
  end.

(** [main()]: the exit status and the files it leaves.
    [credentials] says whether the three environment variables are
    set.  The config is read as [files] holds it; [OnDisk.main]
    follows the read that can fail. *)
Definition main (credentials : bool) (now : datetime) (net : network) (fs : files)
  : Z * files :=
  if negb credentials then (1, fs)
  else
    match (_ <- get_access_token net ;;
           raw_data <- fetch_strava_data net ;;
           process_data (JArr raw_data)) with
    | Ok df =>
        let fs := to_csv fs df in
        let cfg := match config_file fs with
                   | Some c => c
                   | None => mkConfig None None
                   end in
        let fs := dump_config fs (mkConfig (monthly_goal cfg) (Some now)) in
        (0, fs)
    | Raise e => (1, fs)
    end.

End WithPandas.

End UpdateData.

(** ** The sync paths over the files on disk

    The three sync paths again, with the config read as the programs
    read it: [json.load] may raise, and what it returns need not be a
    dict. *)

Module OnDisk.

(** [df.to_csv(CSV_FILE, index=False)] *)
Definition to_csv (d : disk) (df : DataFrame) : disk :=
  mkDisk (Some df) (disk_config d).

(** [json.dump(config, f)] on the config file *)
Definition dump_config (d : disk) (config : config_dict) : disk :=
  mkDisk (disk_csv d) (Some (ObjectText config)).

(** [load_config()] of [src/app.py] *)
Definition load_config (d : disk) : result loaded_json :=
  match disk_config d with
  | Some content => json_load content
  | None => Ok (Dict (mkDict (Some 100) NoStamp))
  end.

Definition save_config (d : disk) (config : config_dict) : disk := dump_config d config.

(** [should_update_data(config)] of [src/app.py]: [config.get] needs a
    dict and [datetime.fromisoformat] an ISO string. *)
Definition should_update_data (config : loaded_json) (now : datetime) : result bool :=
  match config with
  | NotDict => Raise AttributeError
  | Dict c =>
      match dict_last_update c with
      | NoStamp => Ok true
      | Stamp t => Ok (App.should_update_data (mkConfig (dict_goal c) (Some t)) now)
      | NotISO => Raise ValueError
      | NotText => Raise TypeError
      end
  end.

Section WithPandas.

Variable parse_datetime : value -> option datetime.

(** [update_data()] of [src/app.py]: everything happens in one [try],
    and the snapshot is written before the config is read. *)
Definition update_data (now : datetime) (net : network) (d : disk)
  : option exn * disk :=
  match (raw_data <- App.fetch_strava_data net ;;
         App.process_data parse_datetime (JArr raw_data)) with
  | Ok df =>
      let d := to_csv d df in
      match (config <- load_config d ;; set_last_update config now) with
      | Ok config => (None, save_config d config)
      | Raise e => (Some e, d)
      end
  | Raise e => (Some e, d)
  end.

(** [auto_update_if_needed()] of [src/app.py]: the config is read and
    the schedule consulted before the [try]; an exception there leaves
    the function. *)
Definition auto_update_if_needed (now : datetime) (net : network) (d : disk)
  : result (option DataFrame) * disk :=
  match (config <- load_config d ;;
         due <- should_update_data config now ;;
         Ok (config, due)) with
  | Raise e => (Raise e, d)
  | Ok (config, true) =>
      match (raw_data <- App.fetch_strava_data net ;;
             App.process_data parse_datetime (JArr raw_data)) with
      | Ok df =>
          let d := to_csv d df in
          match set_last_update config now with
          | Ok config => (Ok (Some df), save_config d config)
          | Raise e => (Ok None, d)
          end
      | Raise e => (Ok None, d)
      end
  | Ok (config, false) => (Ok None, d)
  end.

(** [main()] of [src/update_data.py] *)
Definition main (credentials : bool) (now : datetime) (net : network) (d : disk)
  : Z * disk :=
  if negb credentials then (1, d)
  else
    match (_ <- UpdateData.get_access_token net ;;
           raw_data <- UpdateData.fetch_strava_data net ;;
           UpdateData.process_data parse_datetime (JArr raw_data)) with
    | Ok df =>
        let d := to_csv d df in
        match (config <- match disk_config d with
                         | Some content => json_load content
                         | None => Ok (Dict (mkDict None NoStamp))
                         end ;;
               set_last_update config now) with
        | Ok config => (0, dump_config d config)
        | Raise e => (1, d)
        end
    | Raise e => (1, d)
    end.

End WithPandas.

End OnDisk.

(** ** A parser for the timestamps the API emits

    [YYYY-MM-DDTHH:MM:SS], optionally followed by [Z]; used to run the
    model on concrete payloads. *)

Definition digit (c : ascii) : option Z :=
  let n := Z.of_nat (nat_of_ascii c) in
  if (48 <=? n) && (n <=? 57) then Some (n - 48) else None.

Fixpoint digits (n : nat) (s : string) (acc : Z) : option (Z * string) :=
  match n with
  | O => Some (acc, s)
  | S n' =>
      match s with
      | String c s' =>
          match digit c with
          | Some d => digits n' s' (acc * 10 + d)
          | None => None
          end
      | EmptyString => None
      end
  end.

Definition expect (c : ascii) (s : string) : option string :=
  match s with
  | String c' s' => if Ascii.eqb c c' then Some s' else None
  | EmptyString => None
  end.

Definition obind {A B : Type} (m : option A) (k : A -> option B) : option B :=
  match m with Some a => k a | None => None end.

Definition parse_iso8601 (s : string) : option datetime :=
  obind (digits 4 s 0) (fun '(y, s) =>
  obind (expect "-" s) (fun s =>
  obind (digits 2 s 0) (fun '(mo, s) =>
  obind (expect "-" s) (fun s =>
  obind (digits 2 s 0) (fun '(d, s) =>
  obind (expect "T" s) (fun s =>
  obind (digits 2 s 0) (fun '(h, s) =>
  obind (expect ":" s) (fun s =>
  obind (digits 2 s 0) (fun '(mi, s) =>
  obind (expect ":" s) (fun s =>
  obind (digits 2 s 0) (fun '(se, s) =>
  if String.eqb s "Z" || String.eqb s "" then
    Some (mkDatetime (ymd2ord y mo d) h mi se 0)
  else None))))))))))).

Definition iso_parser (v : value) : option datetime :=
  match v with
  | VStr s => parse_iso8601 s
  | _ => None
  end.

Definition activity (name : string) (distance moving_time : Q) (start : string) : json :=
  JObj [("name", JStr name); ("distance", JNum distance);
        ("moving_time", JNum moving_time); ("start_date_local", JStr start);
        ("type", JStr "Run")]%string.

(** ** Sample data *)

Definition sample_records : list json :=
  [activity "morning run" 5000 1500 "2024-01-06T07:30:00Z";
   activity "paused watch" 1000 0 "2024-01-07T19:05:00Z";
   activity "treadmill" 0 1800 "2024-01-09T12:00:00Z"].

Definition sample_frame : DataFrame :=
  match App.process_data iso_parser (JArr sample_records) with
  | Ok df => df
  | Raise _ => empty_frame
  end.

(** A network that is down. *)
Definition idle_net : network :=
  mkNetwork ConnectionFailed (fun _ _ => ConnectionFailed).

(** ** Reading a page as the fetch loop does *)

Inductive page_kind : Type :=
| PageError (e : exn)
| PageEmpty
| PageShort (items : list json)
| PageFull (items : list json).

Definition classify_page (r : reply) : page_kind :=
  match request_json r with
  | Raise e => PageError e
  | Ok data =>
      if negb (truthy data) then PageEmpty
      else
        match iterate data, len data with
        | Ok items, Ok n => if n <? PER_PAGE then PageShort items else PageFull items
        | Raise e, _ => PageError e
        | _, Raise e => PageError e
        end
  end.

Definition is_full (k : page_kind) : bool :=
  match k with PageFull _ => true | _ => false end.

Definition page_items (k : page_kind) : list json :=
  match k with
  | PageShort items | PageFull items => items
  | PageError _ | PageEmpty => []
  end.

Definition page_of (net : network) (page : Z) : page_kind :=
  classify_page (activities_endpoint net PER_PAGE page).

(** The queries [(per_page, page)] for [n] pages from [first] on. *)
Definition queries (first : Z) (n : nat) : list (Z * Z) :=
  map (fun page => (200, page)) (consecutive first n).

(** ** The specification's reading of the classifications and the schedule *)

Definition pace_zone_spec (pace : Q) (zone : string) : Prop :=
  (pace == 0 /\ zone = UNKNOWN)%Q
  \/ (0 < pace /\ pace < 45 # 10 /\ zone = SPEED)%Q
  \/ (45 # 10 <= pace /\ pace < 55 # 10 /\ zone = TEMPO)%Q
  \/ (55 # 10 <= pace /\ pace < 65 # 10 /\ zone = EASY)%Q
  \/ (65 # 10 <= pace /\ zone = RECOVERY)%Q.

Definition time_of_day_spec (hour : Z) (zone : string) : Prop :=
  (5 <= hour < 12 /\ zone = MORNING)
  \/ (12 <= hour < 18 /\ zone = AFTERNOON)
  \/ (~ 5 <= hour < 18 /\ zone = EVENING).

Definition valid_time (t : datetime) : Prop :=
  0 <= dt_hour t < 24 /\ 0 <= dt_minute t < 60
  /\ 0 <= dt_second t < 60 /\ 0 <= dt_microsecond t < 1000000.

Definition instant (t : datetime) : Z :=
  (((dt_date t * 24 + dt_hour t) * 60 + dt_minute t) * 60 + dt_second t) * 1000000
  + dt_microsecond t.

Definition refresh_due (cfg : config) (now : datetime) : Prop :=
  match last_update cfg with
  | None => True
  | Some last =>
      (instant last < instant (mkDatetime (dt_date now) 8 0 0 0)
       /\ instant (mkDatetime (dt_date now) 8 0 0 0) <= instant now)
      \/ dt_date last < dt_date now
  end.

(** ** The specification's reading of the longest streak *)

Definition is_run (dates : list date) (first : date) (n : Z) : Prop :=
  forall i, 0 <= i < n -> In (first + i) dates.

Definition longest_run (dates : list date) (n : Z) : Prop :=
  0 <= n
  /\ (exists first, is_run dates first n)
  /\ (forall first k, is_run dates first k -> k <= n).

Definition streak_inv (seen : list date) (prev max_streak temp_streak : Z) : Prop :=
  In prev seen
  /\ (forall x, In x seen -> x <= prev)
  /\ 0 <= max_streak
  /\ 1 <= temp_streak
  /\ is_run seen (prev - temp_streak + 1) temp_streak
  /\ ~ In (prev - temp_streak) seen
  /\ (exists first, is_run seen first max_streak)
  /\ (forall first k, is_run seen first k -> first + k - 1 < prev - temp_streak + 1 -> k <= max_streak).

(** ** Frames: cells, schema and the shape of a processed frame *)

(** [df[c][i]] *)
Definition cell (df : DataFrame) (c : string) (i : nat) : option value :=
  match assoc c (cols df) with
  | Some col => nth_error col i
  | None => None
  end.

(** [c in names] *)
Definition mem (c : string) (names : list string) : bool :=
  existsb (String.eqb c) names.

(** The snapshot an older schema would have written: [df] without the
    columns [dropped]. *)
Definition drop_columns (dropped : list string) (df : DataFrame) : DataFrame :=
  mkDataFrame (nrows df) (filter (fun kc => negb (mem (fst kc) dropped)) (cols df)).

Definition is_timestamp (v : value) : Prop :=
  match v with VTime _ | VNaT => True | _ => False end.

Definition is_date (v : value) : Prop :=
  match v with VDate _ | VNaT => True | _ => False end.

Definition is_number (v : value) : Prop :=
  match v with VNum _ => True | _ => False end.

(** The columns of a processed frame, in terms of the raw ones. *)
Inductive processed (records : list json) (df : DataFrame) : Prop :=
| Processed (sdl dates hours weekdays weeks months years dk mm pace zones tods : list value)
    (pr_nrows : nrows df = List.length records)
    (pr_timestamps : Forall is_timestamp sdl)
    (pr_get_sdl : getitem df "start_date_local" = Ok sdl)
    (pr_get_date : getitem df "date" = Ok dates)
    (pr_date : dt_get_date sdl = Ok dates)
    (pr_get_hour : getitem df "hour" = Ok hours)
    (pr_hour : dt_get_hour sdl = Ok hours)
    (pr_get_weekday : getitem df "weekday" = Ok weekdays)
    (pr_weekday : dt_day_name sdl = Ok weekdays)
    (pr_get_week : getitem df "week" = Ok weeks)
    (pr_week : dt_isocalendar_week sdl = Ok weeks)
    (pr_get_month : getitem df "month" = Ok months)
    (pr_month : dt_get_month sdl = Ok months)
    (pr_get_year : getitem df "year" = Ok years)
    (pr_year : dt_get_year sdl = Ok years)
    (pr_get_dk : getitem df "distance_km" = Ok dk)
    (pr_dk_len : List.length dk = List.length records)
    (pr_dk_num : Forall is_number dk)
    (pr_get_mm : getitem df "moving_time_min" = Ok mm)
    (pr_mm_len : List.length mm = List.length records)
    (pr_mm_num : Forall is_number mm)
    (pr_get_pace : getitem df "pace" = Ok pace)
    (pr_pace_rows : apply_rows2 App.pace_lambda mm dk = Ok pace)
    (pr_get_pace_zone : getitem df "pace_zone" = Ok zones)
    (pr_pace_zone : series_apply App.classify_pace_zone pace = Ok zones)
    (pr_get_time_of_day : getitem df "time_of_day" = Ok tods)
    (pr_time_of_day : series_apply App.classify_time_of_day hours = Ok tods).

Definition pace_zero_iff_distance_zero (df : DataFrame) : Prop :=
  forall i d p,
    cell df "distance_km" i = Some (VNum d) ->
    cell df "pace" i = Some (VNum p) ->
    num_eqb d (Fin 0) = true <-> num_eqb p (Fin 0) = true.

(** What [process_data] guarantees about row [i]: the three cells are
    numbers, the pace is the guarded quotient, a zero distance gives a
    zero pace, the pace is missing only if the moving time is, and the
    pace is zero exactly when the distance is not positive or the moving
    time is zero. *)
Definition pace_row_facts (df : DataFrame) (i : nat) : Prop :=
  exists d m p,
    cell df "distance_km" i = Some (VNum d)
    /\ cell df "moving_time_min" i = Some (VNum m)
    /\ cell df "pace" i = Some (VNum p)
    /\ p = (if num_gtb d (Fin 0) then num_div m d else Fin 0)
    /\ (num_eqb d (Fin 0) = true -> num_eqb p (Fin 0) = true)
    /\ (is_nan m = false -> is_nan p = false)
    /\ (is_nan m = false ->
        num_eqb p (Fin 0) = true <-> num_gtb d (Fin 0) = false \/ num_eqb m (Fin 0) = true).






(** ** The specification's reading of the heatmap *)

Definition date_is (d : date) (v : value) : bool :=
  match v with VDate d' => d' =? d | _ => false end.

Definition km_value (v : value) : Q :=
  match as_num v with Some (Fin q) => q | _ => 0%Q end.

(** The distance summed over the activities of day [d]. *)
Fixpoint day_total (dates km : list value) (d : date) : Q :=
  match dates, km with
  | vd :: dates', vk :: km' =>
      if date_is d vd then (km_value vk + day_total dates' km' d)%Q
      else day_total dates' km' d
  | _, _ => 0%Q
  end.

(** Whether some activity took place on day [d]. *)
Fixpoint active_on (dates km : list value) (d : date) : bool :=
  match dates, km with
  | vd :: dates', vk :: km' => date_is d vd || active_on dates' km' d
  | _, _ => false
  end.

Definition groupable (v : value) : bool :=
  match v with VDate _ | VNaT | VNum NaN => true | _ => false end.

Definition numeric (v : value) : bool :=
  match as_num v with Some _ => true | None => false end.

(** A dataset the heatmap can be drawn from: a [date] column of dates and
    a numeric [distance_km] column. *)
Definition dataset_ready (df : DataFrame) : bool :=
  match getitem df "date", getitem df "distance_km" with
  | Ok dates, Ok km => forallb groupable dates && forallb numeric km
  | _, _ => false
  end.

(** The cell of the grid in row [r] (weekday) and column [c] (week). *)
Definition grid_cell (hm : heatmap) (r c : Z) : option num :=
  match nth_error (hm_z hm) (Z.to_nat r) with
  | Some row => nth_error row (Z.to_nat c)
  | None => None
  end.

(** Where the heatmap puts day [d] of the year that starts on [start]. *)
Definition grid_key (start d : date) : Z * Z := (weekday d, (d - start) / 7).

(** The grid [hm] drawn on [today] from the columns [dates] and [km]:
    seven rows labelled Monday to Sunday, columns for the weeks 0 to 52,
    every day of the trailing 365 in the cell of its weekday and week
    with the total of that day (zero without activity), distinct days in
    distinct cells, and every other cell empty. *)
Definition heatmap_facts (today : date) (hm : heatmap) (dates km : list value) : Prop :=
  hm_y hm = ["Mon"; "Tue"; "Wed"; "Thu"; "Fri"; "Sat"; "Sun"]%string
  /\ List.length (hm_z hm) = 7%nat
  /\ hm_x hm = consecutive 0 53
  /\ (forall row, In row (hm_z hm) -> List.length row = 53%nat)
  /\ (forall d, today - 364 <= d <= today ->
        0 <= weekday d < 7
        /\ 0 <= (d - (today - 364)) / 7 < 53
        /\ exists x,
            grid_cell hm (weekday d) ((d - (today - 364)) / 7) = Some (Fin x)
            /\ (x == day_total dates km d)%Q
            /\ (active_on dates km d = false -> x = 0%Q))
  /\ (forall d1 d2, today - 364 <= d1 <= today -> today - 364 <= d2 <= today ->
        grid_key (today - 364) d1 = grid_key (today - 364) d2 -> d1 = d2)
  /\ (forall r c, 0 <= r < 7 -> 0 <= c < 53 ->
        (exists d, today - 364 <= d <= today /\ grid_key (today - 364) d = (r, c))
        \/ grid_cell hm r c = Some NaN).

Definition sorted_groups (groups : list (date * Q)) : Prop :=
  StronglySorted Z.lt (map fst groups).

(** ** A sync interrupted by an HTTP error *)

Definition token_reply : reply :=
  Response 200 (Some (JObj [("access_token", JStr "token")]%string)).

Definition full_page : list json :=
  repeat (activity "run" 5000 1500 "2024-01-06T07:30:00Z") 200.

(** Pages 1 and 2 are full; page 3 answers 500 with an empty JSON body. *)
Definition server_error_net : network :=
  mkNetwork token_reply
    (fun _ page => if page <=? 2 then Response 200 (Some (JArr full_page))
                   else Response 500 (Some (JArr []))).

(** Pages 1 and 2 are full; page 3 answers 429 with the API's error
    object. *)
Definition rate_limited_net : network :=
  mkNetwork token_reply
    (fun _ page => if page <=? 2 then Response 200 (Some (JArr full_page))
                   else Response 429
                          (Some (JObj [("message", JStr "Rate Limit Exceeded");
                                       ("errors", JArr [])]%string))).

(** The files left by an earlier, complete sync of 401 activities. *)
Definition previous_files : files :=
  mkFiles
    (match App.process_data iso_parser
             (JArr (full_page ++ full_page ++ [activity "long run" 21000 7200 "2024-01-07T08:00:00Z"])) with
     | Ok df => Some df
     | Raise _ => None
     end)
    (Some (mkConfig (Some 100) (Some (mkDatetime (ymd2ord 2024 1 7) 8 0 0 0)))).

Definition sync_time : datetime := mkDatetime (ymd2ord 2024 1 8) 8 0 0 0.

(** ** An endpoint that ignores the page size *)

(** Every query is answered with 400 records, whatever [per_page]
    asked for. *)
Definition oversize_page : list json :=
  repeat (activity "run" 5000 1500 "2024-01-06T07:30:00Z") 400.

Definition oversize_net : network :=
  mkNetwork token_reply (fun _ _ => Response 200 (Some (JArr oversize_page))).

(** ** A server that pages faithfully *)

(** Page [page] of size [per_page] of a stored list. *)
Definition page_slice (activities : list json) (per_page page : Z) : list json :=
  firstn (Z.to_nat per_page) (skipn (Z.to_nat ((page - 1) * per_page)) activities).

(** The API of an account that holds [activities]: the token request
    succeeds and every page is the corresponding slice. *)
Definition paged_server (activities : list json) : network :=
  mkNetwork token_reply
    (fun per_page page => Response 200 (Some (JArr (page_slice activities per_page page)))).

(** Page 1 is full; the connection drops on page 2. *)
Definition dropped_net : network :=
  mkNetwork token_reply
    (fun _ page => if page <=? 1 then Response 200 (Some (JArr full_page))
                   else ConnectionFailed).

(** ** A sync over the files on disk *)

(** The result of fetching and processing, the part of a sync that
    comes before any write. *)
Definition fetched_frame (parse_datetime : value -> option datetime) (net : network)
  : result DataFrame :=
  raw_data <- App.fetch_strava_data net ;;
  App.process_data parse_datetime (JArr raw_data).

(** The config file can be read and updated: there is none, or it holds
    a JSON object. *)
Definition config_is_object (d : disk) : bool :=
  match disk_config d with
  | Some NotJSON | Some NotObject => false
  | Some (ObjectText _) | None => true
  end.

(** The monthly goal of the config on disk, [default] being the one of
    the dict a program starts from when there is no file. *)
Definition goal_on_disk (default : option Z) (d : disk) : option Z :=
  match disk_config d with
  | Some (ObjectText c) => dict_goal c
  | _ => default
  end.

(** The disk after a completed sync: the snapshot is the processed
    frame, the config records the time of the sync and keeps the
    goal. *)
Definition synced_disk (df : DataFrame) (goal : option Z) (now : datetime) : disk :=
  mkDisk (Some df) (Some (ObjectText (mkDict goal (Stamp now)))).

(** The disk of an interrupted sync: the snapshot is replaced, the
    config is the one from before. *)
Definition torn_disk (d : disk) (df : DataFrame) : disk :=
  mkDisk (Some df) (disk_config d).

(** ** Frames as [load_data] returns them *)

(** The timestamp column holds timestamps, the date column dates, the
    calendar columns and the time of day are present, and the pace zone
    is present whenever the pace is. *)
Definition loaded (df : DataFrame) : Prop :=
  (exists sdl, getitem df "start_date_local" = Ok sdl /\ Forall is_timestamp sdl)
  /\ (exists dates, getitem df "date" = Ok dates /\ Forall is_date dates)
  /\ has_column "hour" df = true
  /\ has_column "weekday" df = true
  /\ has_column "week" df = true
  /\ has_column "month" df = true
  /\ has_column "year" df = true
  /\ (has_column "pace_zone" df = true \/ has_column "pace" df = false)
  /\ has_column "time_of_day" df = true.

(** A snapshot written before the hour and the two classifications
    existed, and the frame [load_data] makes of it. *)
Definition legacy_snapshot : DataFrame :=
  drop_columns ["hour"; "pace_zone"; "time_of_day"]%string sample_frame.

Definition reloaded_frame : DataFrame :=
  match fst (App.load_data iso_parser (to_csv (mkFiles None None) legacy_snapshot) idle_net) with
  | Ok df => df
  | Raise _ => empty_frame
  end.

(** A snapshot from an earlier run beside a config file that was cut
    off while it was written. *)
Definition truncated_config_disk : disk :=
  mkDisk (Some legacy_snapshot) (Some NotJSON).

(** ** The schema of a processed frame *)

(** The columns [process_data] adds, in the order it adds them. *)
Definition DERIVED_COLS : list string :=
  ["date"; "hour"; "weekday"; "week"; "month"; "year"; "distance_km";
   "moving_time_min"; "pace"; "pace_zone"; "time_of_day"]%string.

(** Whether some record has the field [c]. *)
Definition has_field (c : string) (records : list json) : bool :=
  existsb (fun r => match record_keys r with
                    | Some keys => mem c keys
                    | None => false
                    end) records.

(** A frame with the labels [names] in this order and [n] cells in every
    column. *)
Definition shape (n : nat) (names : list string) (df : DataFrame) : Prop :=
  columns df = names
  /\ nrows df = n
  /\ Forall (fun kc => List.length (snd kc) = n) (cols df).

(** An activity as the pipeline needs it: an object with a timestamp
    that parses, a distance and a moving time. *)
Definition well_formed_activity (parse_datetime : value -> option datetime) (r : json) : bool :=
  match r with
  | JObj fields =>
      match assoc "start_date_local" fields, assoc "distance" fields,
            assoc "moving_time" fields with
      | Some (JStr s), Some (JNum _), Some (JNum _) =>
          match parse_datetime (VStr s) with Some _ => true | None => false end
      | _, _, _ => false
      end
  | _ => false
  end.

(** ** Frames of the dashboard *)

(** Every column has one cell per row, as in any pandas frame. *)
Definition rectangular (df : DataFrame) : Prop :=
  Forall (fun kc => List.length (snd kc) = nrows df) (cols df).

(** The number of rows a mask selects. *)
Definition selected (mask : list bool) : nat :=
  List.length (filter (fun b : bool => b) mask).

(** Whether a cell holds a pace above zero. *)
Definition positive_pace (v : value) : bool :=
  match as_num v with
  | Some x => num_gtb x (Fin 0)
  | None => false
  end.

(** The sample activities recorded as rides. *)
Definition ride_frame : DataFrame :=
  setitem sample_frame "type" [VStr "Ride"; VStr "Ride"; VStr "Ride"].

(** A frame as an older version of the pipeline left it: the timestamps
    and the distances, no date column. *)
Definition undated_frame : DataFrame :=
  drop_columns ["date"]%string sample_frame.

(** ** The specification's reading of the current streak *)

(** The run of [n] consecutive days that ends on [last] and cannot be
    extended backwards. *)
Definition run_ending (dates : list date) (last : date) (n : Z) : Prop :=
  1 <= n
  /\ is_run dates (last - n + 1) n
  /\ ~ In (last - n) dates.

(** ** The totals of a month *)

(** The distance summed over the rows of month [k], and whether there
    is such a row. *)
Fixpoint month_total (keys : list (option Z)) (km : list value) (k : Z) : Q :=
  match keys, km with
  | key :: keys', v :: km' =>
      match key with
      | Some k' => if k' =? k then (km_value v + month_total keys' km' k)%Q
                   else month_total keys' km' k
      | None => month_total keys' km' k
      end
  | _, _ => 0%Q
  end.

Fixpoint month_active (keys : list (option Z)) (km : list value) (k : Z) : bool :=
  match keys, km with
  | key :: keys', v :: km' =>
      match key with
      | Some k' => (k' =? k) || month_active keys' km' k
      | None => month_active keys' km' k
      end
  | _, _ => false
  end.

(** ** Further environments and readings *)

(** The token endpoint refuses the refresh token, with a body that
    nevertheless carries a token; the listing would answer. *)
Definition unauthorized_net : network :=
  mkNetwork (Response 401 (Some (JObj [("access_token", JStr "stale")]%string)))
    (fun _ _ => Response 200 (Some (JArr full_page))).

(** One day in microseconds. *)
Definition DAY_US : Z := 24 * 60 * 60 * 1000000.

(** A date column without missing values. *)
Definition all_dates (col : list value) : Prop :=
  Forall (fun v => exists d, v = VDate d) col.

(** Two date columns with a run on the same days. *)
Definition same_days (col col' : list value) : Prop :=
  forall d, In (VDate d) col <-> In (VDate d) col'.

(** An activity with a timestamp that parses, whatever else it has. *)
Definition timed_activity (parse_datetime : value -> option datetime) (r : json) : bool :=
  match r with
  | JObj fields =>
      match assoc "start_date_local" fields with
      | Some (JStr s) =>
          match parse_datetime (VStr s) with Some _ => true | None => false end
      | _ => false
      end
  | _ => false
  end.

(** Activities as a device without distance tracking would report them. *)
Definition untracked_records : list json :=
  [JObj [("name", JStr "yoga"); ("start_date_local", JStr "2024-01-06T07:30:00Z");
         ("moving_time", JNum 1800)]]%string.

(** The sum of the totals of all groups. *)
Definition totals_sum (groups : list (Z * Q)) : Q :=
  fold_right (fun kv s => (snd kv + s)%Q) 0%Q groups.

(** * Properties *)

(** ** Classification *)

Lemma num_eqb_Fin (a b : Q) : num_eqb (Fin a) (Fin b) = true <-> (a == b)%Q.
Proof. apply Qeq_bool_iff. Qed.

Lemma num_leb_Fin (a b : Q) : num_leb (Fin a) (Fin b) = true <-> (a <= b)%Q.
Proof. apply Qle_bool_iff. Qed.

Lemma num_ltb_Fin (a b : Q) : num_ltb (Fin a) (Fin b) = true <-> (a < b)%Q.
Proof.
  simpl. rewrite negb_true_iff. split; intro H.
  - apply Qnot_le_lt. intro Hle. apply Qle_bool_iff in Hle. congruence.
  - destruct (Qle_bool b a) eqn:E; [|reflexivity].
    apply Qle_bool_iff in E. exfalso. exact (Qlt_not_le _ _ H E).
Qed.

Lemma num_eqb_reflect (a b : Q) : reflect (a == b)%Q (num_eqb (Fin a) (Fin b)).
Proof. apply iff_reflect. symmetry. apply num_eqb_Fin. Qed.

Lemma num_leb_reflect (a b : Q) : reflect (a <= b)%Q (num_leb (Fin a) (Fin b)).
Proof. apply iff_reflect. symmetry. apply num_leb_Fin. Qed.

Lemma num_ltb_reflect (a b : Q) : reflect (a < b)%Q (num_ltb (Fin a) (Fin b)).
Proof. apply iff_reflect. symmetry. apply num_ltb_Fin. Qed.

Lemma classify_pace_zone_spec (pace : Q) (zone : string) :
  (0 <= pace)%Q ->
  App.classify_pace_zone (Fin pace) = zone <-> pace_zone_spec pace zone.
Proof.
  intro Hpos. unfold App.classify_pace_zone, pace_zone_spec.
  destruct (num_eqb_reflect pace 0) as [E0|E0];
    [|destruct (num_ltb_reflect pace (45 # 10)) as [E1|E1];
      [|destruct (num_ltb_reflect pace (55 # 10)) as [E2|E2];
        [|destruct (num_ltb_reflect pace (65 # 10)) as [E3|E3]]]].
  all: split;
    [ intros <-; repeat (first [left; repeat split; (reflexivity || lra) | right]);
      repeat split; (reflexivity || lra)
    | intros [[H ->]|[(H1 & H2 & ->)|[(H1 & H2 & ->)|[(H1 & H2 & ->)|[H ->]]]]];
      first [reflexivity | exfalso; lra] ].
Qed.

Lemma classify_time_of_day_spec (hour : Z) (zone : string) :
  App.classify_time_of_day (num_of_Z hour) = zone <-> time_of_day_spec hour zone.
Proof.
  unfold App.classify_time_of_day, time_of_day_spec, num_of_Z.
  change 5%Q with (inject_Z 5). change 12%Q with (inject_Z 12). change 18%Q with (inject_Z 18).
  destruct (num_leb_reflect (inject_Z 5) (inject_Z hour)) as [A|A];
  destruct (num_ltb_reflect (inject_Z hour) (inject_Z 12)) as [B|B];
  destruct (num_leb_reflect (inject_Z 12) (inject_Z hour)) as [C|C];
  destruct (num_ltb_reflect (inject_Z hour) (inject_Z 18)) as [D|D];
  rewrite <- ?Zle_Qle, <- ?Zlt_Qlt in *; simpl;
  (split; [intros <-; intuition lia | intros [[H ->]|[[H ->]|[H ->]]]; first [reflexivity | exfalso; lia]]).
Qed.

(** C9: the classification functions are total and never fail; every
    pace [>= 0] lies in exactly one pace zone (0 Unknown, (0, 4.5) Speed,
    [4.5, 5.5) Tempo, [5.5, 6.5) Easy, [6.5, oo) Recovery) and every hour,
    0 to 23 in particular, in exactly one time-of-day zone ([5, 12)
    Morning, [12, 18) Afternoon, Evening otherwise): the zone computed is
    the one and only zone the specification allows. *)
Theorem classification_total_partition :
  (forall (pace : Q) (zone : string),
      (0 <= pace)%Q ->
      App.classify_pace_zone (Fin pace) = zone <-> pace_zone_spec pace zone)
  /\ (forall (hour : Z) (zone : string),
        App.classify_time_of_day (num_of_Z hour) = zone <-> time_of_day_spec hour zone).
Proof.
  split.
  - intros pace zone Hpace. now apply classify_pace_zone_spec.
  - intros hour zone. apply classify_time_of_day_spec.
Qed.

Lemma classification_total_partition_witness :
  pace_zone_spec 5 TEMPO /\ time_of_day_spec 7 MORNING.
Proof.
  split.
  - apply (proj1 classification_total_partition 5%Q TEMPO); [discriminate|reflexivity].
  - apply (proj2 classification_total_partition 7 MORNING). reflexivity.
Defined.

(** ** Refresh schedule *)

Lemma datetime_ltb_instant (a b : datetime) :
  valid_time a -> valid_time b ->
  datetime_ltb a b = true <-> instant a < instant b.
Proof.
  unfold valid_time, datetime_ltb, instant. intros Ha Hb.
  rewrite !orb_true_iff, !andb_true_iff, !orb_true_iff, !andb_true_iff,
    !Z.ltb_lt, !Z.eqb_eq, ?orb_true_iff, ?andb_true_iff, ?Z.ltb_lt, ?Z.eqb_eq.
  lia.
Qed.

Lemma datetime_leb_instant (a b : datetime) :
  valid_time a -> valid_time b ->
  datetime_leb a b = true <-> instant a <= instant b.
Proof.
  intros Ha Hb. unfold datetime_leb. rewrite orb_true_iff, datetime_ltb_instant by assumption.
  unfold valid_time, datetime_eqb, instant in *.
  rewrite !andb_true_iff, !Z.eqb_eq. lia.
Qed.

(** C5: [should_update_data] answers true exactly when the last update
    is absent, or it lies before today's 08:00 and 08:00 has passed, or
    its date is before today's date; with the three examples of the
    specification, for any day. *)
Theorem should_update_data_rules :
  (forall (cfg : config) (now : datetime),
      valid_time now ->
      (forall last, last_update cfg = Some last -> valid_time last) ->
      App.should_update_data cfg now = true <-> refresh_due cfg now)
  /\ (forall (goal : option Z) (today : date),
        App.should_update_data (mkConfig goal (Some (mkDatetime today 7 0 0 0)))
          (mkDatetime today 9 0 0 0) = true
        /\ App.should_update_data (mkConfig goal (Some (mkDatetime today 9 0 0 0)))
             (mkDatetime today 10 0 0 0) = false
        /\ App.should_update_data (mkConfig goal (Some (mkDatetime (today - 1) 23 0 0 0)))
             (mkDatetime today 0 30 0 0) = true).
Proof.
  split.
  - intros cfg now Hnow Hlast. unfold App.should_update_data, refresh_due.
    destruct (last_update cfg) as [last|]; [|tauto].
    specialize (Hlast last eq_refl).
    assert (H8 : valid_time (replace_time now 8 0 0 0))
      by (unfold valid_time, replace_time; simpl; lia).
    change (mkDatetime (dt_date now) 8 0 0 0) with (replace_time now 8 0 0 0).
    rewrite <- datetime_ltb_instant, <- datetime_leb_instant by assumption.
    destruct (datetime_ltb last (replace_time now 8 0 0 0)); simpl;
      destruct (datetime_leb (replace_time now 8 0 0 0) now); simpl;
        destruct (Z.ltb_spec (dt_date last) (dt_date now)); intuition (try lia; try congruence).
  - intros goal today.
    unfold App.should_update_data, datetime_leb, datetime_ltb, datetime_eqb, replace_time; simpl.
    rewrite !Z.eqb_refl, !Z.ltb_irrefl. simpl.
    replace (today - 1 <? today) with true by (symmetry; apply Z.ltb_lt; lia).
    rewrite ?andb_false_r. simpl. auto.
Qed.

Lemma should_update_data_rules_witness :
  refresh_due (mkConfig (Some 100) (Some (mkDatetime (ymd2ord 2024 1 8) 7 0 0 0)))
    (mkDatetime (ymd2ord 2024 1 8) 9 0 0 0).
Proof.
  apply (proj1 should_update_data_rules
           (mkConfig (Some 100) (Some (mkDatetime (ymd2ord 2024 1 8) 7 0 0 0)))
           (mkDatetime (ymd2ord 2024 1 8) 9 0 0 0)).
  - unfold valid_time; simpl; lia.
  - intros last H. injection H as <-. unfold valid_time; simpl; lia.
  - reflexivity.
Defined.

(** ** Paginated fetch *)

Lemma fetch_loop_step (fuel : nat) (net : network) (page : Z)
      (acc : list json) (req : list (Z * Z)) :
  App.fetch_loop (S fuel) net page acc req =
  match page_of net page with
  | PageError e => Some (Raise e, req ++ [(PER_PAGE, page)])
  | PageEmpty => Some (Ok acc, req ++ [(PER_PAGE, page)])
  | PageShort items => Some (Ok (acc ++ items), req ++ [(PER_PAGE, page)])
  | PageFull items =>
      if PAGE_CAP <? page + 1 then Some (Ok (acc ++ items), req ++ [(PER_PAGE, page)])
      else App.fetch_loop fuel net (page + 1) (acc ++ items) (req ++ [(PER_PAGE, page)])
  end.
Proof.
  unfold page_of, classify_page. simpl.
  destruct (request_json _) as [data|e]; [|reflexivity].
  destruct (truthy data); simpl; [|reflexivity].
  destruct (iterate data) as [items|e], (len data) as [n|e']; try reflexivity.
  destruct (n <? PER_PAGE); reflexivity.
Qed.

Lemma consecutive_length (start : Z) (n : nat) : List.length (consecutive start n) = n.
Proof. revert start. induction n; simpl; intros; [reflexivity|f_equal; auto]. Qed.

Lemma in_consecutive (start : Z) (n : nat) (x : Z) :
  In x (consecutive start n) <-> start <= x < start + Z.of_nat n.
Proof.
  revert start. induction n as [|n IH]; intro start; simpl.
  - lia.
  - rewrite IH. lia.
Qed.

(** The loop started at [page] with [m + 1] pages left before the cap. *)
Lemma fetch_loop_run (net : network) (m : nat) :
  forall (fuel : nat) (page : Z) (acc : list json) (req : list (Z * Z)),
    page = PAGE_CAP - Z.of_nat m ->
    (m < fuel)%nat ->
    exists (r : result (list json)) (k : nat),
      App.fetch_loop fuel net page acc req = Some (r, req ++ queries page k)
      /\ (1 <= k <= S m)%nat
      /\ (forall p, page <= p < page + Z.of_nat k - 1 -> is_full (page_of net p) = true)
      /\ (k = S m \/ is_full (page_of net (page + Z.of_nat k - 1)) = false)
      /\ match page_of net (page + Z.of_nat k - 1) with
         | PageError e => r = Raise e
         | _ => r = Ok (acc ++ flat_map (fun p => page_items (page_of net p)) (consecutive page k))
         end.
Proof.
  induction m as [|m IH]; intros fuel page acc req Hpage Hfuel.
  - destruct fuel as [|fuel]; [lia|]. rewrite fetch_loop_step.
    unfold PAGE_CAP in *.
    replace (100 <? page + 1) with true by (symmetry; apply Z.ltb_lt; lia).
    exists (match page_of net page with
            | PageError e => Raise e
            | k => Ok (acc ++ page_items k)
            end), 1%nat.
    replace (page + Z.of_nat 1 - 1) with page by lia.
    simpl consecutive. simpl flat_map. rewrite app_nil_r.
    refine (conj _ (conj _ (conj _ (conj _ _)))).
    + destruct (page_of net page); simpl; rewrite ?app_nil_r; reflexivity.
    + lia.
    + intros; lia.
    + now left.
    + destruct (page_of net page); simpl; rewrite ?app_nil_r; reflexivity.
  - destruct fuel as [|fuel]; [lia|]. rewrite fetch_loop_step.
    unfold PAGE_CAP in *.
    destruct (page_of net page) as [e| |items|items] eqn:Hk.
    1-3: eexists _, 1%nat; replace (page + Z.of_nat 1 - 1) with page by lia;
         rewrite Hk; simpl; rewrite ?Hk; simpl; rewrite ?app_nil_r;
         (refine (conj _ (conj _ (conj _ (conj _ _)))); [reflexivity | lia | intros; lia | now right | reflexivity]).
    replace (100 <? page + 1) with false by (symmetry; apply Z.ltb_ge; lia).
    destruct (IH fuel (page + 1) (acc ++ items) (req ++ [(PER_PAGE, page)]))
      as (r & k & Hrun & Hk1 & Hfull & Hstop & Hres); [lia | lia |].
    exists r, (S k).
    replace (page + Z.of_nat (S k) - 1) with (page + 1 + Z.of_nat k - 1) by lia.
    refine (conj _ (conj _ (conj _ (conj _ _)))).
    + rewrite Hrun. simpl. rewrite <- app_assoc. reflexivity.
    + lia.
    + intros p Hp. destruct (Z.eq_dec p page) as [->|Hne]; [now rewrite Hk|].
      apply Hfull. lia.
    + destruct Hstop as [->|Hstop]; [now left | now right].
    + destruct (page_of net (page + 1 + Z.of_nat k - 1)); try exact Hres;
        rewrite Hres; simpl; rewrite Hk; simpl; rewrite <- app_assoc; reflexivity.
Qed.

Lemma fetch_loop_agree (fuel : nat) (net : network) (page : Z)
      (acc : list json) (req : list (Z * Z)) :
  UpdateData.fetch_loop fuel net page acc req = App.fetch_loop fuel net page acc req.
Proof. reflexivity. Qed.

Lemma flat_map_length_le {A B : Type} (f : A -> list B) (l : list A) (n : nat) :
  (forall a, In a l -> (List.length (f a) <= n)%nat) ->
  (List.length (flat_map f l) <= List.length l * n)%nat.
Proof.
  induction l as [|a l IH]; intro H; simpl; [lia|].
  rewrite length_app. specialize (H a (or_introl eq_refl)) as Ha.
  assert (List.length (flat_map f l) <= List.length l * n)%nat by (apply IH; intros; apply H; now right).
  lia.
Qed.

Lemma fetch_loop_deterministic (net : network) (fuel : nat) :
  (99 < fuel)%nat ->
  App.fetch_loop fuel net 1 [] [] = App.fetch_loop 100 net 1 [] [].
Proof.
  intro Hfuel.
  destruct (fetch_loop_run net 99 100 1 [] []) as (r & k & Hrun & Hk & Hfull & Hstop & Hres);
    [reflexivity | lia |].
  destruct (fetch_loop_run net 99 fuel 1 [] []) as (r' & k' & Hrun' & Hk' & Hfull' & Hstop' & Hres');
    [reflexivity | lia |].
  replace (1 + Z.of_nat k - 1) with (Z.of_nat k) in * by lia.
  replace (1 + Z.of_nat k' - 1) with (Z.of_nat k') in * by lia.
  assert (k' = k).
  { destruct (Nat.lt_trichotomy k' k) as [Hlt|[Heq|Hgt]]; [exfalso|exact Heq|exfalso].
    - destruct Hstop' as [->|Hs]; [lia|].
      rewrite Hfull in Hs by lia. discriminate.
    - destruct Hstop as [->|Hs]; [lia|].
      rewrite Hfull' in Hs by lia. discriminate. }
  subst k'. rewrite Hrun, Hrun'. f_equal. f_equal.
  destruct (page_of net (Z.of_nat k)); congruence.
Qed.

(** C8: the fetch starts at page 1 with 200 records per page and always
    terminates: whatever the endpoint answers, 100 iterations are enough
    and more fuel changes nothing.  The queries sent are (200, 1) ..
    (200, k) with k <= 100; every page before the last was full; the last page failed,
    was empty or short, or was page 100 (the cap); the result is the
    error of the last page or the items of the pages in order, at most
    20,000 of them when no page exceeds the page size. *)
Theorem fetch_terminates_within_cap (net : network) :
  exists (r : result (list json)) (k : nat),
    (forall fuel, (Z.to_nat PAGE_CAP <= fuel)%nat ->
        UpdateData.fetch_strava_data_run fuel net = Some (r, queries 1 k)
        /\ (App.fetch_strava_data_run fuel net = Some (r, queries 1 k)
            \/ exists e, App.get_access_token net = Raise e
                         /\ App.fetch_strava_data_run fuel net = Some (Raise e, [])))
    /\ (1 <= k <= 100)%nat
    /\ (forall p, 1 <= p < Z.of_nat k -> is_full (page_of net p) = true)
    /\ (k = 100%nat \/ is_full (page_of net (Z.of_nat k)) = false)
    /\ match page_of net (Z.of_nat k) with
       | PageError e => r = Raise e
       | _ => r = Ok (flat_map (fun p => page_items (page_of net p)) (consecutive 1 k))
       end
    /\ (forall activities,
          r = Ok activities ->
          (forall p, (List.length (page_items (page_of net p)) <= 200)%nat) ->
          Z.of_nat (List.length activities) <= 20000).
Proof.
  destruct (fetch_loop_run net 99 100 1 [] []) as (r & k & Hrun & Hk & Hfull & Hstop & Hres);
    [reflexivity | lia |].
  replace (1 + Z.of_nat k - 1) with (Z.of_nat k) in * by lia.
  exists r, k.
  refine (conj _ (conj _ (conj _ (conj _ (conj _ _))))); [intros fuel Hfuel; split| lia | | | |].
  - unfold UpdateData.fetch_strava_data_run. rewrite fetch_loop_agree.
    rewrite fetch_loop_deterministic by (unfold PAGE_CAP in Hfuel; lia). exact Hrun.
  - unfold App.fetch_strava_data_run. destruct (App.get_access_token net) as [token|e].
    + left. rewrite fetch_loop_deterministic by (unfold PAGE_CAP in Hfuel; lia). exact Hrun.
    + right. exists e. split; reflexivity.
  - intros p Hp. apply Hfull. lia.
  - destruct Hstop as [->|Hs]; [now left | now right].
  - exact Hres.
  - intros activities -> Hlen.
    assert (Hr : Ok activities = Ok (flat_map (fun p => page_items (page_of net p)) (consecutive 1 k)))
      by (destruct (page_of net (Z.of_nat k)); first [exact Hres | discriminate]).
    injection Hr as ->.
    pose proof (flat_map_length_le (fun p => page_items (page_of net p)) (consecutive 1 k) 200
                  (fun a _ => Hlen a)) as Hb.
    rewrite consecutive_length in Hb. lia.
Qed.

Lemma fetch_terminates_within_cap_witness :
  exists (r : result (list json)) (k : nat),
    UpdateData.fetch_strava_data_run 100 server_error_net = Some (r, queries 1 k)
    /\ (1 <= k <= 100)%nat
    /\ (forall activities, r = Ok activities -> Z.of_nat (List.length activities) <= 20000).
Proof.
  destruct (fetch_terminates_within_cap server_error_net)
    as (r & k & Hrun & Hk & _ & _ & _ & Hbound).
  exists r, k. split; [|split].
  - apply (Hrun 100%nat). apply Nat.leb_le. reflexivity.
  - exact Hk.
  - intros activities Hr. apply (Hbound activities Hr).
    intro p. unfold page_of, server_error_net. simpl.
    destruct (p <=? 2); apply Nat.leb_le; reflexivity.
Defined.

(** C8 as stated fails for the number of records: the loop appends
    every page whatever its length, so that an endpoint answering 400
    records a page makes both fetches accumulate 40,000 of them over
    the 100 pages. *)
Lemma fetch_accumulates_oversize_pages :
  exists activities,
    App.fetch_strava_data oversize_net = Ok activities
    /\ UpdateData.fetch_strava_data oversize_net = Ok activities
    /\ Z.of_nat (List.length activities) = 40000.
Proof.
  assert (Hpage : forall p, page_of oversize_net p = PageFull oversize_page)
    by (intro p; vm_compute; reflexivity).
  destruct (fetch_loop_run oversize_net 99 100 1 [] []) as (r & k & Hrun & Hk & _ & Hstop & Hres);
    [reflexivity | lia |].
  rewrite Hpage in Hstop, Hres.
  destruct Hstop as [->|Hs]; [|discriminate]. cbn [app] in Hres. subst r.
  exists (flat_map (fun p => page_items (page_of oversize_net p)) (consecutive 1 100)).
  refine (conj _ (conj _ _)).
  - unfold App.fetch_strava_data, App.fetch_strava_data_run.
    change (App.get_access_token oversize_net) with (@Ok json (JStr "token")).
    change (Z.to_nat PAGE_CAP) with 100%nat. now rewrite Hrun.
  - unfold UpdateData.fetch_strava_data, UpdateData.fetch_strava_data_run.
    change (Z.to_nat PAGE_CAP) with 100%nat.
    change (UpdateData.fetch_loop 100 oversize_net 1 [] []) with (App.fetch_loop 100 oversize_net 1 [] []).
    now rewrite Hrun.
  - rewrite flat_map_constant_length with (c := 400%nat); [now rewrite consecutive_length|].
    intros p _. rewrite Hpage. reflexivity.
Qed.

(** The fuel of [fetch_strava_data] is always enough. *)
Lemma fetch_strava_data_total (net : network) :
  exists r pages,
    App.fetch_strava_data_run (Z.to_nat PAGE_CAP) net = Some (r, pages)
    /\ App.fetch_strava_data net = r
    /\ (List.length pages <= 100)%nat.
Proof.
  unfold App.fetch_strava_data, App.fetch_strava_data_run.
  destruct (App.get_access_token net) as [token|e].
  - destruct (fetch_loop_run net 99 100 1 [] []) as (r & k & Hrun & Hk & _);
      [reflexivity | lia |].
    change (Z.to_nat PAGE_CAP) with 100%nat. rewrite Hrun.
    exists r, (queries 1 k). repeat split.
    unfold queries. simpl. rewrite length_map, consecutive_length. lia.
  - exists (Raise e), []. repeat split. simpl. lia.
Qed.

(** X2: when the pages before page [k] are full and the request for
    page [k] raises (a transport failure, a body that is not JSON, or a
    JSON value that cannot be appended to the list), the fetch raises
    that error, in both files: the activities of the earlier pages are
    not returned. *)
Lemma fetch_aborts_on_failed_page (net : network) (k : Z) (e : exn) :
  1 <= k <= 100 ->
  (forall p, 1 <= p < k -> is_full (page_of net p) = true) ->
  page_of net k = PageError e ->
  is_ok (App.get_access_token net) = true ->
  App.fetch_strava_data net = Raise e
  /\ UpdateData.fetch_strava_data net = Raise e.
Proof.
  intros Hk Hfull Herr Htoken.
  destruct (fetch_loop_run net 99 100 1 [] []) as (r & k' & Hrun & Hk' & Hfull' & Hstop & Hres);
    [reflexivity | lia |].
  replace (1 + Z.of_nat k' - 1) with (Z.of_nat k') in * by lia.
  assert (Z.of_nat k' = k).
  { destruct (Z.lt_trichotomy (Z.of_nat k') k) as [Hlt|[Heq|Hgt]]; [exfalso|exact Heq|exfalso].
    - destruct Hstop as [->|Hs]; [lia|].
      rewrite Hfull in Hs by lia. discriminate.
    - specialize (Hfull' k ltac:(lia)). rewrite Herr in Hfull'. discriminate. }
  subst k. rewrite Herr in Hres. subst r.
  unfold App.fetch_strava_data, UpdateData.fetch_strava_data, App.fetch_strava_data_run,
    UpdateData.fetch_strava_data_run.
  destruct (App.get_access_token net); [|discriminate].
  change (Z.to_nat PAGE_CAP) with 100%nat.
  change (UpdateData.fetch_loop 100 net 1 [] []) with (App.fetch_loop 100 net 1 [] []).
  rewrite Hrun. split; reflexivity.
Qed.

Lemma fetch_aborts_on_failed_page_witness :
  App.fetch_strava_data dropped_net = Raise RequestException
  /\ UpdateData.fetch_strava_data dropped_net = Raise RequestException.
Proof.
  apply (fetch_aborts_on_failed_page dropped_net 2 RequestException).
  - lia.
  - intros p Hp. replace p with 1 by lia. reflexivity.
  - reflexivity.
  - reflexivity.
Defined.

(** ** Sorted lists without repetition *)

Lemma insert_unique_In (x y : Z) (l : list Z) :
  In y (insert_unique x l) <-> y = x \/ In y l.
Proof.
  induction l as [|z l IH]; simpl.
  - intuition.
  - destruct (Z.ltb_spec x z); [simpl; intuition|].
    destruct (Z.eqb_spec x z) as [->|Hne]; simpl; [intuition|].
    rewrite IH. intuition.
Qed.

Lemma insert_unique_sorted (x : Z) (l : list Z) :
  StronglySorted Z.lt l -> StronglySorted Z.lt (insert_unique x l).
Proof.
  induction 1 as [|z l Hs IH Hall]; simpl.
  - repeat constructor.
  - destruct (Z.ltb_spec x z) as [Hlt|Hge].
    + constructor; [now constructor|]. constructor; [exact Hlt|].
      eapply Forall_impl; [|exact Hall]. intros; lia.
    + destruct (Z.eqb_spec x z) as [->|Hne]; [now constructor|].
      constructor; [exact IH|]. apply Forall_forall. intros y Hy.
      apply insert_unique_In in Hy. destruct Hy as [->|Hy]; [lia|].
      exact (proj1 (Forall_forall _ _) Hall y Hy).
Qed.

Lemma sorted_unique_In (y : Z) (l : list Z) : In y (sorted_unique l) <-> In y l.
Proof.
  unfold sorted_unique. induction l as [|x l IH]; simpl; [tauto|].
  rewrite insert_unique_In, IH. intuition.
Qed.

Lemma sorted_unique_sorted (l : list Z) : StronglySorted Z.lt (sorted_unique l).
Proof.
  unfold sorted_unique. induction l as [|x l IH]; simpl; [constructor|].
  now apply insert_unique_sorted.
Qed.

Lemma sorted_same_elements (l1 l2 : list Z) :
  StronglySorted Z.lt l1 -> StronglySorted Z.lt l2 ->
  (forall x, In x l1 <-> In x l2) -> l1 = l2.
Proof.
  intro H1. revert l2. induction H1 as [|a l1 Hs1 IH Ha]; intros l2 H2 Hsame.
  - destruct l2 as [|b l2]; [reflexivity|]. exfalso. apply (Hsame b). now left.
  - destruct H2 as [|b l2 Hs2 Hb].
    + exfalso. apply (Hsame a). now left.
    + pose proof (proj1 (Forall_forall _ _) Ha) as Ha'.
      pose proof (proj1 (Forall_forall _ _) Hb) as Hb'.
      assert (a = b).
      { destruct (proj1 (Hsame a) (or_introl eq_refl)) as [E|Hin]; [now symmetry|].
        destruct (proj2 (Hsame b) (or_introl eq_refl)) as [E|Hin']; [exact E|].
        specialize (Ha' b Hin'). specialize (Hb' a Hin). lia. }
      subst b. f_equal. apply IH; [exact Hs2|].
      intro x. split; intro Hx.
      * destruct (proj1 (Hsame x) (or_intror Hx)) as [E|Hin]; [|exact Hin].
        specialize (Ha' x Hx). lia.
      * destruct (proj2 (Hsame x) (or_intror Hx)) as [E|Hin]; [|exact Hin].
        specialize (Hb' x Hx). lia.
Qed.

Lemma consecutive_sorted (start : Z) (n : nat) : StronglySorted Z.lt (consecutive start n).
Proof.
  revert start. induction n as [|n IH]; intro start; simpl; constructor; [apply IH|].
  apply Forall_forall. intros x Hx. apply in_consecutive in Hx. lia.
Qed.

Lemma nth_error_consecutive (start : Z) (n i : nat) :
  (i < n)%nat -> nth_error (consecutive start n) i = Some (start + Z.of_nat i).
Proof.
  revert start i. induction n as [|n IH]; intros start [|i] Hi; simpl; try lia.
  - f_equal. lia.
  - rewrite IH by lia. f_equal. lia.
Qed.

(** The labels of an axis whose keys fill the range [0, n). *)
Lemma sorted_unique_range (keys : list Z) (n : nat) :
  (forall k, In k keys <-> 0 <= k < Z.of_nat n) ->
  sorted_unique keys = consecutive 0 n.
Proof.
  intro H. apply sorted_same_elements;
    [apply sorted_unique_sorted | apply consecutive_sorted |].
  intro x. rewrite sorted_unique_In, in_consecutive, H. lia.
Qed.

(** ** Running streak *)

Lemma is_run_mono (seen seen' : list date) (first n : Z) :
  (forall x, In x seen -> In x seen') -> is_run seen first n -> is_run seen' first n.
Proof. intros Hsub Hrun i Hi. apply Hsub, Hrun, Hi. Qed.

Lemma streak_inv_bound (seen : list date) (prev mx tmp : Z) :
  streak_inv seen prev mx tmp ->
  forall first k, is_run seen first k -> k <= Z.max mx tmp.
Proof.
  intros (Hin & Hmax & Hmx & Htmp & Hcur & Hgap & _ & Hold) first k Hrun.
  destruct (Z.le_gt_cases k 0) as [Hk|Hk]; [lia|].
  assert (Hlast : first + k - 1 <= prev).
  { apply Hmax. replace (first + k - 1) with (first + (k - 1)) by lia. apply Hrun. lia. }
  destruct (Z.lt_ge_cases (first + k - 1) (prev - tmp + 1)) as [Hbefore|Hafter].
  - specialize (Hold first k Hrun Hbefore). lia.
  - destruct (Z.le_gt_cases first (prev - tmp)) as [Hle|Hgt]; [|lia].
    exfalso. apply Hgap.
    replace (prev - tmp) with (first + (prev - tmp - first)) by lia.
    apply Hrun. lia.
Qed.

Lemma streak_loop_longest (rest : list date) :
  forall (seen : list date) (prev mx tmp : Z),
    StronglySorted Z.lt (prev :: rest) ->
    streak_inv seen prev mx tmp ->
    longest_run (seen ++ rest)
      (Z.max (fst (App.streak_loop prev rest mx tmp)) (snd (App.streak_loop prev rest mx tmp))).
Proof.
  induction rest as [|d rest IH]; intros seen prev mx tmp Hsorted Hinv.
  - simpl. rewrite app_nil_r.
    pose proof (streak_inv_bound _ _ _ _ Hinv) as Hbound.
    destruct Hinv as (Hin & Hmax & Hmx & Htmp & Hcur & Hgap & [first Hfirst] & Hold).
    split; [lia|]. split; [|exact Hbound].
    destruct (Z.max_spec mx tmp) as [[_ ->]|[_ ->]]; eauto.
  - inversion Hsorted as [|? ? Hrest Hlt]; subst.
    inversion Hlt as [|? ? Hd _]; subst.
    replace (seen ++ d :: rest) with ((seen ++ [d]) ++ rest) by (rewrite <- app_assoc; reflexivity).
    pose proof (streak_inv_bound _ _ _ _ Hinv) as Hbound.
    destruct Hinv as (Hin & Hmax & Hmx & Htmp & Hcur & Hgap & [first Hfirst] & Hold).
    assert (Hnew : forall x, In x (seen ++ [d]) <-> In x seen \/ x = d).
    { intro x. rewrite in_app_iff. simpl. intuition. }
    assert (Hrestrict : forall first k, is_run (seen ++ [d]) first k -> first + k - 1 < d ->
                                        is_run seen first k).
    { intros f k Hrun Hend i Hi. destruct (proj1 (Hnew _) (Hrun i Hi)) as [H|H]; [exact H|lia]. }
    simpl. destruct (Z.eqb_spec (d - prev) 1) as [Hgap1|Hgap1].
    + apply IH; [exact Hrest|].
      refine (conj _ (conj _ (conj _ (conj _ (conj _ (conj _ (conj _ _))))))).
      * apply Hnew. now right.
      * intros x Hx. apply Hnew in Hx. destruct Hx as [Hx| ->]; [specialize (Hmax x Hx)|]; lia.
      * exact Hmx.
      * lia.
      * intros i Hi. apply Hnew.
        destruct (Z.eq_dec i tmp) as [->|Hne]; [right; lia|left].
        replace (d - (tmp + 1) + 1 + i) with (prev - tmp + 1 + i) by lia. apply Hcur. lia.
      * intro H. apply Hnew in H. destruct H as [H|H]; [|lia].
        apply Hgap. replace (prev - tmp) with (d - (tmp + 1)) by lia. exact H.
      * exists first. eapply is_run_mono; [|exact Hfirst]. intros x Hx. apply Hnew. now left.
      * intros f k Hrun Hend. apply (Hold f k); [apply Hrestrict; [exact Hrun|lia]|lia].
    + apply IH; [exact Hrest|].
      refine (conj _ (conj _ (conj _ (conj _ (conj _ (conj _ (conj _ _))))))).
      * apply Hnew. now right.
      * intros x Hx. apply Hnew in Hx. destruct Hx as [Hx| ->]; [specialize (Hmax x Hx)|]; lia.
      * lia.
      * lia.
      * intros i Hi. apply Hnew. right. lia.
      * intro H. apply Hnew in H. destruct H as [H|H]; [specialize (Hmax _ H)|]; lia.
      * destruct (Z.max_spec mx tmp) as [[_ ->]|[_ ->]].
        -- exists (prev - tmp + 1). eapply is_run_mono; [|exact Hcur]. intros x Hx. apply Hnew. now left.
        -- exists first. eapply is_run_mono; [|exact Hfirst]. intros x Hx. apply Hnew. now left.
      * intros f k Hrun Hend. apply Hbound with (first := f). apply Hrestrict; [exact Hrun|lia].
Qed.

(** C6 (amended): for every non-empty ascending list of distinct dates
    the longest streak computed is the length of the longest run of
    consecutive days in it; the dates 2024-01-01, 01-02, 01-03, 01-06
    give 3. *)
Theorem longest_streak_is_longest_run :
  (forall dates : list date,
      dates <> [] ->
      StronglySorted Z.lt dates ->
      longest_run dates (App.longest_streak dates))
  /\ App.longest_streak
       [ymd2ord 2024 1 1; ymd2ord 2024 1 2; ymd2ord 2024 1 3; ymd2ord 2024 1 6] = 3.
Proof.
  split; [|reflexivity].
  intros dates Hne Hsorted. destruct dates as [|d0 rest]; [congruence|].
  unfold App.longest_streak.
  pose proof (streak_loop_longest rest [d0] d0 0 1 Hsorted) as H.
  destruct (App.streak_loop d0 rest 0 1) as [mx tmp]. apply H.
  refine (conj _ (conj _ (conj _ (conj _ (conj _ (conj _ (conj _ _))))))); simpl.
  - now left.
  - intros x [<-|[]]. lia.
  - lia.
  - lia.
  - intros i Hi. left. lia.
  - intros [H0|[]]. lia.
  - exists d0. intros i Hi. lia.
  - intros f k Hrun Hend. destruct (Z.le_gt_cases k 0) as [Hk|Hk]; [exact Hk|].
    exfalso. destruct (Hrun (k - 1)) as [H0|[]]; lia.
Qed.

Lemma longest_streak_is_longest_run_witness :
  longest_run [ymd2ord 2024 1 1; ymd2ord 2024 1 2; ymd2ord 2024 1 3; ymd2ord 2024 1 6]
    (App.longest_streak
       [ymd2ord 2024 1 1; ymd2ord 2024 1 2; ymd2ord 2024 1 3; ymd2ord 2024 1 6]).
Proof.
  apply (proj1 longest_streak_is_longest_run).
  - discriminate.
  - repeat (constructor; try reflexivity).
Defined.

(** The dates [main] hands to the streak loop are ascending and distinct. *)
Lemma unique_dates_sorted (col : list value) :
  StronglySorted Z.lt (App.unique_dates col).
Proof. apply sorted_unique_sorted. Qed.

(** C6 as stated fails on the empty set: the loop answers 1 where no day
    is present at all. *)
Lemma longest_streak_empty : ~ longest_run [] (App.longest_streak []).
Proof.
  intros (_ & [first Hrun] & _). apply (Hrun 0). change (App.longest_streak []) with 1. lia.
Qed.

Lemma longest_run_empty : longest_run [] 0.
Proof.
  split; [lia|]. split.
  - exists 0. intros i Hi. lia.
  - intros first k Hrun. destruct (Z.le_gt_cases k 0) as [Hk|Hk]; [exact Hk|].
    exfalso. exact (Hrun 0 ltac:(lia)).
Qed.

(** ** Data frames *)

Lemma bind_ok {A B : Type} (m : result A) (k : A -> result B) (b : B) :
  bind m k = Ok b -> exists a, m = Ok a /\ k a = Ok b.
Proof. destruct m as [a|e]; simpl; intro H; [eauto|discriminate]. Qed.

Ltac inv_bind H :=
  repeat (cbv zeta in H;
          let a := fresh "x" in
          let E := fresh "E" in
          apply bind_ok in H; destruct H as (a & E & H)).

Lemma mapM_Forall2 {A B : Type} (f : A -> result B) (l : list A) (l' : list B) :
  mapM f l = Ok l' -> Forall2 (fun a b => f a = Ok b) l l'.
Proof.
  revert l'. induction l as [|a l IH]; simpl; intros l' H.
  - injection H as <-. constructor.
  - inv_bind H. injection H as <-. constructor; auto.
Qed.

Lemma mapM_length {A B : Type} (f : A -> result B) (l : list A) (l' : list B) :
  mapM f l = Ok l' -> List.length l' = List.length l.
Proof. intro H. symmetry. eapply Forall2_length, mapM_Forall2, H. Qed.

Lemma mapM_fixed {A : Type} (f : A -> result A) (l : list A) :
  Forall (fun a => f a = Ok a) l -> mapM f l = Ok l.
Proof. induction 1 as [|a l Ha _ IH]; simpl; [reflexivity|]. now rewrite Ha, IH. Qed.

Lemma mapM_nth_error {A B : Type} (f : A -> result B) (l : list A) (l' : list B) :
  mapM f l = Ok l' ->
  forall i a, nth_error l i = Some a -> exists b, nth_error l' i = Some b /\ f a = Ok b.
Proof.
  intro H. apply mapM_Forall2 in H.
  induction H as [|a b l l' Hab _ IH]; intros [|i] x Hx; simpl in *; try discriminate.
  - injection Hx as <-. eauto.
  - eauto.
Qed.

Lemma assoc_replace_col (c c' : string) (col : list value) (l : list (string * list value)) :
  assoc c' (replace_col c col l) = if String.eqb c' c then Some col else assoc c' l.
Proof.
  induction l as [|[k v] l IH]; simpl.
  - destruct (String.eqb c' c); reflexivity.
  - destruct (String.eqb_spec c k) as [->|Hck]; simpl.
    + destruct (String.eqb c' k); reflexivity.
    + rewrite IH. destruct (String.eqb_spec c' k) as [->|Hc'k].
      * destruct (String.eqb_spec k c); [congruence|reflexivity].
      * reflexivity.
Qed.

Lemma getitem_setitem (df : DataFrame) (c c' : string) (col : list value) :
  getitem (setitem df c col) c' = if String.eqb c' c then Ok col else getitem df c'.
Proof.
  unfold getitem, setitem. simpl. rewrite assoc_replace_col.
  destruct (String.eqb c' c); reflexivity.
Qed.

Lemma has_column_getitem (c : string) (df : DataFrame) :
  has_column c df = is_ok (getitem df c).
Proof.
  unfold has_column, columns, getitem. induction (cols df) as [|[k v] l IH]; simpl.
  - reflexivity.
  - destruct (String.eqb c k); simpl; [reflexivity|exact IH].
Qed.

Lemma cell_getitem (df : DataFrame) (c : string) (col : list value) (i : nat) :
  getitem df c = Ok col -> cell df c i = nth_error col i.
Proof.
  unfold getitem, cell. destruct (assoc c (cols df)); intro H; [|discriminate].
  now injection H as ->.
Qed.

Lemma getitem_setitem_same (df : DataFrame) (c : string) (col : list value) :
  getitem df c = Ok col -> forall c', getitem (setitem df c col) c' = getitem df c'.
Proof.
  intros H c'. rewrite getitem_setitem.
  destruct (String.eqb_spec c' c) as [->|_]; [now rewrite H|reflexivity].
Qed.

(** Columns of a frame built from records. *)
Lemma assoc_map_key {A : Type} (g : string -> A) (labels : list string) (c : string) (a : A) :
  assoc c (map (fun k => (k, g k)) labels) = Some a -> a = g c.
Proof.
  induction labels as [|k labels IH]; simpl; [discriminate|].
  destruct (String.eqb_spec c k) as [->|_]; [congruence|exact IH].
Qed.

Lemma pd_DataFrame_column (records : list json) (df : DataFrame) (c : string) (col : list value) :
  pd_DataFrame records = Ok df ->
  getitem df c = Ok col ->
  col = map (record_cell c) records /\ nrows df = List.length records.
Proof.
  assert (Hdicts : forall labels,
             mkDataFrame (List.length records)
               (map (fun k => (k, map (record_cell k) records)) labels) = df ->
             getitem df c = Ok col ->
             col = map (record_cell c) records /\ nrows df = List.length records).
  { intros labels <-. unfold getitem. simpl.
    destruct (assoc c _) as [col'|] eqn:E; [|discriminate].
    intro H. injection H as <-. split; [|reflexivity].
    exact (assoc_map_key (fun k => map (record_cell k) records) labels c col' E). }
  unfold pd_DataFrame.
  destruct records as [|[| | | | |fields] rest];
    try (intro H; injection H as <-; discriminate).
  destruct (union_keys [] (JObj fields :: rest)) as [labels|]; [|discriminate].
  intro H. injection H as H. eauto.
Qed.

Lemma select_column (df df' : DataFrame) (names : list string) (c : string) (col : list value) :
  select df names = Ok df' ->
  getitem df' c = Ok col ->
  getitem df c = Ok col /\ nrows df' = nrows df.
Proof.
  unfold select. intro H. inv_bind H. injection H as <-. simpl.
  unfold getitem at 1. simpl. clear -E. revert x E.
  induction names as [|k names IH]; simpl; intros cs E.
  - injection E as <-. simpl. discriminate.
  - apply bind_ok in E as (b & Eb & E). apply bind_ok in Eb as (col' & Ecol & Eb).
    injection Eb as <-. apply bind_ok in E as (bs & Ebs & E). injection E as <-. simpl.
    destruct (String.eqb_spec c k) as [->|_].
    + intro H. injection H as <-. auto.
    + apply IH. assumption.
Qed.

(** *** Timestamps and numbers *)

Lemma to_datetime_scalar_timestamp parse (v v' : value) :
  to_datetime_scalar parse v = Ok v' -> is_timestamp v'.
Proof.
  destruct v as [[q|]| | | | | |]; simpl; try destruct (parse _); intro H;
    try discriminate; injection H as <-; exact I.
Qed.

Lemma to_datetime_timestamps parse (col col' : list value) :
  to_datetime parse col = Ok col' -> Forall is_timestamp col'.
Proof.
  intro H. apply mapM_Forall2 in H. induction H; constructor; eauto using to_datetime_scalar_timestamp.
Qed.

Lemma to_datetime_fixed parse (col : list value) :
  Forall is_timestamp col -> to_datetime parse col = Ok col.
Proof.
  intro H. apply mapM_fixed. eapply Forall_impl; [|exact H].
  intros [ | | | | | | ]; simpl; intros []; reflexivity.
Qed.

Lemma dt_get_date_dates (col col' : list value) :
  dt_get_date col = Ok col' -> Forall is_date col'.
Proof.
  intro H. apply mapM_Forall2 in H.
  induction H as [|v v' l l' Hv _ IH]; constructor; [|exact IH].
  destruct v; try discriminate; injection Hv as <-; exact I.
Qed.


Lemma series_div_numbers (col col' : list value) (k : Q) :
  series_div col k = Ok col' -> Forall is_number col'.
Proof.
  intro H. apply mapM_Forall2 in H.
  induction H as [|v v' l l' Hv _ IH]; constructor; [|exact IH].
  destruct (as_num v); [|discriminate]. injection Hv as <-. exact I.
Qed.

Lemma apply_rows2_nth_error (f : value -> value -> result value) (a b c : list value) :
  apply_rows2 f a b = Ok c ->
  forall i va vb, nth_error a i = Some va -> nth_error b i = Some vb ->
                  exists v, nth_error c i = Some v /\ f va vb = Ok v.
Proof.
  revert b c. induction a as [|x a IH]; intros [|y b] c H [|i] va vb Ha Hb;
    simpl in *; try discriminate.
  - apply bind_ok in H as (v & Ev & H). apply bind_ok in H as (vs & Evs & H).
    injection H as <-. injection Ha as <-. injection Hb as <-. simpl. eauto.
  - apply bind_ok in H as (v & Ev & H). apply bind_ok in H as (vs & Evs & H).
    injection H as <-. simpl. eauto.
Qed.

Lemma nth_error_number (col : list value) (i : nat) :
  Forall is_number col -> (i < List.length col)%nat ->
  exists x, nth_error col i = Some (VNum x).
Proof.
  intros Hall Hi. destruct (nth_error col i) as [v|] eqn:E.
  - pose proof (proj1 (Forall_forall _ _) Hall v (nth_error_In _ _ E)) as Hv.
    destruct v; try contradiction. eauto.
  - apply nth_error_None in E. lia.
Qed.

Lemma Qdiv_zero_iff (m d : Q) : (0 < d)%Q -> (m / d == 0)%Q <-> (m == 0)%Q.
Proof.
  intro Hd. split; intro H.
  - rewrite <- (Qmult_div_r m d) by lra. rewrite H. ring.
  - rewrite H. unfold Qdiv. ring.
Qed.

Ltac getitem_simpl H :=
  rewrite ?getitem_setitem in H; simpl in H.

(** ** Record processing *)

Section ProcessData.

Variable parse_datetime : value -> option datetime.

Lemma process_data_processed (records : list json) (df : DataFrame) :
  App.process_data parse_datetime (JArr records) = Ok df -> processed records df.
Proof.
  unfold App.process_data. intro H.
  apply bind_ok in H as (df0 & Edf0 & H).
  apply bind_ok in H as (df1 & Edf1 & H). cbv zeta in H.
  apply bind_ok in H as (raw_sdl & Eraw & H).
  apply bind_ok in H as (sdl & Esdl & H).
  apply bind_ok in H as (sdl1 & Esdl1 & H). getitem_simpl Esdl1. injection Esdl1 as <-.
  pose proof (to_datetime_timestamps _ _ _ Esdl) as Hts.
  rewrite (to_datetime_fixed _ _ Hts) in H. simpl in H.
  apply bind_ok in H as (dates & Edates & H).
  apply bind_ok in H as (c & Ec & H). getitem_simpl Ec. injection Ec as <-.
  apply bind_ok in H as (hours & Ehours & H).
  apply bind_ok in H as (c & Ec & H). getitem_simpl Ec. injection Ec as <-.
  apply bind_ok in H as (wd & Ewd & H).
  apply bind_ok in H as (c & Ec & H). getitem_simpl Ec. injection Ec as <-.
  apply bind_ok in H as (wk & Ewk & H).
  apply bind_ok in H as (c & Ec & H). getitem_simpl Ec. injection Ec as <-.
  apply bind_ok in H as (mo & Emo & H).
  apply bind_ok in H as (c & Ec & H). getitem_simpl Ec. injection Ec as <-.
  apply bind_ok in H as (yr & Eyr & H).
  apply bind_ok in H as (dist & Edist & H). getitem_simpl Edist.
  apply bind_ok in H as (dk & Edk & H).
  apply bind_ok in H as (mov & Emov & H). getitem_simpl Emov.
  apply bind_ok in H as (mm & Emm & H).
  apply bind_ok in H as (c & Ec & H). getitem_simpl Ec. injection Ec as <-.
  apply bind_ok in H as (c & Ec & H). getitem_simpl Ec. injection Ec as <-.
  apply bind_ok in H as (pc & Epc & H).
  apply bind_ok in H as (c & Ec & H). getitem_simpl Ec. injection Ec as <-.
  apply bind_ok in H as (pz & Epz & H).
  apply bind_ok in H as (c & Ec & H). getitem_simpl Ec. injection Ec as <-.
  apply bind_ok in H as (tod & Etod & H).
  injection H as <-.
  destruct (select_column _ _ _ _ _ Edf1 Edist) as [Edist0 Hn1].
  destruct (select_column _ _ _ _ _ Edf1 Emov) as [Emov0 _].
  destruct (pd_DataFrame_column _ _ _ _ Edf0 Edist0) as [-> Hn0].
  destruct (pd_DataFrame_column _ _ _ _ Edf0 Emov0) as [-> _].
  apply (Processed records _ sdl dates hours wd wk mo yr dk mm pc pz tod);
    rewrite ?getitem_setitem; simpl; try reflexivity; try assumption; try congruence;
    try (eapply series_div_numbers; eassumption).
  - apply mapM_length in Edk. now rewrite Edk, length_map.
  - apply mapM_length in Emm. now rewrite Emm, length_map.
Qed.

End ProcessData.

(** C10: the record processing of [src/app.py] and of
    [src/update_data.py], with their two classification helpers, compute
    the same function: the same frame (rows, retained raw columns and
    derived columns) or the same exception for every input. *)
Theorem process_data_implementations_agree :
  (forall pace, App.classify_pace_zone pace = UpdateData.classify_pace_zone pace)
  /\ (forall hour, App.classify_time_of_day hour = UpdateData.classify_time_of_day hour)
  /\ (forall parse_datetime data,
        App.process_data parse_datetime data = UpdateData.process_data parse_datetime data).
Proof. repeat split. Qed.

(** C4: on the empty list [process_data] raises [KeyError] (the frame has
    no column, so [df['start_date_local']] fails), in both files; on an
    input that is not a list it returns the empty frame. *)
Theorem process_data_degenerate_inputs :
  (forall parse_datetime,
      App.process_data parse_datetime (JArr []) = Raise (KeyError "start_date_local")
      /\ UpdateData.process_data parse_datetime (JArr []) = Raise (KeyError "start_date_local"))
  /\ (forall parse_datetime,
        App.process_data parse_datetime JNull = Ok empty_frame
        /\ (forall b, App.process_data parse_datetime (JBool b) = Ok empty_frame)
        /\ (forall q, App.process_data parse_datetime (JNum q) = Ok empty_frame)
        /\ (forall s, App.process_data parse_datetime (JStr s) = Ok empty_frame)
        /\ (forall fields, App.process_data parse_datetime (JObj fields) = Ok empty_frame)).
Proof. repeat split. Qed.

Lemma pace_value_facts (d m : num) :
  let p := if num_gtb d (Fin 0) then num_div m d else Fin 0 in
  (num_eqb d (Fin 0) = true -> num_eqb p (Fin 0) = true)
  /\ (is_nan m = false -> is_nan p = false)
  /\ (is_nan m = false ->
      num_eqb p (Fin 0) = true <-> num_gtb d (Fin 0) = false \/ num_eqb m (Fin 0) = true).
Proof.
  unfold num_gtb. destruct d as [dq|]; [|simpl; intuition congruence].
  destruct (num_ltb_reflect 0 dq) as [Hd|Hd].
  - refine (conj _ (conj _ _)).
    + intro E. apply num_eqb_Fin in E. lra.
    + destruct m; simpl; congruence.
    + destruct m as [mq|]; simpl; [|congruence]. intros _.
      rewrite !Qeq_bool_iff, Qdiv_zero_iff by assumption.
      split; [now right | intros [E|E]; [discriminate|exact E]].
  - simpl. intuition congruence.
Qed.

(** C3 (amended): in every row of a processed frame a zero distance gives
    a zero pace, the division is evaluated only for a positive distance,
    the pace is missing only if the moving time is, and the pace is zero
    exactly when the distance is not positive or the moving time is
    zero. *)
Theorem pace_zero_for_zero_distance parse_datetime (data : json) (df : DataFrame) :
  App.process_data parse_datetime data = Ok df ->
  forall i, (i < nrows df)%nat -> pace_row_facts df i.
Proof.
  intros H i Hi. unfold pace_row_facts.
  destruct data as [| | | |records|]; try (injection H as <-; simpl in Hi; lia).
  destruct (process_data_processed _ _ _ H).
  destruct (nth_error_number dk i pr_dk_num ltac:(lia)) as [d Hd].
  destruct (nth_error_number mm i pr_mm_num ltac:(lia)) as [m Hm].
  destruct (apply_rows2_nth_error _ _ _ _ pr_pace_rows i _ _ Hm Hd) as (v & Hv & Hf).
  exists d, m, (if num_gtb d (Fin 0) then num_div m d else Fin 0).
  rewrite (cell_getitem _ _ _ _ pr_get_dk), (cell_getitem _ _ _ _ pr_get_mm),
    (cell_getitem _ _ _ _ pr_get_pace), Hd, Hm, Hv.
  unfold App.pace_lambda, as_num in Hf.
  refine (conj eq_refl (conj eq_refl (conj _ (conj eq_refl _)))).
  - revert Hf. destruct (num_gtb d (Fin 0)); intro Hf; now injection Hf as <-.
  - apply pace_value_facts.
Qed.

Lemma pace_zero_for_zero_distance_witness : pace_row_facts sample_frame 1.
Proof.
  apply (pace_zero_for_zero_distance iso_parser (JArr sample_records) sample_frame).
  - vm_compute. reflexivity.
  - apply Nat.ltb_lt. reflexivity.
Defined.

(** C3 as stated fails: an activity with a positive distance and no
    moving time has pace 0. *)
Lemma pace_zero_with_positive_distance :
  exists df,
    App.process_data iso_parser (JArr sample_records) = Ok df
    /\ ~ pace_zero_iff_distance_zero df.
Proof.
  eexists. split; [vm_compute; reflexivity|].
  intro H. specialize (H 1%nat _ _ eq_refl eq_refl).
  destruct H as [_ H]. specialize (H eq_refl). discriminate.
Qed.

(** ** Snapshot load and backfill *)







Lemma mem_In (c : string) (names : list string) : mem c names = true <-> In c names.
Proof.
  unfold mem. rewrite existsb_exists. split.
  - intros (x & Hx & E). apply String.eqb_eq in E. now subst.
  - intro H. exists c. split; [exact H|apply String.eqb_refl].
Qed.




Section LoadData.

Variable parse_datetime : value -> option datetime.



End LoadData.



(** ** Activity heatmap *)

(** *** Totals per day *)

Lemma lookup_group_above (d : date) (groups : list (date * Q)) :
  Forall (fun k => d < k) (map fst groups) -> lookup_group d groups = None.
Proof.
  induction groups as [|[k t] groups IH]; simpl; intro H; [reflexivity|].
  inversion H as [|? ? Hk Hrest]; subst.
  destruct (Z.eqb_spec d k); [lia|]. now apply IH.
Qed.

Lemma add_to_group_keys (d : date) (x : Q) (groups : list (date * Q)) (k : date) :
  In k (map fst (add_to_group d x groups)) <-> k = d \/ In k (map fst groups).
Proof.
  induction groups as [|[k' t] groups IH]; simpl; [intuition|].
  destruct (Z.ltb_spec d k'); [simpl; intuition|].
  destruct (Z.eqb_spec d k') as [->|Hne]; simpl; [intuition|].
  rewrite IH. intuition.
Qed.

Lemma add_to_group_spec (d : date) (x : Q) (groups : list (date * Q)) :
  sorted_groups groups ->
  sorted_groups (add_to_group d x groups)
  /\ forall d',
      lookup_group d' (add_to_group d x groups) =
      if d' =? d then
        Some (match lookup_group d groups with Some t => (x + t)%Q | None => x end)
      else lookup_group d' groups.
Proof.
  unfold sorted_groups. induction groups as [|[k t] groups IH]; simpl; intro Hs.
  - split; [repeat constructor|]. intro d'. destruct (d' =? d); reflexivity.
  - inversion Hs as [|? ? Hs' Hall]; subst.
    destruct (Z.ltb_spec d k) as [Hlt|Hge].
    + split.
      * simpl. constructor; [exact Hs|]. constructor; [exact Hlt|].
        eapply Forall_impl; [|exact Hall]. intros; lia.
      * intro d'. simpl. destruct (Z.eqb_spec d' d) as [->|Hne].
        -- destruct (Z.eqb_spec d k); [lia|].
           rewrite lookup_group_above; [reflexivity|].
           eapply Forall_impl; [|exact Hall]. intros; lia.
        -- reflexivity.
    + destruct (Z.eqb_spec d k) as [->|Hne].
      * split; [exact Hs|]. intro d'. simpl.
        destruct (Z.eqb_spec d' k); reflexivity.
      * destruct (IH Hs') as [IHs IHl]. split.
        -- simpl. constructor; [exact IHs|]. apply Forall_forall. intros y Hy.
           apply add_to_group_keys in Hy. destruct Hy as [->|Hy]; [lia|].
           exact (proj1 (Forall_forall _ _) Hall y Hy).
        -- intro d'. simpl. rewrite IHl.
           destruct (Z.eqb_spec d' k) as [->|Hd'k].
           ++ destruct (Z.eqb_spec k d); [lia|reflexivity].
           ++ reflexivity.
Qed.

Lemma groupby_sum_spec (dates km : list value) :
  forallb groupable dates = true ->
  forallb numeric km = true ->
  exists groups,
    App.groupby_sum dates km = Ok groups
    /\ sorted_groups groups
    /\ forall d,
        match lookup_group d groups with
        | Some t => active_on dates km d = true /\ (t == day_total dates km d)%Q
        | None => active_on dates km d = false
        end.
Proof.
  revert km. induction dates as [|vd dates IH]; intros km Hd Hk.
  - exists []. repeat split; constructor.
  - destruct km as [|vk km].
    + exists []. repeat split; constructor.
    + simpl in Hd, Hk. apply andb_true_iff in Hd as [Hvd Hd], Hk as [Hvk Hk].
      destruct (IH km Hd Hk) as (groups & Hg & Hs & Hl).
      simpl. rewrite Hg. simpl.
      assert (Hx : (match as_num vk with
                    | Some (Fin q) => Ok q
                    | Some NaN => Ok 0%Q
                    | None => Raise TypeError
                    end) = Ok (km_value vk)).
      { unfold numeric, km_value in *. destruct (as_num vk) as [[q|]|]; (reflexivity || discriminate). }
      rewrite Hx. simpl.
      destruct vd as [[q|]| | | | |d0|]; try discriminate; simpl.
      * exists groups. repeat split; assumption.
      * exists groups. repeat split; assumption.
      * destruct (add_to_group_spec d0 (km_value vk) groups Hs) as [Hs' Hl'].
        exists (add_to_group d0 (km_value vk) groups). repeat split; [exact Hs'|].
        intro d. rewrite Hl'. rewrite (Z.eqb_sym d0 d).
        destruct (Z.eqb_spec d d0) as [->|Hne]; simpl; [|apply Hl].
        specialize (Hl d0). destruct (lookup_group d0 groups) as [t|].
        -- destruct Hl as [_ Ht]. split; [reflexivity|]. now rewrite Ht.
        -- split; [reflexivity|].
           assert (E : (day_total dates km d0 == 0)%Q).
           { clear -Hl. revert km Hl. induction dates as [|v ds IHd]; intros [|k ks] H;
               simpl in *; try reflexivity.
             apply orb_false_iff in H as [H1 H2]. rewrite H1. now apply IHd. }
           rewrite E. ring.
Qed.

(** Every frame that [process_data] returns for a list can be drawn. *)
Lemma processed_dataset_ready parse_datetime (records : list json) (df : DataFrame) :
  App.process_data parse_datetime (JArr records) = Ok df -> dataset_ready df = true.
Proof.
  intro H. destruct (process_data_processed _ _ _ H).
  unfold dataset_ready. rewrite pr_get_date, pr_get_dk.
  apply andb_true_iff. split; apply forallb_forall; intros v Hv.
  - pose proof (proj1 (Forall_forall _ _) (dt_get_date_dates _ _ pr_date) v Hv) as Hd.
    destruct v; try contradiction; reflexivity.
  - pose proof (proj1 (Forall_forall _ _) pr_dk_num v Hv) as Hn.
    destruct v; try contradiction; reflexivity.
Qed.

(** *** Pivot *)

Section Pivot.

Variable keyf : Z -> Z * Z.
Variable valf : Z -> num.
Variable days : list Z.
Hypothesis keyf_injective :
  forall a b, In a days -> In b days -> key_eqb (keyf a) (keyf b) = true -> a = b.
Hypothesis days_nodup : NoDup days.

Let rows := map (fun d => (keyf d, valf d)) days.

Lemma lookup_cell_some (k : Z * Z) (v : num) :
  lookup_cell k rows = Some v ->
  exists d, In d days /\ key_eqb k (keyf d) = true /\ v = valf d.
Proof.
  subst rows. clear keyf_injective days_nodup.
  induction days as [|d l IH]; simpl; [discriminate|].
  destruct (key_eqb k (keyf d)) eqn:E.
  - intro H. injection H as <-. exists d. auto.
  - intro H. destruct (IH H) as (d' & Hin & Hk & Hv). exists d'. auto.
Qed.

Lemma key_eqb_refl (k : Z * Z) : key_eqb k k = true.
Proof. unfold key_eqb. now rewrite !Z.eqb_refl. Qed.

Lemma lookup_cell_key (d : Z) :
  In d days -> lookup_cell (keyf d) rows = Some (valf d).
Proof.
  subst rows. clear days_nodup. revert keyf_injective.
  induction days as [|d' l IH]; simpl; intros Hinj Hin; [contradiction|].
  destruct (key_eqb (keyf d) (keyf d')) eqn:E.
  - rewrite (Hinj d d'); auto.
  - destruct Hin as [->|Hin]; [now rewrite key_eqb_refl in E|].
    apply IH; auto.
Qed.

Lemma no_duplicate_key : has_duplicate_key rows = false.
Proof.
  subst rows. revert keyf_injective days_nodup.
  induction days as [|d l IH]; simpl; intros Hinj Hnd; [reflexivity|].
  inversion Hnd as [|? ? Hnotin Hnd']; subst.
  rewrite IH by auto. rewrite orb_false_r.
  destruct (existsb _ _) eqn:E; [|reflexivity].
  apply existsb_exists in E as (r & Hr & Hk).
  apply in_map_iff in Hr as (d' & <- & Hd'). simpl in Hk.
  exfalso. apply Hnotin. rewrite (Hinj d d'); auto.
Qed.

End Pivot.

(** *** The grid *)

Lemma grid_key_injective (start a b : date) :
  In a (consecutive start 365) -> In b (consecutive start 365) ->
  key_eqb (grid_key start a) (grid_key start b) = true -> a = b.
Proof.
  rewrite !in_consecutive. unfold key_eqb, grid_key, weekday. simpl.
  rewrite andb_true_iff, !Z.eqb_eq. intros Ha Hb [Hw Hk].
  Z.div_mod_to_equations. lia.
Qed.

Lemma consecutive_nodup (start : Z) (n : nat) : NoDup (consecutive start n).
Proof.
  revert start. induction n as [|n IH]; intro start; simpl; constructor; [|apply IH].
  rewrite in_consecutive. lia.
Qed.

Lemma nth_error_map_consecutive {A : Type} (f : Z -> A) (n : nat) (k : Z) :
  0 <= k < Z.of_nat n ->
  nth_error (map f (consecutive 0 n)) (Z.to_nat k) = Some (f k).
Proof.
  intro Hk. rewrite nth_error_map, nth_error_consecutive by lia.
  simpl. f_equal. f_equal. lia.
Qed.

(** C7: for every dataset with a date and a distance_km column and every
    current date, the heatmap is drawn without error and its grid has
    seven weekday rows (Monday to Sunday) and covers exactly the 365 days
    ending today: each day sits in row [weekday] (0 is Monday) and column
    [(date - start_date).days // 7] with the distance of that day, 0 when
    there was no activity, and no other cell is filled. *)
Theorem heatmap_covers_trailing_year parse_datetime (df : DataFrame) (today : date) :
  dataset_ready df = true ->
  exists hm dates km,
    getitem df "date" = Ok dates
    /\ getitem df "distance_km" = Ok km
    /\ App.create_activity_heatmap parse_datetime df today = Ok hm
    /\ heatmap_facts today hm dates km.
Proof.
  unfold dataset_ready, heatmap_facts. intro Hready.
  destruct (getitem df "date") as [dates|] eqn:Hdates; [|discriminate].
  destruct (getitem df "distance_km") as [km|] eqn:Hkm; [|discriminate].
  apply andb_true_iff in Hready as [Hgd Hnum].
  destruct (groupby_sum_spec dates km Hgd Hnum) as (groups & Hgroups & _ & Hlook).
  set (start := today - 364).
  set (valf := fun d : Z => match lookup_group d groups with
                            | Some total => Fin total
                            | None => Fin 0
                            end).
  set (days := consecutive start 365).
  assert (Hinj : forall a b, In a days -> In b days ->
                             key_eqb (grid_key start a) (grid_key start b) = true -> a = b)
    by (intros a b; apply grid_key_injective).
  assert (Hin : forall d, In d days <-> start <= d <= today).
  { intro d. unfold days. rewrite in_consecutive. unfold start. lia. }
  assert (Hindex : sorted_unique (map (fun d : Z => fst (grid_key start d)) days) = consecutive 0 7).
  { apply sorted_unique_range. intro k. rewrite in_map_iff.
    change (Z.of_nat 7) with 7. unfold grid_key, weekday. cbn [fst snd]. split.
    - intros (d & <- & _). Z.div_mod_to_equations. lia.
    - intro Hk. exists (start + (k - (start + 6) mod 7) mod 7). split.
      + Z.div_mod_to_equations. lia.
      + apply Hin. unfold start. Z.div_mod_to_equations. lia. }
  assert (Hcolumns : sorted_unique (map (fun d : Z => snd (grid_key start d)) days) = consecutive 0 53).
  { apply sorted_unique_range. intro k. rewrite in_map_iff.
    change (Z.of_nat 53) with 53. unfold grid_key. cbn [fst snd]. split.
    - intros (d & <- & Hd). apply Hin in Hd. unfold start in *.
      Z.div_mod_to_equations. lia.
    - intro Hk. exists (start + 7 * k). split.
      + Z.div_mod_to_equations. lia.
      + apply Hin. unfold start. lia. }
  set (rowf := fun i : Z => map (fun c : Z => match lookup_cell (i, c)
                                                   (map (fun d : Z => (grid_key start d, valf d)) days) with
                                            | Some v => v
                                            | None => NaN
                                            end) (consecutive 0 53)).
  exists (mkHeatmap (map rowf (consecutive 0 7)) (consecutive 0 53)
            ["Mon"; "Tue"; "Wed"; "Thu"; "Fri"; "Sat"; "Sun"]%string), dates, km.
  assert (Hcell : forall r c, 0 <= r < 7 -> 0 <= c < 53 ->
            grid_cell (mkHeatmap (map rowf (consecutive 0 7)) (consecutive 0 53)
                         ["Mon"; "Tue"; "Wed"; "Thu"; "Fri"; "Sat"; "Sun"]%string) r c
            = Some (match lookup_cell (r, c) (map (fun d : Z => (grid_key start d, valf d)) days) with
                    | Some v => v
                    | None => NaN
                    end)).
  { intros r c Hr Hc. unfold grid_cell. cbn [hm_z].
    rewrite (nth_error_map_consecutive rowf 7 r) by (simpl; lia).
    unfold rowf. now rewrite (nth_error_map_consecutive _ 53 c) by (simpl; lia). }
  refine (conj eq_refl (conj eq_refl (conj _ (conj eq_refl (conj _ (conj eq_refl (conj _ (conj _ (conj _ _))))))))).
  - unfold App.create_activity_heatmap, App.assign_if.
    rewrite has_column_getitem, Hdates. cbn [is_ok negb bind].
    rewrite Hdates, Hkm. cbn [bind]. rewrite Hgroups. cbn [bind].
    replace (Z.to_nat (today - (today - 364) + 1)) with 365%nat by lia.
    fold start. fold days. rewrite map_map. cbn [fst snd].
    match goal with
    | |- context [pivot ?rows] =>
        change rows with (map (fun d : Z => (grid_key start d, valf d)) days)
    end.
    unfold pivot.
    rewrite (no_duplicate_key (grid_key start) valf days Hinj (consecutive_nodup _ _)).
    rewrite !map_map. cbn [fst snd bind pv_values pv_columns].
    rewrite Hindex, Hcolumns. reflexivity.
  - cbn [hm_z]. now rewrite length_map, consecutive_length.
  - cbn [hm_z]. intros row Hrow. apply in_map_iff in Hrow as (i & <- & _).
    unfold rowf. now rewrite length_map, consecutive_length.
  - intros d Hd.
    assert (Hw : 0 <= weekday d < 7) by (unfold weekday; Z.div_mod_to_equations; lia).
    assert (Hc : 0 <= (d - start) / 7 < 53) by (unfold start in *; Z.div_mod_to_equations; lia).
    refine (conj Hw (conj Hc _)).
    rewrite Hcell by assumption.
    change (weekday d, (d - start) / 7) with (grid_key start d).
    rewrite (lookup_cell_key (grid_key start) valf days Hinj d) by (apply Hin; exact Hd).
    unfold valf. specialize (Hlook d). destruct (lookup_group d groups) as [t|].
    + exists t. destruct Hlook as [Hact Ht]. repeat split; [exact Ht|]. congruence.
    + exists 0%Q. repeat split.
      clear -Hlook. revert km Hlook. induction dates as [|v ds IHd]; intros [|k ks] H;
        simpl in *; try reflexivity.
      apply orb_false_iff in H as [H1 H2]. rewrite H1. now apply IHd.
  - intros d1 d2 H1 H2 E. apply (Hinj d1 d2); [now apply Hin|now apply Hin|].
    rewrite E. apply key_eqb_refl.
  - intros r c Hr Hc. rewrite Hcell by assumption.
    destruct (lookup_cell (r, c) _) as [v|] eqn:E; [left|now right].
    apply lookup_cell_some in E as (d & Hd & Hk & _).
    exists d. split; [now apply Hin|].
    unfold key_eqb in Hk. apply andb_true_iff in Hk as [K1 K2].
    apply Z.eqb_eq in K1, K2. simpl in K1, K2. unfold grid_key. simpl. congruence.
Qed.

Lemma heatmap_covers_trailing_year_witness :
  exists hm dates km,
    getitem sample_frame "date" = Ok dates
    /\ getitem sample_frame "distance_km" = Ok km
    /\ App.create_activity_heatmap iso_parser sample_frame (ymd2ord 2024 6 30) = Ok hm
    /\ heatmap_facts (ymd2ord 2024 6 30) hm dates km.
Proof.
  apply (heatmap_covers_trailing_year iso_parser sample_frame (ymd2ord 2024 6 30)).
  vm_compute. reflexivity.
Defined.

(** ** Sync and persisted files *)

Lemma sync_failure_keeps_files parse_datetime (now : datetime) (net : network)
      (fs : files) (e : exn) :
  App.fetch_strava_data net = Raise e ->
  App.update_data parse_datetime now net fs = (Some e, fs)
  /\ snd (App.auto_update_if_needed parse_datetime now net fs) = fs
  /\ App.load_data parse_datetime (mkFiles None (config_file fs)) net
     = (Raise e, mkFiles None (config_file fs)).
Proof.
  intro H. unfold App.update_data, App.auto_update_if_needed, App.load_data.
  rewrite H. simpl. repeat split.
  destruct (App.should_update_data _ _); reflexivity.
Qed.

Lemma main_failure_keeps_files parse_datetime (now : datetime) (net : network)
      (fs : files) (e : exn) :
  UpdateData.fetch_strava_data net = Raise e ->
  UpdateData.main parse_datetime true now net fs = (1, fs).
Proof.
  intro H. unfold UpdateData.main. simpl.
  destruct (UpdateData.get_access_token net); simpl; [now rewrite H|reflexivity].
Qed.

(** C2: a page that answers with an HTTP error status and a JSON body is
    read as data.  With the API's error object on page 3 the fetch
    returns the first two pages and the keys of the error object; with
    an empty JSON body it returns the first two pages, and every sync
    path replaces the stored dataset of 401 rows by those 400 rows. *)
Theorem http_error_page_is_not_detected :
  App.fetch_strava_data rate_limited_net
  = Ok (full_page ++ full_page ++ [JStr "message"; JStr "errors"]%string)
  /\ UpdateData.fetch_strava_data rate_limited_net
     = Ok (full_page ++ full_page ++ [JStr "message"; JStr "errors"]%string)
  /\ App.fetch_strava_data server_error_net = Ok (full_page ++ full_page)
  /\ UpdateData.fetch_strava_data server_error_net = Ok (full_page ++ full_page)
  /\ option_map nrows (csv_file previous_files) = Some 401%nat
  /\ option_map nrows
       (csv_file (snd (App.update_data iso_parser sync_time server_error_net previous_files)))
     = Some 400%nat
  /\ option_map nrows
       (csv_file (snd (App.auto_update_if_needed iso_parser sync_time server_error_net
                         previous_files)))
     = Some 400%nat
  /\ fst (UpdateData.main iso_parser true sync_time server_error_net previous_files) = 0
  /\ option_map nrows
       (csv_file (snd (UpdateData.main iso_parser true sync_time server_error_net
                         previous_files)))
     = Some 400%nat.
Proof. repeat split; vm_compute; reflexivity. Qed.

(** ** Fetch against a server that pages faithfully *)

Lemma page_slice_length (L : list json) (p : Z) :
  1 <= p ->
  Z.of_nat (List.length (page_slice L 200 p))
  = Z.max 0 (Z.min 200 (Z.of_nat (List.length L) - 200 * (p - 1))).
Proof.
  intro Hp. unfold page_slice. rewrite length_firstn, length_skipn. lia.
Qed.

Lemma page_of_paged_server (L : list json) (p : Z) :
  1 <= p ->
  page_of (paged_server L) p =
  if Z.of_nat (List.length L) <=? 200 * (p - 1) then PageEmpty
  else if Z.of_nat (List.length L) <? 200 * p then PageShort (page_slice L 200 p)
  else PageFull (page_slice L 200 p).
Proof.
  intro Hp. pose proof (page_slice_length L p Hp) as Hlen.
  unfold page_of, classify_page, paged_server. cbn [activities_endpoint request_json].
  unfold PER_PAGE. cbn [truthy iterate len].
  destruct (Z.leb_spec (Z.of_nat (List.length L)) (200 * (p - 1))) as [H1|H1].
  - replace (List.length (page_slice L 200 p)) with 0%nat by lia. reflexivity.
  - destruct (List.length (page_slice L 200 p)) as [|n] eqn:E; [lia|].
    cbn [Nat.eqb negb]. rewrite <- E.
    destruct (Z.ltb_spec (Z.of_nat (List.length L)) (200 * p)) as [H2|H2].
    + replace (Z.of_nat (List.length (page_slice L 200 p)) <? 200) with true
        by (symmetry; apply Z.ltb_lt; lia). reflexivity.
    + replace (Z.of_nat (List.length (page_slice L 200 p)) <? 200) with false
        by (symmetry; apply Z.ltb_ge; lia). reflexivity.
Qed.

Lemma page_items_paged_server (L : list json) (p : Z) :
  1 <= p -> page_items (page_of (paged_server L) p) = page_slice L 200 p.
Proof.
  intro Hp. rewrite page_of_paged_server by assumption.
  destruct (Z.leb_spec (Z.of_nat (List.length L)) (200 * (p - 1))) as [H1|H1].
  - simpl. symmetry. apply length_zero_iff_nil.
    pose proof (page_slice_length L p Hp). lia.
  - destruct (Z.of_nat (List.length L) <? 200 * p); reflexivity.
Qed.

Lemma firstn_plus {A : Type} (a b : nat) (l : list A) :
  firstn (a + b) l = firstn a l ++ firstn b (skipn a l).
Proof.
  revert l. induction a as [|a IH]; intros [|x l]; simpl; try reflexivity.
  - now rewrite firstn_nil.
  - now rewrite IH.
Qed.

Lemma slices_concat (L : list json) (k : nat) (s : Z) :
  1 <= s ->
  flat_map (fun p => page_slice L 200 p) (consecutive s k)
  = firstn (200 * k) (skipn (Z.to_nat ((s - 1) * 200)) L).
Proof.
  revert s. induction k as [|k IH]; intros s Hs.
  - simpl. reflexivity.
  - cbn [consecutive flat_map]. rewrite IH by lia.
    replace (200 * S k)%nat with (200 + 200 * k)%nat by lia.
    rewrite firstn_plus. unfold page_slice. f_equal.
    rewrite skipn_skipn. do 2 f_equal. lia.
Qed.

Lemma flat_map_ext_in {A B : Type} (f g : A -> list B) (l : list A) :
  (forall a, In a l -> f a = g a) -> flat_map f l = flat_map g l.
Proof.
  induction l as [|a l IH]; intro H; simpl; [reflexivity|].
  rewrite (H a (or_introl eq_refl)), IH; [reflexivity|].
  intros; apply H; now right.
Qed.

(** The run of the loop against a faithful server. *)
Lemma paged_server_run (L : list json) :
  exists k : nat,
    App.fetch_loop 100 (paged_server L) 1 [] []
    = Some (Ok (firstn (Z.to_nat (PER_PAGE * PAGE_CAP)) L), queries 1 k)
    /\ Z.of_nat k = Z.min (Z.of_nat (List.length L) / 200 + 1) 100.
Proof.
  destruct (fetch_loop_run (paged_server L) 99 100 1 [] []) as (r & k & Hrun & Hk & Hfull & Hstop & Hres);
    [reflexivity | lia |].
  replace (1 + Z.of_nat k - 1) with (Z.of_nat k) in * by lia.
  exists k.
  assert (Hbefore : 2 <= Z.of_nat k -> 200 * (Z.of_nat k - 1) <= Z.of_nat (List.length L)).
  { intro H2. specialize (Hfull (Z.of_nat k - 1) ltac:(lia)).
    rewrite page_of_paged_server in Hfull by lia.
    destruct (Z.leb_spec (Z.of_nat (List.length L)) (200 * (Z.of_nat k - 1 - 1))); [discriminate|].
    destruct (Z.ltb_spec (Z.of_nat (List.length L)) (200 * (Z.of_nat k - 1))); [discriminate|lia]. }
  assert (Hlast : k = 100%nat \/ Z.of_nat (List.length L) < 200 * Z.of_nat k).
  { destruct Hstop as [->|Hs]; [now left|right].
    rewrite page_of_paged_server in Hs by lia.
    destruct (Z.leb_spec (Z.of_nat (List.length L)) (200 * (Z.of_nat k - 1))); [lia|].
    destruct (Z.ltb_spec (Z.of_nat (List.length L)) (200 * Z.of_nat k)); [lia|discriminate]. }
  assert (Hr : r = Ok (flat_map (fun p => page_items (page_of (paged_server L) p)) (consecutive 1 k))).
  { revert Hres. rewrite page_of_paged_server by lia.
    destruct (_ <=? _); [tauto|]. destruct (_ <? _); tauto. }
  split.
  - rewrite Hrun, Hr. simpl app. do 3 f_equal.
    rewrite (flat_map_ext_in _ (fun p => page_slice L 200 p)).
    + rewrite slices_concat by lia. simpl skipn.
      unfold PER_PAGE, PAGE_CAP.
      destruct Hlast as [->|Hlt]; [f_equal; lia|].
      rewrite !firstn_all2 by lia. reflexivity.
    + intros p Hp. apply in_consecutive in Hp. apply page_items_paged_server. lia.
  - destruct Hlast as [->|Hlt].
    + specialize (Hbefore ltac:(lia)). 
      assert (99 <= Z.of_nat (List.length L) / 200) by (apply Z.div_le_lower_bound; lia).
      lia.
    + assert (Z.of_nat (List.length L) / 200 = Z.of_nat k - 1).
      { destruct (Z.le_gt_cases 2 (Z.of_nat k)) as [H2|H2].
        - specialize (Hbefore H2). symmetry. apply Z.div_unique with (r := Z.of_nat (List.length L) - 200 * (Z.of_nat k - 1)); lia.
        - assert (k = 1%nat) by lia. subst k. apply Z.div_small. lia. }
      lia.
Qed.

(** X1: against a server that pages faithfully both fetch functions
    return the stored activities in order: all of them when there are at
    most 20,000, the first 20,000 otherwise.  The loop sends
    [n / 200 + 1] requests for [n] activities (one more than the pages
    that hold data when [n] is a multiple of 200), and never more than
    100. *)
Theorem fetch_returns_stored_activities (activities : list json) :
  App.fetch_strava_data (paged_server activities)
  = Ok (firstn (Z.to_nat (PER_PAGE * PAGE_CAP)) activities)
  /\ UpdateData.fetch_strava_data (paged_server activities)
     = Ok (firstn (Z.to_nat (PER_PAGE * PAGE_CAP)) activities)
  /\ (Z.of_nat (List.length activities) <= PER_PAGE * PAGE_CAP ->
      App.fetch_strava_data (paged_server activities) = Ok activities)
  /\ exists k : nat,
       App.fetch_strava_data_run (Z.to_nat PAGE_CAP) (paged_server activities)
       = Some (Ok (firstn (Z.to_nat (PER_PAGE * PAGE_CAP)) activities), queries 1 k)
       /\ Z.of_nat k = Z.min (Z.of_nat (List.length activities) / PER_PAGE + 1) PAGE_CAP.
Proof.
  destruct (paged_server_run activities) as (k & Hrun & Hk).
  assert (Happ : App.fetch_strava_data_run (Z.to_nat PAGE_CAP) (paged_server activities)
                 = Some (Ok (firstn (Z.to_nat (PER_PAGE * PAGE_CAP)) activities), queries 1 k)).
  { unfold App.fetch_strava_data_run. exact Hrun. }
  assert (E : App.fetch_strava_data (paged_server activities)
              = Ok (firstn (Z.to_nat (PER_PAGE * PAGE_CAP)) activities)).
  { unfold App.fetch_strava_data. now rewrite Happ. }
  refine (conj E (conj _ (conj _ _))).
  - unfold UpdateData.fetch_strava_data, UpdateData.fetch_strava_data_run.
    change (Z.to_nat PAGE_CAP) with 100%nat. rewrite fetch_loop_agree, Hrun. reflexivity.
  - intro Hlen. rewrite E. f_equal. apply firstn_all2. lia.
  - exists k. split; [exact Happ|exact Hk].
Qed.

(** ** Sync paths and the config *)

Lemma job_fetch_agrees (net : network) :
  (_ <- UpdateData.get_access_token net ;; UpdateData.fetch_strava_data net)
  = App.fetch_strava_data net.
Proof.
  unfold App.fetch_strava_data, UpdateData.fetch_strava_data,
    App.fetch_strava_data_run, UpdateData.fetch_strava_data_run.
  change (UpdateData.get_access_token net) with (App.get_access_token net).
  destruct (App.get_access_token net) as [token|e]; reflexivity.
Qed.

Lemma job_pipeline_agrees parse_datetime (net : network) :
  (_ <- UpdateData.get_access_token net ;;
   raw_data <- UpdateData.fetch_strava_data net ;;
   UpdateData.process_data parse_datetime (JArr raw_data))
  = (raw_data <- App.fetch_strava_data net ;;
     App.process_data parse_datetime (JArr raw_data)).
Proof.
  rewrite <- job_fetch_agrees.
  destruct (UpdateData.get_access_token net); reflexivity.
Qed.

(** On a disk whose config is absent or holds an object with a
    timestamp that parses, the sync paths over the disk are those over
    [files]. *)
Lemma update_data_on_disk parse_datetime (now : datetime) (net : network) (fs : files) :
  OnDisk.update_data parse_datetime now net (disk_of fs)
  = (fst (App.update_data parse_datetime now net fs),
     disk_of (snd (App.update_data parse_datetime now net fs))).
Proof.
  unfold OnDisk.update_data, App.update_data.
  fold (fetched_frame parse_datetime net).
  destruct (fetched_frame parse_datetime net) as [df|e]; [|reflexivity].
  destruct fs as [csv [c|]]; reflexivity.
Qed.

Lemma auto_update_on_disk parse_datetime (now : datetime) (net : network) (fs : files) :
  OnDisk.auto_update_if_needed parse_datetime now net (disk_of fs)
  = (Ok (fst (App.auto_update_if_needed parse_datetime now net fs)),
     disk_of (snd (App.auto_update_if_needed parse_datetime now net fs))).
Proof.
  unfold OnDisk.auto_update_if_needed, App.auto_update_if_needed.
  fold (fetched_frame parse_datetime net).
  destruct (fetched_frame parse_datetime net) as [df|e];
    destruct fs as [csv [[goal [t|]]|]];
    cbn [disk_of OnDisk.load_config disk_config option_map config_file json_load bind
         OnDisk.should_update_data dict_of dict_last_update dict_goal stamp_of
         monthly_goal last_update App.load_config];
    try (destruct (App.should_update_data _ _) eqn:E);
    try reflexivity; cbn in E; discriminate E.
Qed.

Lemma main_on_disk parse_datetime (credentials : bool) (now : datetime) (net : network)
      (fs : files) :
  OnDisk.main parse_datetime credentials now net (disk_of fs)
  = (fst (UpdateData.main parse_datetime credentials now net fs),
     disk_of (snd (UpdateData.main parse_datetime credentials now net fs))).
Proof.
  unfold OnDisk.main, UpdateData.main. destruct credentials; [|reflexivity]. cbn [negb].
  rewrite job_pipeline_agrees. fold (fetched_frame parse_datetime net).
  destruct (fetched_frame parse_datetime net) as [df|e]; [|reflexivity].
  destruct fs as [csv [c|]]; reflexivity.
Qed.

(** X28: on a disk whose config file is absent or holds a JSON object
    with a timestamp that parses, the three sync paths over the disk
    are the sync paths over [files]: the same error or exit status, the
    same frame and the same files. *)
Theorem sync_paths_agree_on_readable_disk parse_datetime (credentials : bool)
        (now : datetime) (net : network) (fs : files) :
  OnDisk.update_data parse_datetime now net (disk_of fs)
  = (fst (App.update_data parse_datetime now net fs),
     disk_of (snd (App.update_data parse_datetime now net fs)))
  /\ OnDisk.auto_update_if_needed parse_datetime now net (disk_of fs)
     = (Ok (fst (App.auto_update_if_needed parse_datetime now net fs)),
        disk_of (snd (App.auto_update_if_needed parse_datetime now net fs)))
  /\ OnDisk.main parse_datetime credentials now net (disk_of fs)
     = (fst (UpdateData.main parse_datetime credentials now net fs),
        disk_of (snd (UpdateData.main parse_datetime credentials now net fs))).
Proof.
  refine (conj _ (conj _ _)).
  - apply update_data_on_disk.
  - apply auto_update_on_disk.
  - apply main_on_disk.
Qed.

(** X3: the outcomes of a sync over the files on disk.  The sync button
    and the scheduled job end in one of three ways: the sync is
    complete (fetch and processing succeeded, the snapshot is the
    processed frame, the config records the time of the sync and keeps
    its goal); or fetch or processing failed, the error is reported and
    both files are as before; or fetch and processing succeeded but the
    config file holds no JSON object, and then an error is reported
    after the snapshot has been replaced.  The automatic update reads
    the config first: it ends with a complete sync or with both files
    as before, also when an exception leaves it. *)
Theorem sync_outcomes_on_disk parse_datetime (now : datetime) (net : network) (d : disk) :
  (let '(err, d') := OnDisk.update_data parse_datetime now net d in
   match err with
   | None =>
       exists df, fetched_frame parse_datetime net = Ok df
                  /\ config_is_object d = true
                  /\ d' = synced_disk df (goal_on_disk (Some 100) d) now
   | Some e =>
       (fetched_frame parse_datetime net = Raise e /\ d' = d)
       \/ (exists df, fetched_frame parse_datetime net = Ok df
                      /\ config_is_object d = false
                      /\ d' = torn_disk d df)
   end)
  /\ (let '(status, d') := OnDisk.main parse_datetime true now net d in
      (status = 0
       /\ exists df, fetched_frame parse_datetime net = Ok df
                     /\ config_is_object d = true
                     /\ d' = synced_disk df (goal_on_disk None d) now)
      \/ (status = 1
          /\ ((exists e, fetched_frame parse_datetime net = Raise e) /\ d' = d
              \/ exists df, fetched_frame parse_datetime net = Ok df
                            /\ config_is_object d = false
                            /\ d' = torn_disk d df)))
  /\ (let '(auto_df, d') := OnDisk.auto_update_if_needed parse_datetime now net d in
      match auto_df with
      | Ok (Some df) =>
          fetched_frame parse_datetime net = Ok df
          /\ config_is_object d = true
          /\ d' = synced_disk df (goal_on_disk (Some 100) d) now
      | Ok None | Raise _ => d' = d
      end)
  /\ (forall df,
        fetched_frame parse_datetime net = Ok df ->
        config_is_object d = false ->
        (exists e, OnDisk.update_data parse_datetime now net d = (Some e, torn_disk d df))
        /\ OnDisk.main parse_datetime true now net d = (1, torn_disk d df)).
Proof.
  refine (conj _ (conj _ (conj _ _))).
  - unfold OnDisk.update_data. fold (fetched_frame parse_datetime net).
    destruct (fetched_frame parse_datetime net) as [df|e]; [|left; split; reflexivity].
    destruct d as [csv [[| |c]|]]; cbn.
    + right. exists df. repeat split.
    + right. exists df. repeat split.
    + exists df. repeat split.
    + exists df. repeat split.
  - unfold OnDisk.main. cbn [negb]. rewrite job_pipeline_agrees.
    fold (fetched_frame parse_datetime net).
    destruct (fetched_frame parse_datetime net) as [df|e];
      [|right; split; [reflexivity|left; split; [exists e|]; reflexivity]].
    destruct d as [csv [[| |c]|]]; cbn.
    + right. split; [reflexivity|]. right. exists df. repeat split.
    + right. split; [reflexivity|]. right. exists df. repeat split.
    + left. split; [reflexivity|]. exists df. repeat split.
    + left. split; [reflexivity|]. exists df. repeat split.
  - unfold OnDisk.auto_update_if_needed. fold (fetched_frame parse_datetime net).
    destruct (fetched_frame parse_datetime net) as [df|e];
      destruct d as [csv [[| |[goal [|t| |]]]|]];
      cbn [OnDisk.load_config disk_config json_load bind OnDisk.should_update_data
           dict_last_update dict_goal];
      try reflexivity;
      try (destruct (App.should_update_data _ _)); try reflexivity;
      cbn; repeat split.
  - intros df Hdf Hconfig. unfold OnDisk.update_data, OnDisk.main. cbn [negb].
    rewrite job_pipeline_agrees. fold (fetched_frame parse_datetime net). rewrite Hdf.
    destruct d as [csv [[| |c]|]]; try discriminate; cbn; split; eauto.
Qed.

(** A sync that finds a truncated config file: the activities are
    fetched and processed, the snapshot is replaced, and then the error
    is reported. *)
Lemma sync_with_truncated_config :
  OnDisk.update_data iso_parser sync_time (paged_server sample_records) truncated_config_disk
  = (Some JSONDecodeError, mkDisk (Some sample_frame) (Some NotJSON))
  /\ OnDisk.main iso_parser true sync_time (paged_server sample_records) truncated_config_disk
     = (1, mkDisk (Some sample_frame) (Some NotJSON))
  /\ OnDisk.auto_update_if_needed iso_parser sync_time (paged_server sample_records)
       truncated_config_disk
     = (Raise JSONDecodeError, truncated_config_disk).
Proof.
  refine (conj _ (conj _ _)); vm_compute; reflexivity.
Qed.

(** The order of timestamps is antisymmetric. *)
Lemma datetime_leb_not_ltb (a b : datetime) :
  datetime_leb a b = true -> datetime_ltb b a = false.
Proof.
  intro H. apply not_true_is_false. intro H'. revert H H'.
  unfold datetime_leb, datetime_ltb, datetime_eqb.
  rewrite !orb_true_iff, !andb_true_iff, !orb_true_iff, !andb_true_iff,
    !Z.ltb_lt, !Z.eqb_eq, ?orb_true_iff, ?andb_true_iff, ?Z.ltb_lt, ?Z.eqb_eq.
  lia.
Qed.

Lemma datetime_ltb_not_leb (a b : datetime) :
  datetime_ltb a b = true -> datetime_leb b a = false.
Proof.
  intro H. destruct (datetime_leb b a) eqn:E; [|reflexivity].
  apply datetime_leb_not_ltb in E. congruence.
Qed.

(** With [last_update] set to [now], nothing is due at [now], nor at
    any time of the same day when [now] is not before 08:00. *)
Lemma not_due_after (goal : option Z) (now later : datetime) :
  dt_date later = dt_date now ->
  later = now \/ datetime_leb (replace_time now 8 0 0 0) now = true ->
  App.should_update_data (mkConfig goal (Some now)) later = false.
Proof.
  intros Hdate Hcase. unfold App.should_update_data. cbn [last_update].
  rewrite Hdate, Z.ltb_irrefl.
  assert (H8 : replace_time later 8 0 0 0 = replace_time now 8 0 0 0)
    by (unfold replace_time; now rewrite Hdate).
  rewrite H8.
  destruct (datetime_ltb now (replace_time now 8 0 0 0)) eqn:Hlt; [|reflexivity].
  destruct Hcase as [->|Hle].
  - now rewrite (datetime_ltb_not_leb _ _ Hlt).
  - apply datetime_leb_not_ltb in Hle. congruence.
Qed.

(** X4: after a completed sync (by the button, the automatic update or
    the scheduled job) no refresh is due at that instant, nor at any
    time of that day when the sync ran at 08:00 or later; a second
    automatic update at the same instant returns nothing and leaves the
    files alone, whatever the network would answer. *)
Theorem no_refresh_due_after_sync parse_datetime (now : datetime) (net : network)
        (fs fs' : files) :
  App.update_data parse_datetime now net fs = (None, fs')
  \/ (exists df, App.auto_update_if_needed parse_datetime now net fs = (Some df, fs'))
  \/ UpdateData.main parse_datetime true now net fs = (0, fs') ->
  (forall later,
      dt_date later = dt_date now ->
      later = now \/ datetime_leb (replace_time now 8 0 0 0) now = true ->
      App.should_update_data (App.load_config fs') later = false)
  /\ (forall net', App.auto_update_if_needed parse_datetime now net' fs' = (None, fs')).
Proof.
  intro Hsync.
  assert (Hcfg : exists goal, App.load_config fs' = mkConfig goal (Some now)).
  { destruct Hsync as [H|[[df H]|H]].
    - unfold App.update_data in H.
      destruct (bind _ _); [|discriminate]. injection H as <-. eexists. reflexivity.
    - unfold App.auto_update_if_needed in H.
      destruct (App.should_update_data _ _); [|discriminate].
      destruct (bind _ _); [|discriminate]. injection H as _ <-. eexists. reflexivity.
    - unfold UpdateData.main in H. cbn [negb] in H.
      destruct (bind _ _); [|discriminate]. injection H as <-. eexists. reflexivity. }
  destruct Hcfg as [goal Hcfg]. split.
  - intros later Hdate Hcase. rewrite Hcfg. now apply not_due_after.
  - intro net'. unfold App.auto_update_if_needed. rewrite Hcfg.
    rewrite not_due_after; [reflexivity|reflexivity|now left].
Qed.

Lemma no_refresh_due_after_sync_witness :
  (forall later,
      dt_date later = dt_date sync_time ->
      later = sync_time \/ datetime_leb (replace_time sync_time 8 0 0 0) sync_time = true ->
      App.should_update_data
        (App.load_config (snd (App.update_data iso_parser sync_time server_error_net previous_files)))
        later = false)
  /\ (forall net',
        App.auto_update_if_needed iso_parser sync_time net'
          (snd (App.update_data iso_parser sync_time server_error_net previous_files))
        = (None, snd (App.update_data iso_parser sync_time server_error_net previous_files))).
Proof.
  apply (no_refresh_due_after_sync iso_parser sync_time server_error_net previous_files).
  left. vm_compute. reflexivity.
Defined.

(** X5: the scheduled job of [update_data.py] and the sync of the
    dashboard agree: one exits with status 0 exactly when the other
    reports no error, they leave the same snapshot, the same time of
    last update and the same monthly goal in force, and the same files
    altogether when a config file existed. *)
Theorem scheduled_job_agrees_with_app_sync parse_datetime (now : datetime)
        (net : network) (fs : files) :
  let '(status, job_files) := UpdateData.main parse_datetime true now net fs in
  let '(err, app_files) := App.update_data parse_datetime now net fs in
  (status = 0 <-> err = None)
  /\ (status = 1 <-> err <> None)
  /\ csv_file job_files = csv_file app_files
  /\ last_update (App.load_config job_files) = last_update (App.load_config app_files)
  /\ App.config_monthly_goal (App.load_config job_files)
     = App.config_monthly_goal (App.load_config app_files)
  /\ (config_file fs <> None -> job_files = app_files).
Proof.
  unfold UpdateData.main, App.update_data. cbn [negb].
  rewrite job_pipeline_agrees.
  destruct (bind _ _) as [df|e].
  - unfold App.load_config, to_csv, dump_config, App.save_config. simpl.
    destruct (config_file fs) as [c|]; simpl;
      (repeat split; try reflexivity; try discriminate; try congruence).
  - repeat split; try reflexivity; try discriminate; try congruence.
Qed.

(** X6: the monthly goal entered in the sidebar is the goal read back
    from the config; storing it keeps the time of the last update (so
    the refresh schedule is unaffected) and the snapshot, storing it
    twice is storing it once, and a goal equal to the configured one
    (100 without a config file) writes nothing. *)
Theorem monthly_goal_round_trip (goal : Z) (fs : files) :
  App.config_monthly_goal (App.load_config (App.store_monthly_goal goal fs)) = goal
  /\ last_update (App.load_config (App.store_monthly_goal goal fs))
     = last_update (App.load_config fs)
  /\ csv_file (App.store_monthly_goal goal fs) = csv_file fs
  /\ (forall now,
        App.should_update_data (App.load_config (App.store_monthly_goal goal fs)) now
        = App.should_update_data (App.load_config fs) now)
  /\ App.store_monthly_goal goal (App.store_monthly_goal goal fs)
     = App.store_monthly_goal goal fs
  /\ (goal = App.config_monthly_goal (App.load_config fs) ->
      App.store_monthly_goal goal fs = fs).
Proof.
  unfold App.store_monthly_goal, App.save_config, dump_config, App.load_config,
    App.config_monthly_goal.
  destruct fs as [csv [[[g|] lu]|]]; cbn [config_file csv_file monthly_goal last_update];
    match goal with
    | |- context [goal =? ?x] => destruct (Z.eqb_spec goal x) as [E|E]
    end;
    cbn [negb config_file csv_file monthly_goal last_update];
    rewrite ?Z.eqb_refl; cbn [negb];
    repeat split; try reflexivity; try congruence;
    subst; rewrite ?Z.eqb_refl; reflexivity.
Qed.

(** X7: when the fetch fails, the automatic update followed by
    [load_data] changes no file; with a stored snapshot the result is
    what loading the snapshot gives, and it does not depend on the
    network; without a snapshot it is the error of the fetch. *)
Theorem offline_dashboard_uses_snapshot parse_datetime (now : datetime)
        (net : network) (fs : files) (e : exn) :
  App.fetch_strava_data net = Raise e ->
  App.refresh_and_load parse_datetime now net fs
  = (match csv_file fs with
     | Some _ => fst (App.load_data parse_datetime fs net)
     | None => Raise e
     end, fs)
  /\ forall net', csv_file fs <> None ->
       App.load_data parse_datetime fs net' = App.load_data parse_datetime fs net.
Proof.
  intro Hf. split.
  - unfold App.refresh_and_load, App.auto_update_if_needed.
    rewrite Hf. cbn [bind].
    assert (Hload : App.load_data parse_datetime fs net
                    = (match csv_file fs with
                       | Some _ => fst (App.load_data parse_datetime fs net)
                       | None => Raise e
                       end, fs)).
    { unfold App.load_data. rewrite Hf. destruct (csv_file fs); reflexivity. }
    destruct (App.should_update_data _ _); exact Hload.
  - intros net' Hsome. unfold App.load_data.
    destruct (csv_file fs); [reflexivity|congruence].
Qed.

Lemma offline_dashboard_uses_snapshot_witness :
  App.refresh_and_load iso_parser sync_time idle_net previous_files
  = (match csv_file previous_files with
     | Some _ => fst (App.load_data iso_parser previous_files idle_net)
     | None => Raise RequestException
     end, previous_files)
  /\ forall net', csv_file previous_files <> None ->
       App.load_data iso_parser previous_files net' = App.load_data iso_parser previous_files idle_net.
Proof.
  apply (offline_dashboard_uses_snapshot iso_parser sync_time idle_net previous_files RequestException).
  reflexivity.
Defined.

(** ** Loading twice *)



Lemma has_column_setitem (df : DataFrame) (c c' : string) (col : list value) :
  has_column c' (setitem df c col) = String.eqb c' c || has_column c' df.
Proof.
  rewrite !has_column_getitem, getitem_setitem.
  destruct (String.eqb c' c); reflexivity.
Qed.

Lemma assign_if_cases (cond : bool) (c : string)
      (compute : DataFrame -> result (list value)) (df df' : DataFrame) :
  App.assign_if cond c compute df = Ok df' ->
  (cond = false /\ df' = df)
  \/ (cond = true /\ exists col, df' = setitem df c col).
Proof.
  unfold App.assign_if. destruct cond.
  - intro H. apply bind_ok in H as (col & _ & H). injection H as <-. right. eauto.
  - intro H. injection H as <-. now left.
Qed.


Lemma processed_loaded (records : list json) (df : DataFrame) :
  processed records df -> loaded df.
Proof.
  intros []. unfold loaded. rewrite !has_column_getitem.
  rewrite pr_get_sdl, pr_get_date, pr_get_hour, pr_get_weekday, pr_get_week,
    pr_get_month, pr_get_year, pr_get_pace_zone, pr_get_time_of_day.
  refine (conj _ (conj _ _)).
  - exists sdl. auto.
  - exists dates. split; [reflexivity|]. eapply dt_get_date_dates; eassumption.
  - simpl. tauto.
Qed.

Lemma load_data_loaded parse_datetime (fs : files) (net : network) (df : DataFrame) :
  fst (App.load_data parse_datetime fs net) = Ok df -> loaded df.
Proof.
  unfold App.load_data. destruct (csv_file fs) as [snapshot|].
  - cbn [fst]. intro H.
    apply bind_ok in H as (df0 & _ & H).
    apply bind_ok in H as (c0 & _ & H).
    apply bind_ok in H as (sdl & Esdl & H). cbv zeta in H.
    apply bind_ok in H as (df1 & Edate & H).
    apply bind_ok in H as (df2 & E2 & H).
    apply bind_ok in H as (df3 & E3 & H).
    apply bind_ok in H as (df4 & E4 & H).
    apply bind_ok in H as (df5 & E5 & H).
    apply bind_ok in H as (df6 & E6 & H).
    apply bind_ok in H as (df7 & E7 & H).
    apply bind_ok in H as (df8 & E8 & H).
    injection H as <-.
    pose proof (to_datetime_timestamps _ _ _ Esdl) as Hts.
    assert (H1 : (exists sdl, getitem df1 "start_date_local" = Ok sdl /\ Forall is_timestamp sdl)
                 /\ (exists dates, getitem df1 "date" = Ok dates /\ Forall is_date dates)).
    { destruct (negb _) in Edate;
        apply bind_ok in Edate as (c1 & _ & Edate);
        apply bind_ok in Edate as (c2 & _ & Edate);
        apply bind_ok in Edate as (c3 & Ec3 & Edate);
        injection Edate as <-; rewrite !getitem_setitem; simpl;
        (split; [exists sdl; auto | exists c3; split; [reflexivity|eapply dt_get_date_dates; eassumption]]). }
    destruct H1 as [Hs1 Hd1].
    (* the eight facts are established column by column *)
    assert (Hkeep : forall (a b : DataFrame) (c : string) cond compute,
               App.assign_if cond c compute a = Ok b ->
               c <> "start_date_local"%string -> c <> "date"%string ->
               ((exists sdl, getitem a "start_date_local" = Ok sdl /\ Forall is_timestamp sdl)
                -> exists sdl, getitem b "start_date_local" = Ok sdl /\ Forall is_timestamp sdl)
               /\ ((exists dates, getitem a "date" = Ok dates /\ Forall is_date dates)
                   -> exists dates, getitem b "date" = Ok dates /\ Forall is_date dates)
               /\ (forall c', has_column c' a = true -> has_column c' b = true)
               /\ (forall c', c' <> c -> has_column c' b = has_column c' a)
               /\ (cond = true -> has_column c b = true)).
    { intros a b c cond compute Ha Hc1 Hc2.
      apply assign_if_cases in Ha as [[-> ->]|[-> [col ->]]].
      - repeat split; auto. discriminate.
      - rewrite !getitem_setitem.
        destruct (String.eqb_spec "start_date_local" c); [congruence|].
        destruct (String.eqb_spec "date" c); [congruence|].
        repeat split; auto.
        + intros c' Hc'. rewrite has_column_setitem, Hc'. apply orb_true_r.
        + intros c' Hc'. rewrite has_column_setitem.
          destruct (String.eqb_spec c' c); [congruence|reflexivity].
        + intros _. rewrite has_column_setitem, String.eqb_refl. reflexivity. }
    assert (Hset : forall (a b : DataFrame) (c : string) compute,
               App.assign_if (negb (has_column c a)) c compute a = Ok b ->
               c <> "start_date_local"%string -> c <> "date"%string ->
               has_column c b = true).
    { intros a b c compute Ha Hc1 Hc2.
      destruct (Hkeep _ _ _ _ _ Ha Hc1 Hc2) as (_ & _ & Hmono & _ & Hnew).
      destruct (has_column c a) eqn:E; [now apply Hmono|now apply Hnew]. }
    destruct (Hkeep _ _ _ _ _ E2 ltac:(discriminate) ltac:(discriminate)) as (S2 & D2 & M2 & N2 & _).
    destruct (Hkeep _ _ _ _ _ E3 ltac:(discriminate) ltac:(discriminate)) as (S3 & D3 & M3 & N3 & _).
    destruct (Hkeep _ _ _ _ _ E4 ltac:(discriminate) ltac:(discriminate)) as (S4 & D4 & M4 & N4 & _).
    destruct (Hkeep _ _ _ _ _ E5 ltac:(discriminate) ltac:(discriminate)) as (S5 & D5 & M5 & N5 & _).
    destruct (Hkeep _ _ _ _ _ E6 ltac:(discriminate) ltac:(discriminate)) as (S6 & D6 & M6 & N6 & _).
    destruct (Hkeep _ _ _ _ _ E7 ltac:(discriminate) ltac:(discriminate)) as (S7 & D7 & M7 & N7 & C7).
    destruct (Hkeep _ _ _ _ _ E8 ltac:(discriminate) ltac:(discriminate)) as (S8 & D8 & M8 & N8 & C8).
    pose proof (Hset _ _ _ _ E2 ltac:(discriminate) ltac:(discriminate)) as Hhour.
    pose proof (Hset _ _ _ _ E3 ltac:(discriminate) ltac:(discriminate)) as Hweekday.
    pose proof (Hset _ _ _ _ E4 ltac:(discriminate) ltac:(discriminate)) as Hweek.
    pose proof (Hset _ _ _ _ E5 ltac:(discriminate) ltac:(discriminate)) as Hmonth.
    pose proof (Hset _ _ _ _ E6 ltac:(discriminate) ltac:(discriminate)) as Hyear.
    unfold loaded. refine (conj _ (conj _ (conj _ (conj _ (conj _ (conj _ (conj _ (conj _ _)))))))).
    + auto 10.
    + auto 10.
    + auto 10.
    + auto 10.
    + auto 10.
    + auto 10.
    + auto 10.
    + rewrite (N8 "pace"%string) by discriminate.
      rewrite (N7 "pace"%string) by discriminate.
      destruct (has_column "pace" df6) eqn:Ep; [left|now right].
      apply M8. destruct (has_column "pace_zone" df6) eqn:Ez; [now apply M7|].
      apply C7. reflexivity.
    + destruct (has_column "time_of_day" df7) eqn:Et; [now apply M8|].
      apply C8. cbn [negb andb]. auto 10.
  - cbn [fst].
    destruct (App.fetch_strava_data net) as [raw|e]; cbn [bind]; [|discriminate].
    destruct (App.process_data parse_datetime (JArr raw)) as [df'|e] eqn:Hp; cbn [fst]; [|discriminate].
    intro H. injection H as <-.
    eapply processed_loaded, process_data_processed, Hp.
Qed.

(** ** Schema and totality of the record processing *)

Lemma mem_app (c : string) (a b : list string) : mem c (a ++ b) = mem c a || mem c b.
Proof. unfold mem. apply existsb_app. Qed.

Lemma mem_filter (c : string) (f : string -> bool) (l : list string) :
  mem c (filter f l) = mem c l && f c.
Proof.
  unfold mem. induction l as [|x l IH]; simpl; [reflexivity|].
  destruct (f x) eqn:Ex; simpl; rewrite IH.
  - destruct (String.eqb_spec c x) as [->|_]; simpl; [now rewrite Ex|reflexivity].
  - destruct (String.eqb_spec c x) as [->|_]; simpl; [|reflexivity].
    rewrite Ex. now rewrite andb_false_r.
Qed.

Lemma has_column_mem (c : string) (df : DataFrame) : has_column c df = mem c (columns df).
Proof. reflexivity. Qed.

Lemma fold_keys_mem (c : string) (ks seen : list string) :
  mem c (fold_left (fun acc k => if existsb (String.eqb k) acc then acc else acc ++ [k]) ks seen)
  = mem c seen || mem c ks.
Proof.
  revert seen. induction ks as [|k ks IH]; intro seen; simpl.
  - now rewrite orb_false_r.
  - rewrite IH. destruct (existsb (String.eqb k) seen) eqn:Ek.
    + destruct (String.eqb_spec c k) as [->|_]; simpl; [|reflexivity].
      change (existsb (String.eqb k) seen) with (mem k seen) in Ek. rewrite Ek. reflexivity.
    + rewrite mem_app. simpl. rewrite orb_false_r, orb_assoc. reflexivity.
Qed.

Lemma union_keys_mem (records : list json) :
  forall seen labels,
    union_keys seen records = Some labels ->
    forall c, mem c labels = mem c seen || has_field c records.
Proof.
  induction records as [|r records IH]; intros seen labels H c; simpl in *.
  - injection H as <-. now rewrite orb_false_r.
  - destruct (record_keys r) as [ks|]; [|discriminate].
    rewrite (IH _ _ H), fold_keys_mem, orb_assoc. reflexivity.
Qed.

Lemma columns_map_labels {A : Type} (g : string -> A) (labels : list string) :
  map fst (map (fun c => (c, g c)) labels) = labels.
Proof. rewrite map_map. simpl. apply map_id. Qed.

Lemma pd_DataFrame_shape (records : list json) (df : DataFrame) :
  pd_DataFrame records = Ok df ->
  shape (List.length records) (columns df) df
  /\ ((forall c, has_column c df = false) \/ (forall c, has_column c df = has_field c records)).
Proof.
  assert (Hdicts : forall labels,
             union_keys [] records = Some labels ->
             let df := mkDataFrame (List.length records)
                         (map (fun c => (c, map (record_cell c) records)) labels) in
             shape (List.length records) (columns df) df
             /\ ((forall c, has_column c df = false)
                 \/ (forall c, has_column c df = has_field c records))).
  { intros labels Hl df0. split.
    - refine (conj eq_refl (conj eq_refl _)). unfold df0. simpl.
      apply Forall_forall. intros kc Hkc. apply in_map_iff in Hkc as (k & <- & _).
      simpl. apply length_map.
    - right. intro c. rewrite has_column_mem. unfold df0, columns. simpl.
      rewrite columns_map_labels. now rewrite (union_keys_mem _ _ _ Hl). }
  unfold pd_DataFrame.
  destruct records as [|[| | | | |fields] rest];
    try (intro H; injection H as <-; split;
         [refine (conj eq_refl (conj eq_refl _)); constructor | left; reflexivity]).
  destruct (union_keys [] (JObj fields :: rest)) as [labels|] eqn:E; [|discriminate].
  intro H. injection H as <-. exact (Hdicts labels eq_refl).
Qed.

Lemma select_shape (df df' : DataFrame) (names : list string) (n : nat) :
  shape n (columns df) df ->
  select df names = Ok df' ->
  shape n names df'.
Proof.
  intros (_ & Hn & Hall) H. unfold select in H.
  apply bind_ok in H as (cs & Ecs & H). injection H as <-.
  unfold shape, columns. simpl. rewrite Hn.
  assert (Hcs : map fst cs = names /\ Forall (fun kc => List.length (snd kc) = n) cs).
  { clear Hn. revert cs Ecs. induction names as [|k names IH]; simpl; intros cs Ecs.
    - injection Ecs as <-. split; [reflexivity|constructor].
    - apply bind_ok in Ecs as (b & Eb & Ecs). apply bind_ok in Eb as (col & Ecol & Eb).
      injection Eb as <-. apply bind_ok in Ecs as (bs & Ebs & Ecs). injection Ecs as <-.
      destruct (IH _ Ebs) as [IH1 IH2]. split; [simpl; now rewrite IH1|].
      constructor; [|exact IH2]. simpl.
      unfold getitem in Ecol. destruct (assoc k (cols df)) as [col'|] eqn:Ea; [|discriminate].
      injection Ecol as <-.
      clear -Hall Ea. induction (cols df) as [|[k' v'] l IHl]; simpl in *; [discriminate|].
      apply Forall_cons_iff in Hall as [Hh Ht]. simpl in Hh.
      destruct (String.eqb k k'); [injection Ea as <-; exact Hh|auto]. }
  destruct Hcs as [-> Hcs]. auto.
Qed.

Lemma columns_replace_col (c : string) (col : list value) (l : list (string * list value)) :
  map fst (replace_col c col l) = if mem c (map fst l) then map fst l else map fst l ++ [c].
Proof.
  unfold mem. induction l as [|[k v] l IH]; simpl; [reflexivity|].
  destruct (String.eqb_spec c k) as [->|_]; simpl; [reflexivity|].
  rewrite IH. destruct (existsb _ _); reflexivity.
Qed.

Lemma Forall_replace_col (P : string * list value -> Prop) (c : string) (col : list value)
      (l : list (string * list value)) :
  Forall P l -> P (c, col) -> Forall P (replace_col c col l).
Proof.
  intros Hl Hc. induction Hl as [|[k v] l Hk Hl' IH]; simpl.
  - constructor; [exact Hc|constructor].
  - destruct (String.eqb c k); constructor; auto.
Qed.

Lemma shape_setitem (n : nat) (names : list string) (df : DataFrame)
      (c : string) (col : list value) :
  shape n names df ->
  List.length col = n ->
  shape n (if mem c names then names else names ++ [c]) (setitem df c col).
Proof.
  intros (Hc & Hn & Hall) Hlen. unfold shape, columns, setitem. simpl.
  rewrite columns_replace_col. fold (columns df). rewrite Hc.
  refine (conj eq_refl (conj Hn _)). now apply Forall_replace_col.
Qed.

Lemma shape_getitem (n : nat) (names : list string) (df : DataFrame)
      (c : string) (col : list value) :
  shape n names df -> getitem df c = Ok col -> List.length col = n.
Proof.
  intros (_ & _ & Hall) H. unfold getitem in H.
  destruct (assoc c (cols df)) as [col'|] eqn:Ea; [|discriminate]. injection H as <-.
  induction (cols df) as [|[k v] l IH]; simpl in *; [discriminate|].
  apply Forall_cons_iff in Hall as [Hh Ht]. simpl in Hh.
  destruct (String.eqb c k); [injection Ea as <-; exact Hh|auto].
Qed.

Lemma shape_has_column (n : nat) (names : list string) (df : DataFrame) (c : string) (col : list value) :
  shape n names df -> getitem df c = Ok col -> mem c names = true.
Proof.
  intros (Hc & _) H. rewrite <- Hc, <- has_column_mem, has_column_getitem, H. reflexivity.
Qed.

Lemma apply_rows2_length (f : value -> value -> result value) (a b c : list value) :
  apply_rows2 f a b = Ok c -> List.length c = Nat.min (List.length a) (List.length b).
Proof.
  revert b c. induction a as [|x a IH]; intros [|y b] c H; simpl in *;
    try (injection H as <-; reflexivity).
  apply bind_ok in H as (v & _ & H). apply bind_ok in H as (vs & Evs & H).
  injection H as <-. simpl. f_equal. eauto.
Qed.

Lemma raw_not_derived (c : string) (f : string -> bool) :
  In c DERIVED_COLS -> mem c (filter f RAW_COLS) = false.
Proof.
  intro H. rewrite mem_filter.
  unfold DERIVED_COLS in H. simpl in H.
  repeat (destruct H as [<-|H]; [reflexivity|]). contradiction.
Qed.

Ltac step_shape S Hget Hmap :=
  let L := fresh "L" in
  pose proof (shape_getitem _ _ _ _ _ S Hget) as L;
  apply mapM_length in Hmap; rewrite L in Hmap.

Ltac new_column c col L :=
  match goal with
  | S : shape _ _ _ |- _ =>
      let S' := fresh "S" in
      pose proof (shape_setitem _ _ _ c col S L) as S';
      rewrite ?mem_app in S';
      rewrite (raw_not_derived c) in S' by (simpl; tauto);
      cbn [mem existsb String.eqb Ascii.eqb Bool.eqb orb] in S';
      clear S
  end.

Ltac derived_column H c :=
  let x := fresh "x" in
  let col := fresh "col" in
  let Ex := fresh "Ex" in
  let Ecol := fresh "Ecol" in
  let L := fresh "L" in
  apply bind_ok in H as (x & Ex & H);
  apply bind_ok in H as (col & Ecol & H);
  match goal with
  | S : shape _ _ _ |- _ => pose proof (shape_getitem _ _ _ _ _ S Ex) as L
  end;
  apply mapM_length in Ecol; rewrite L in Ecol;
  new_column c col Ecol;
  cbv zeta in H.

Lemma process_data_shape parse_datetime (records : list json) (df : DataFrame) :
  App.process_data parse_datetime (JArr records) = Ok df ->
  shape (List.length records)
    (filter (fun c => has_field c records) RAW_COLS ++ DERIVED_COLS) df.
Proof.
  unfold App.process_data. intro H.
  apply bind_ok in H as (df0 & Edf0 & H).
  apply bind_ok in H as (df1 & Edf1 & H). cbv zeta in H.
  destruct (pd_DataFrame_shape _ _ Edf0) as [S0 Hfield].
  pose proof (select_shape _ _ _ _ S0 Edf1) as S1. clear S0.
  apply bind_ok in H as (c0 & Ec0 & H).
  apply bind_ok in H as (sdl & Esdl & H).
  pose proof (shape_has_column _ _ _ _ _ S1 Ec0) as Hsdl.
  pose proof (shape_getitem _ _ _ _ _ S1 Ec0) as L0.
  pose proof (mapM_length _ _ _ Esdl) as Lsdl. rewrite L0 in Lsdl.
  pose proof (shape_setitem _ _ _ "start_date_local" sdl S1 Lsdl) as S2.
  rewrite Hsdl in S2. cbv zeta in H.
  assert (Hraw : filter (fun c => has_column c df0) RAW_COLS
                 = filter (fun c => has_field c records) RAW_COLS).
  { destruct Hfield as [Hnone|Hsame].
    - rewrite mem_filter, Hnone, andb_false_r in Hsdl. discriminate.
    - apply filter_ext. exact Hsame. }
  rewrite Hraw in *. clear Hraw S1 Hsdl.
  (* date *)
  apply bind_ok in H as (c1 & Ec1 & H).
  apply bind_ok in H as (c2 & Ec2 & H).
  apply bind_ok in H as (dates & Edates & H).
  pose proof (shape_getitem _ _ _ _ _ S2 Ec1) as L1.
  apply mapM_length in Ec2. rewrite L1 in Ec2.
  apply mapM_length in Edates. rewrite Ec2 in Edates.
  new_column "date"%string dates Edates. cbv zeta in H.
  derived_column H "hour"%string.
  derived_column H "weekday"%string.
  derived_column H "week"%string.
  derived_column H "month"%string.
  derived_column H "year"%string.
  derived_column H "distance_km"%string.
  derived_column H "moving_time_min"%string.
  (* pace *)
  apply bind_ok in H as (m & Em & H).
  apply bind_ok in H as (d & Ed & H).
  apply bind_ok in H as (pace & Epace & H).
  match goal with
  | S : shape _ _ _ |- _ =>
      pose proof (shape_getitem _ _ _ _ _ S Em) as Lm;
      pose proof (shape_getitem _ _ _ _ _ S Ed) as Ld
  end.
  apply apply_rows2_length in Epace. rewrite Lm, Ld, Nat.min_id in Epace.
  new_column "pace"%string pace Epace. cbv zeta in H.
  derived_column H "pace_zone"%string.
  derived_column H "time_of_day"%string.
  injection H as <-.
  match goal with
  | S : shape _ _ _ |- _ => rewrite <- !app_assoc in S; exact S
  end.
Qed.


(** X9: the schema of a processed frame.  Its columns are the fields of
    the whitelist that occur in some record, in the order of the
    whitelist, followed by the eleven derived columns in the order they
    are computed; every other field of the records is dropped; there is
    one row per record and every column has one cell per row. *)
Theorem process_data_schema parse_datetime (records : list json) (df : DataFrame) :
  App.process_data parse_datetime (JArr records) = Ok df ->
  columns df = filter (fun c => has_field c records) RAW_COLS ++ DERIVED_COLS
  /\ nrows df = List.length records
  /\ Forall (fun kc => List.length (snd kc) = List.length records) (cols df).
Proof.
  intro H. destruct (process_data_shape _ _ _ H) as (Hc & Hn & Hall).
  refine (conj Hc (conj Hn Hall)).
Qed.

Lemma process_data_schema_witness :
  columns sample_frame
  = filter (fun c => has_field c sample_records) RAW_COLS ++ DERIVED_COLS
  /\ nrows sample_frame = List.length sample_records
  /\ Forall (fun kc => List.length (snd kc) = List.length sample_records) (cols sample_frame).
Proof.
  apply (process_data_schema iso_parser sample_records sample_frame).
  vm_compute. reflexivity.
Defined.

(** *** Totality on well-formed activities *)

Lemma mapM_total {A B : Type} (f : A -> result B) (l : list A) :
  Forall (fun a => exists b, f a = Ok b) l -> exists l', mapM f l = Ok l'.
Proof.
  induction 1 as [|a l [b Hb] _ [l' IH]]; simpl; [eauto|].
  rewrite Hb, IH. simpl. eauto.
Qed.

Lemma dt_accessor_total (f : datetime -> value) (na : value) (col : list value) :
  Forall is_timestamp col -> exists col', dt_accessor f na col = Ok col'.
Proof.
  intro H. apply mapM_total. eapply Forall_impl; [|exact H].
  intros [ | | | | | | ]; simpl; intros []; eauto.
Qed.

Lemma dt_accessor_numbers (f : datetime -> num) (col col' : list value) :
  dt_accessor (fun t => VNum (f t)) (VNum NaN) col = Ok col' -> Forall is_number col'.
Proof.
  intro H. apply mapM_Forall2 in H.
  induction H as [|v v' l l' Hv _ IH]; constructor; [|exact IH].
  destruct v; try discriminate; injection Hv as <-; exact I.
Qed.

Lemma series_div_total (col : list value) (k : Q) :
  Forall is_number col -> exists col', series_div col k = Ok col'.
Proof.
  intro H. apply mapM_total. eapply Forall_impl; [|exact H].
  intros [x| | | | | | ]; simpl; intros []; eauto.
Qed.

Lemma series_apply_total (f : num -> string) (col : list value) :
  Forall is_number col -> exists col', series_apply f col = Ok col'.
Proof.
  intro H. apply mapM_total. eapply Forall_impl; [|exact H].
  intros [x| | | | | | ]; simpl; intros []; eauto.
Qed.

Lemma pace_rows_total (m d : list value) :
  Forall is_number m -> Forall is_number d ->
  exists pace, apply_rows2 App.pace_lambda m d = Ok pace /\ Forall is_number pace.
Proof.
  intro Hm. revert d. induction Hm as [|x m Hx _ IH]; intros d Hd.
  - exists []. split; [destruct d; reflexivity|constructor].
  - destruct Hd as [|y d Hy Hd]; [exists []; split; [reflexivity|constructor]|].
    destruct (IH d Hd) as (pace & Ep & Hp).
    destruct x; try contradiction. destruct y; try contradiction.
    cbn [apply_rows2].
    change (App.pace_lambda (VNum x) (VNum x0))
      with (if num_gtb x0 (Fin 0) then Ok (VNum (num_div x x0)) else Ok (VNum (Fin 0))).
    destruct (num_gtb x0 (Fin 0)); cbn [bind]; rewrite Ep; cbn [bind];
      eexists; (split; [reflexivity|constructor; [exact I|exact Hp]]).
Qed.

Lemma assoc_map_labels {A : Type} (g : string -> A) (labels : list string) (c : string) :
  assoc c (map (fun k => (k, g k)) labels) = if mem c labels then Some (g c) else None.
Proof.
  unfold mem. induction labels as [|k labels IH]; simpl; [reflexivity|].
  destruct (String.eqb_spec c k) as [->|_]; [reflexivity|exact IH].
Qed.

Lemma select_total (df : DataFrame) (names : list string) :
  (forall c, In c names -> has_column c df = true) ->
  exists df',
    select df names = Ok df'
    /\ forall c, getitem df' c = if mem c names then getitem df c else Raise (KeyError c).
Proof.
  intro Hall. unfold select.
  assert (H : exists cs,
             mapM (fun c => col <- getitem df c ;; Ok (c, col)) names = Ok cs
             /\ forall c, assoc c cs = if mem c names
                                       then match getitem df c with Ok col => Some col | Raise _ => None end
                                       else None).
  { induction names as [|k names IH]; simpl.
    - exists []. split; reflexivity.
    - destruct IH as (cs & Ecs & Hcs); [intros; apply Hall; now right|].
      pose proof (Hall k (or_introl eq_refl)) as Hk.
      rewrite has_column_getitem in Hk.
      destruct (getitem df k) as [col|] eqn:Ek; [|discriminate]. simpl.
      rewrite Ecs. simpl. eexists. split; [reflexivity|].
      intro c. simpl. unfold mem. simpl.
      destruct (String.eqb_spec c k) as [->|_]; [now rewrite Ek|apply Hcs]. }
  destruct H as (cs & Ecs & Hcs). rewrite Ecs. simpl.
  eexists. split; [reflexivity|]. intro c. unfold getitem at 1. simpl. rewrite Hcs.
  destruct (mem c names) eqn:Em; [|reflexivity].
  destruct (getitem df c) as [col|e] eqn:Ec; [reflexivity|].
  apply mem_In in Em. apply Hall in Em. rewrite has_column_getitem, Ec in Em. discriminate.
Qed.

Lemma union_keys_total (records : list json) :
  forall seen,
    Forall (fun r => exists fields, r = JObj fields) records ->
    exists labels, union_keys seen records = Some labels.
Proof.
  induction records as [|r records IH]; intros seen H; simpl; [eauto|].
  inversion H as [|? ? [fields ->] Hrest]; subst. simpl. apply IH, Hrest.
Qed.

Lemma well_formed_cells parse_datetime (r : json) :
  well_formed_activity parse_datetime r = true ->
  (exists fields, r = JObj fields)
  /\ (exists s t, record_cell "start_date_local" r = VStr s /\ parse_datetime (VStr s) = Some t)
  /\ (exists q, record_cell "distance" r = VNum (Fin q))
  /\ (exists q, record_cell "moving_time" r = VNum (Fin q))
  /\ has_field "start_date_local" [r] = true
  /\ has_field "distance" [r] = true
  /\ has_field "moving_time" [r] = true.
Proof.
  destruct r as [| | | | |fields]; try discriminate. unfold well_formed_activity.
  assert (Hkey : forall c j, assoc c fields = Some j -> mem c (map fst fields) = true).
  { intros c j. unfold mem. induction fields as [|[k v] l IH]; simpl; [discriminate|].
    destruct (String.eqb c k); [reflexivity|exact IH]. }
  destruct (assoc "start_date_local" fields) as [[| | |s| |]|] eqn:E1; try discriminate.
  destruct (assoc "distance" fields) as [[| |d| | |]|] eqn:E2; try discriminate.
  destruct (assoc "moving_time" fields) as [[| |m| | |]|] eqn:E3; try discriminate.
  destruct (parse_datetime (VStr s)) as [t|] eqn:E4; [|discriminate]. intros _.
  unfold has_field, record_cell. cbn [existsb record_keys].
  rewrite E1, E2, E3, (Hkey _ _ E1), (Hkey _ _ E2), (Hkey _ _ E3). simpl.
  repeat split; eauto.
Qed.

Lemma has_field_cons (c : string) (r : json) (records : list json) :
  has_field c [r] = true -> has_field c (r :: records) = true.
Proof.
  unfold has_field. simpl. rewrite orb_false_r. intros ->. reflexivity.
Qed.

Lemma pd_DataFrame_total (records : list json) :
  records <> [] ->
  Forall (fun r => exists fields, r = JObj fields) records ->
  exists df,
    pd_DataFrame records = Ok df
    /\ forall c, getitem df c = if has_field c records
                                then Ok (map (record_cell c) records)
                                else Raise (KeyError c).
Proof.
  intros Hne Hall.
  destruct (union_keys_total records [] Hall) as [labels Hl].
  pose proof (union_keys_mem _ _ _ Hl) as Hmem.
  assert (E : pd_DataFrame records
              = Ok (mkDataFrame (List.length records)
                      (map (fun c => (c, map (record_cell c) records)) labels))).
  { unfold pd_DataFrame. destruct records as [|r rest]; [congruence|].
    inversion Hall as [|? ? [fields ->] _]; subst. now rewrite Hl. }
  eexists. split; [exact E|].
  intro c. unfold getitem. cbn [cols].
  rewrite (assoc_map_labels (fun c => map (record_cell c) records)), Hmem.
  simpl. destruct (has_field c records); reflexivity.
Qed.

Lemma process_data_total parse_datetime (records : list json) :
  records <> [] ->
  forallb (well_formed_activity parse_datetime) records = true ->
  exists df,
    App.process_data parse_datetime (JArr records) = Ok df
    /\ UpdateData.process_data parse_datetime (JArr records) = Ok df
    /\ nrows df = List.length records.
Proof.
  intros Hne Hwf.
  assert (Hall : Forall (fun r => well_formed_activity parse_datetime r = true) records)
    by (apply Forall_forall; apply forallb_forall; exact Hwf).
  assert (Hobj : Forall (fun r => exists fields, r = JObj fields) records).
  { eapply Forall_impl; [|exact Hall]. intros r Hr. apply (well_formed_cells _ _ Hr). }
  destruct (pd_DataFrame_total records Hne Hobj) as (df0 & Edf0 & Hget0).
  assert (Hfields : has_field "start_date_local" records = true
                    /\ has_field "distance" records = true
                    /\ has_field "moving_time" records = true).
  { destruct records as [|r rest]; [congruence|].
    inversion Hall as [|? ? Hr _]; subst.
    destruct (well_formed_cells _ _ Hr) as (_ & _ & _ & _ & F1 & F2 & F3).
    repeat split; now apply has_field_cons. }
  destruct Hfields as (F1 & F2 & F3).
  destruct (select_total df0 (filter (fun c => has_column c df0) RAW_COLS)) as (df1 & Edf1 & Hget1).
  { intros c Hc. apply filter_In in Hc. tauto. }
  assert (Hraw : forall c, mem c RAW_COLS = true -> has_field c records = true ->
                           getitem df1 c = Ok (map (record_cell c) records)).
  { intros c Hc Hf. rewrite Hget1, mem_filter, Hc, has_column_getitem, !Hget0, Hf. reflexivity. }
  pose proof (Hraw "start_date_local"%string eq_refl F1) as G1.
  pose proof (Hraw "distance"%string eq_refl F2) as G2.
  pose proof (Hraw "moving_time"%string eq_refl F3) as G3.
  (* the three raw columns *)
  destruct (mapM_total (to_datetime_scalar parse_datetime)
              (map (record_cell "start_date_local") records)) as [sdl Esdl].
  { apply Forall_map. eapply Forall_impl; [|exact Hall]. intros r Hr.
    destruct (well_formed_cells _ _ Hr) as (_ & (s & t & -> & Hs) & _).
    simpl. rewrite Hs. eauto. }
  fold (to_datetime parse_datetime (map (record_cell "start_date_local") records)) in Esdl.
  pose proof (to_datetime_timestamps _ _ _ Esdl) as Hts.
  assert (N2 : Forall is_number (map (record_cell "distance") records)).
  { apply Forall_map. eapply Forall_impl; [|exact Hall]. intros r Hr.
    destruct (well_formed_cells _ _ Hr) as (_ & _ & (q & ->) & _). exact I. }
  assert (N3 : Forall is_number (map (record_cell "moving_time") records)).
  { apply Forall_map. eapply Forall_impl; [|exact Hall]. intros r Hr.
    destruct (well_formed_cells _ _ Hr) as (_ & _ & _ & (q & ->) & _). exact I. }
  destruct (dt_accessor_total (fun t => VDate (dt_date t)) VNaT sdl Hts) as [dates Edates].
  destruct (dt_accessor_total (fun t => VNum (num_of_Z (dt_hour t))) (VNum NaN) sdl Hts) as [hours Ehours].
  destruct (dt_accessor_total (fun t => VStr (day_name (dt_date t))) (VNum NaN) sdl Hts) as [wd Ewd].
  destruct (dt_accessor_total (fun t => VNum (num_of_Z (isoweek (dt_date t)))) (VNum NaN) sdl Hts) as [wk Ewk].
  destruct (dt_accessor_total (fun t => VNum (num_of_Z (month_of (dt_date t)))) (VNum NaN) sdl Hts) as [mo Emo].
  destruct (dt_accessor_total (fun t => VNum (num_of_Z (year_of (dt_date t)))) (VNum NaN) sdl Hts) as [yr Eyr].
  destruct (series_div_total _ 1000 N2) as [dk Edk].
  destruct (series_div_total _ 60 N3) as [mm Emm].
  destruct (pace_rows_total mm dk (series_div_numbers _ _ _ Emm) (series_div_numbers _ _ _ Edk))
    as (pace & Epace & Npace).
  destruct (series_apply_total App.classify_pace_zone pace Npace) as [pz Epz].
  destruct (series_apply_total App.classify_time_of_day hours
              (dt_accessor_numbers _ _ _ Ehours)) as [tod Etod].
  assert (E : exists df, App.process_data parse_datetime (JArr records) = Ok df).
  { unfold App.process_data. rewrite Edf0. cbn [bind]. rewrite Edf1. cbn [bind].
    rewrite G1. cbn [bind]. rewrite Esdl. cbn [bind].
    rewrite !getitem_setitem. cbn [String.eqb Ascii.eqb Bool.eqb bind].
    rewrite (to_datetime_fixed _ _ Hts). cbn [bind].
    unfold dt_get_date. rewrite Edates. cbn [bind].
    rewrite !getitem_setitem. cbn [String.eqb Ascii.eqb Bool.eqb bind].
    unfold dt_get_hour. rewrite Ehours. cbn [bind].
    rewrite !getitem_setitem. cbn [String.eqb Ascii.eqb Bool.eqb bind].
    unfold dt_day_name. rewrite Ewd. cbn [bind].
    rewrite !getitem_setitem. cbn [String.eqb Ascii.eqb Bool.eqb bind].
    unfold dt_isocalendar_week. rewrite Ewk. cbn [bind].
    rewrite !getitem_setitem. cbn [String.eqb Ascii.eqb Bool.eqb bind].
    unfold dt_get_month. rewrite Emo. cbn [bind].
    rewrite !getitem_setitem. cbn [String.eqb Ascii.eqb Bool.eqb bind].
    unfold dt_get_year. rewrite Eyr. cbn [bind].
    rewrite !getitem_setitem. cbn [String.eqb Ascii.eqb Bool.eqb bind].
    rewrite G2. cbn [bind]. rewrite Edk. cbn [bind].
    rewrite !getitem_setitem. cbn [String.eqb Ascii.eqb Bool.eqb bind].
    rewrite G3. cbn [bind]. rewrite Emm. cbn [bind].
    rewrite !getitem_setitem. cbn [String.eqb Ascii.eqb Bool.eqb bind].
    rewrite Epace. cbn [bind].
    rewrite !getitem_setitem. cbn [String.eqb Ascii.eqb Bool.eqb bind].
    rewrite Epz. cbn [bind].
    rewrite !getitem_setitem. cbn [String.eqb Ascii.eqb Bool.eqb bind].
    rewrite Etod. cbn [bind]. eauto. }
  destruct E as [df E]. exists df. refine (conj E (conj E _)).
  destruct (process_data_processed _ _ _ E). assumption.
Qed.

(** X10: a non-empty list of activities, each an object with a
    timestamp that parses, a numeric distance and a numeric moving time
    (and any further fields), is always processed without error, by
    both files alike, into a frame with one row per activity. *)
Theorem process_data_accepts_activities parse_datetime (records : list json) :
  records <> [] ->
  forallb (well_formed_activity parse_datetime) records = true ->
  exists df,
    App.process_data parse_datetime (JArr records) = Ok df
    /\ UpdateData.process_data parse_datetime (JArr records) = Ok df
    /\ nrows df = List.length records.
Proof.
  intros Hne Hwf.
  destruct (process_data_total parse_datetime records Hne Hwf) as (df & Happ & Hjob & Hn).
  exists df. refine (conj Happ (conj Hjob Hn)).
Qed.

Lemma process_data_accepts_activities_witness :
  exists df,
    App.process_data iso_parser (JArr sample_records) = Ok df
    /\ UpdateData.process_data iso_parser (JArr sample_records) = Ok df
    /\ nrows df = List.length sample_records.
Proof.
  apply (process_data_accepts_activities iso_parser sample_records).
  - discriminate.
  - vm_compute. reflexivity.
Defined.

(** ** Display of a pace *)

Lemma int_of_Q_floor (q : Q) :
  (0 <= q)%Q ->
  0 <= int_of_Q q /\ (inject_Z (int_of_Q q) <= q)%Q /\ (q < inject_Z (int_of_Q q) + 1)%Q.
Proof.
  intro Hq. unfold int_of_Q.
  assert (Hn : 0 <= Qnum q) by (unfold Qle in Hq; simpl in Hq; lia).
  rewrite Z.quot_div_nonneg by lia.
  assert (H0 : 0 <= Qnum q / Z.pos (Qden q)) by (apply Z.div_pos; lia).
  replace (Qnum q / Z.pos (Qden q)) with (Qfloor q) in * by (destruct q; reflexivity).
  refine (conj H0 (conj (Qfloor_le q) _)).
  pose proof (Qlt_floor q) as H. rewrite inject_Z_plus in H. exact H.
Qed.

Lemma string_length_append (a b : string) :
  String.length (a ++ b) = (String.length a + String.length b)%nat.
Proof. induction a as [|c a IH]; simpl; [reflexivity|now rewrite IH]. Qed.

(** Two decimal digits for a number below 60. *)
Lemma format_02d_two_digits (s : Z) :
  0 <= s < 60 ->
  exists a b,
    format_02d s = String a (String b EmptyString)
    /\ digit a = Some (s / 10) /\ digit b = Some (s mod 10).
Proof.
  intro Hs.
  assert (Hall : forallb (fun s =>
                   match format_02d s with
                   | String a (String b EmptyString) =>
                       match digit a, digit b with
                       | Some x, Some y => (x =? s / 10) && (y =? s mod 10)
                       | _, _ => false
                       end
                   | _ => false
                   end) (consecutive 0 60) = true) by (vm_compute; reflexivity).
  rewrite forallb_forall in Hall. specialize (Hall s).
  rewrite in_consecutive in Hall. specialize (Hall ltac:(lia)).
  destruct (format_02d s) as [|a [|b [|]]]; cbn iota in Hall; try discriminate.
  destruct (digit a) as [x|] eqn:Ea; [|discriminate].
  destruct (digit b) as [y|] eqn:Eb; [|discriminate].
  apply andb_true_iff in Hall as [Hx Hy]. apply Z.eqb_eq in Hx, Hy. subst x y.
  exists a, b. auto.
Qed.

Lemma format_pace_positive (p : Q) :
  (0 < p)%Q ->
  exists (m s : Z) (a b : ascii),
    App.format_pace (Fin p) = (str_of_int m ++ ":" ++ String a (String b EmptyString))%string
    /\ 0 <= m /\ (inject_Z m <= p)%Q /\ (p < inject_Z m + 1)%Q
    /\ 0 <= s < 60
    /\ digit a = Some (s / 10) /\ digit b = Some (s mod 10)
    /\ App.format_pace (Fin p) <> "-"%string.
Proof.
  intros Hp. unfold App.format_pace.
  replace (num_eqb (Fin p) (Fin 0)) with false
    by (symmetry; apply not_true_is_false; intro E; apply num_eqb_Fin in E; lra).
  cbn [is_nan orb].
  destruct (int_of_Q_floor p) as (Hm0 & Hm1 & Hm2); [lra|].
  set (m := int_of_Q p) in *.
  destruct (int_of_Q_floor ((p - inject_Z m) * 60)) as (Hs0 & Hs1 & Hs2); [lra|].
  set (s := int_of_Q ((p - inject_Z m) * 60)) in *.
  assert (Hs : 0 <= s < 60).
  { split; [exact Hs0|]. rewrite Zlt_Qlt. change (inject_Z 60) with 60%Q. lra. }
  destruct (format_02d_two_digits s Hs) as (a & b & E & Ha & Hb).
  exists m, s, a, b. rewrite E.
  refine (conj eq_refl (conj Hm0 (conj Hm1 (conj Hm2 (conj Hs (conj Ha (conj Hb _))))))).
  intro H. apply (f_equal String.length) in H.
  rewrite !string_length_append in H. simpl in H. lia.
Qed.

(** X11: the text of a pace.  A missing pace and a pace of zero are
    shown as a dash; a positive pace is shown as its whole minutes, a
    colon and exactly two digits of seconds, the seconds below 60, and
    never as a dash. *)
Theorem format_pace_minutes_seconds :
  App.format_pace NaN = "-"%string
  /\ (forall p, (p == 0)%Q -> App.format_pace (Fin p) = "-"%string)
  /\ (forall p, (0 < p)%Q ->
        exists (m s : Z) (a b : ascii),
          App.format_pace (Fin p) = (str_of_int m ++ ":" ++ String a (String b EmptyString))%string
          /\ 0 <= m /\ (inject_Z m <= p)%Q /\ (p < inject_Z m + 1)%Q
          /\ 0 <= s < 60
          /\ digit a = Some (s / 10) /\ digit b = Some (s mod 10)
          /\ App.format_pace (Fin p) <> "-"%string).
Proof.
  refine (conj eq_refl (conj _ format_pace_positive)).
  intros p Hp. unfold App.format_pace.
  replace (num_eqb (Fin p) (Fin 0)) with true by (symmetry; now apply num_eqb_Fin).
  reflexivity.
Qed.

(** ** The dashboard: periods and key metrics *)

Lemma assoc_map_cols (f : list value -> list value) (c : string) (l : list (string * list value)) :
  assoc c (map (fun kc => (fst kc, f (snd kc))) l) = option_map f (assoc c l).
Proof.
  induction l as [|[k v] l IH]; simpl; [reflexivity|].
  destruct (String.eqb c k); [reflexivity|exact IH].
Qed.

Lemma getitem_filter_rows (mask : list bool) (df : DataFrame) (c : string) :
  getitem (filter_rows mask df) c =
  match getitem df c with
  | Ok col => Ok (select_rows mask col)
  | Raise e => Raise e
  end.
Proof.
  unfold getitem, filter_rows. cbn [cols]. rewrite assoc_map_cols.
  destruct (assoc c (cols df)); reflexivity.
Qed.

Lemma has_column_filter_rows (mask : list bool) (df : DataFrame) (c : string) :
  has_column c (filter_rows mask df) = has_column c df.
Proof.
  rewrite !has_column_getitem, getitem_filter_rows. destruct (getitem df c); reflexivity.
Qed.

Lemma select_rows_Forall {A : Type} (P : A -> Prop) (mask : list bool) (col : list A) :
  Forall P col -> Forall P (select_rows mask col).
Proof.
  intro H. revert mask. induction H as [|x col Hx _ IH]; intros [|[|] mask]; simpl;
    try constructor; auto.
Qed.

Lemma select_rows_length {A : Type} (mask : list bool) (col : list A) :
  List.length mask = List.length col ->
  List.length (select_rows mask col) = selected mask.
Proof.
  unfold selected. revert col. induction mask as [|[|] mask IH]; intros [|x col] H; simpl in *;
    try discriminate; try reflexivity; auto.
Qed.

Lemma selected_le (mask : list bool) : (selected mask <= List.length mask)%nat.
Proof. apply filter_length_le. Qed.

Lemma selected_none (mask : list bool) :
  Forall (fun b => b = false) mask -> selected mask = 0%nat.
Proof. unfold selected. induction 1 as [|b mask -> _ IH]; simpl; auto. Qed.

Lemma select_rows_none {A : Type} (mask : list bool) (col : list A) :
  Forall (fun b => b = false) mask -> select_rows mask col = [].
Proof.
  intro H. revert col. induction H as [|b mask -> _ IH]; intros [|x col]; simpl; auto.
Qed.

Lemma selected_mono (a b : list bool) :
  Forall2 (fun x y => x = true -> y = true) a b -> (selected a <= selected b)%nat.
Proof.
  unfold selected. induction 1 as [|x y a b Hxy _ IH]; simpl; [lia|].
  destruct x; [rewrite (Hxy eq_refl); simpl; lia|]. destruct y; simpl; lia.
Qed.

Lemma loaded_filter_rows (mask : list bool) (df : DataFrame) :
  loaded df -> loaded (filter_rows mask df).
Proof.
  intros ((sdl & Hsdl & Hts) & (dates & Hdates & Hds) & H). unfold loaded.
  rewrite !has_column_filter_rows, !getitem_filter_rows, Hsdl, Hdates.
  refine (conj _ (conj _ H)); eexists; (split; [reflexivity|]); now apply select_rows_Forall.
Qed.

Lemma rectangular_getitem (df : DataFrame) (c : string) (col : list value) :
  rectangular df -> getitem df c = Ok col -> List.length col = nrows df.
Proof.
  unfold rectangular, getitem. intros Hall H.
  destruct (assoc c (cols df)) as [col'|] eqn:Ea; [|discriminate]. injection H as <-.
  induction (cols df) as [|[k v] l IH]; simpl in *; [discriminate|].
  apply Forall_cons_iff in Hall as [Hh Ht]. simpl in Hh.
  destruct (String.eqb c k); [injection Ea as <-; exact Hh|auto].
Qed.

Lemma rectangular_filter_rows (mask : list bool) (df : DataFrame) :
  rectangular df -> List.length mask = nrows df -> rectangular (filter_rows mask df).
Proof.
  unfold rectangular, filter_rows. cbn [cols nrows]. intros Hall Hlen.
  apply Forall_map. eapply Forall_impl; [|exact Hall].
  intros [k v] Hv. simpl in *. apply select_rows_length. congruence.
Qed.

(** The mask of [series >= cutoff] on a column of dates. *)
Lemma series_ge_date_dates (dates : list value) (cutoff : date) :
  Forall is_date dates ->
  series_ge_date dates cutoff
  = Ok (map (fun v => match v with VDate d => cutoff <=? d | _ => false end) dates).
Proof.
  induction 1 as [|v dates Hv _ IH]; [reflexivity|].
  unfold series_ge_date in *. cbn [mapM map]. rewrite IH.
  destruct v; try contradiction; reflexivity.
Qed.

Lemma Forall2_map_same {A B : Type} (R : B -> B -> Prop) (f g : A -> B) (l : list A) :
  (forall a, R (f a) (g a)) -> Forall2 R (map f l) (map g l).
Proof. intro H. induction l; simpl; constructor; auto. Qed.

Lemma mask_and_le (a b : list bool) :
  List.length a = List.length b ->
  Forall2 (fun x y => x = true -> y = true) (mask_and a b) a.
Proof.
  unfold mask_and. revert b. induction a as [|x a IH]; intros [|y b] H; simpl in *;
    try discriminate; constructor.
  - intro E. now apply andb_true_iff in E.
  - apply IH. lia.
Qed.

Lemma series_eq_int_length (col : list value) (n : Z) :
  List.length (series_eq_int col n) = List.length col.
Proof. apply length_map. Qed.

Lemma mask_and_length (a b : list bool) :
  List.length a = List.length b -> List.length (mask_and a b) = List.length a.
Proof.
  intro H. unfold mask_and. rewrite length_map, length_combine. lia.
Qed.

Lemma dt_accessor_length (f : datetime -> value) (na : value) (col col' : list value) :
  dt_accessor f na col = Ok col' -> List.length col' = List.length col.
Proof. apply mapM_length. Qed.

Lemma since_mask_dates (today : datetime) (n : Z) (df : DataFrame) (dates : list value) :
  getitem df "date" = Ok dates -> Forall is_date dates ->
  App.since_mask today n df
  = Ok (map (fun v => match v with VDate d => dt_date today - n <=? d | _ => false end) dates).
Proof.
  intros Hd Hds. unfold App.since_mask. rewrite Hd. cbn [bind].
  now apply series_ge_date_dates.
Qed.

Lemma since_mask_mono (today : datetime) (n n' : Z) (dates : list value) :
  n <= n' ->
  Forall2 (fun x y => x = true -> y = true)
    (map (fun v => match v with VDate d => dt_date today - n <=? d | _ => false end) dates)
    (map (fun v => match v with VDate d => dt_date today - n' <=? d | _ => false end) dates).
Proof.
  intro Hn. apply Forall2_map_same. intros [ | | | | |d| ]; try discriminate.
  rewrite !Z.leb_le. lia.
Qed.

(** Loading keeps the frame rectangular. *)

Lemma rectangular_setitem (df : DataFrame) (c : string) (col : list value) :
  rectangular df -> List.length col = nrows df -> rectangular (setitem df c col).
Proof.
  unfold rectangular, setitem. cbn [cols nrows]. intros Hall Hlen.
  now apply Forall_replace_col.
Qed.

Lemma shape_rectangular (n : nat) (names : list string) (df : DataFrame) :
  shape n names df -> rectangular df.
Proof. intros (_ & Hn & Hall). unfold rectangular. now rewrite Hn. Qed.

Lemma assign_if_rectangular (cond : bool) (c : string)
      (compute : DataFrame -> result (list value)) (a b : DataFrame) :
  rectangular a ->
  (forall col, compute a = Ok col -> List.length col = nrows a) ->
  App.assign_if cond c compute a = Ok b ->
  rectangular b /\ nrows b = nrows a.
Proof.
  intros Hr Hlen H. unfold App.assign_if in H. destruct cond.
  - apply bind_ok in H as (col & Ecol & H). injection H as <-.
    split; [|reflexivity]. apply rectangular_setitem; auto.
  - injection H as <-. auto.
Qed.

Lemma column_map_length (df : DataFrame) (c : string) (f : value -> result value)
      (col : list value) :
  rectangular df ->
  (x <- getitem df c ;; mapM f x) = Ok col ->
  List.length col = nrows df.
Proof.
  intros Hr H. apply bind_ok in H as (x & Ex & H).
  apply mapM_length in H. now rewrite H, (rectangular_getitem _ _ _ Hr Ex).
Qed.

Lemma load_data_rectangular parse_datetime (fs : files) (net : network) (df : DataFrame) :
  (forall snapshot, csv_file fs = Some snapshot -> rectangular snapshot) ->
  fst (App.load_data parse_datetime fs net) = Ok df ->
  rectangular df.
Proof.
  intros Hsnap. unfold App.load_data. destruct (csv_file fs) as [snapshot|].
  - specialize (Hsnap snapshot eq_refl). cbn [fst]. intro H.
    apply bind_ok in H as (df0 & Eread & H).
    assert (df0 = snapshot) by (unfold read_csv in Eread; destruct (cols snapshot); congruence).
    subst df0.
    apply bind_ok in H as (c0 & Ec0 & H).
    apply bind_ok in H as (sdl & Esdl & H). cbv zeta in H.
    assert (R1 : rectangular (setitem snapshot "start_date_local" sdl)).
    { apply rectangular_setitem; [exact Hsnap|].
      apply mapM_length in Esdl. now rewrite Esdl, (rectangular_getitem _ _ _ Hsnap Ec0). }
    set (df1 := setitem snapshot "start_date_local" sdl) in *.
    apply bind_ok in H as (df2 & Edate & H).
    assert (R2 : rectangular df2).
    { destruct (negb _) in Edate;
        apply bind_ok in Edate as (c1 & Ec1 & Edate);
        apply bind_ok in Edate as (c2 & Ec2 & Edate);
        apply bind_ok in Edate as (c3 & Ec3 & Edate);
        injection Edate as <-; (apply rectangular_setitem; [exact R1|]);
        apply mapM_length in Ec2, Ec3;
        now rewrite Ec3, Ec2, (rectangular_getitem _ _ _ R1 Ec1). }
    apply bind_ok in H as (df3 & E3 & H).
    apply bind_ok in H as (df4 & E4 & H).
    apply bind_ok in H as (df5 & E5 & H).
    apply bind_ok in H as (df6 & E6 & H).
    apply bind_ok in H as (df7 & E7 & H).
    apply bind_ok in H as (df8 & E8 & H).
    apply bind_ok in H as (df9 & E9 & H).
    injection H as <-.
    destruct (assign_if_rectangular _ _ _ _ _ R2 (fun col => column_map_length _ _ _ col R2) E3) as [R3 _].
    destruct (assign_if_rectangular _ _ _ _ _ R3 (fun col => column_map_length _ _ _ col R3) E4) as [R4 _].
    destruct (assign_if_rectangular _ _ _ _ _ R4 (fun col => column_map_length _ _ _ col R4) E5) as [R5 _].
    destruct (assign_if_rectangular _ _ _ _ _ R5 (fun col => column_map_length _ _ _ col R5) E6) as [R6 _].
    destruct (assign_if_rectangular _ _ _ _ _ R6 (fun col => column_map_length _ _ _ col R6) E7) as [R7 _].
    destruct (assign_if_rectangular _ _ _ _ _ R7 (fun col => column_map_length _ _ _ col R7) E8) as [R8 _].
    destruct (assign_if_rectangular _ _ _ _ _ R8 (fun col => column_map_length _ _ _ col R8) E9) as [R9 _].
    exact R9.
  - cbn [fst].
    destruct (App.fetch_strava_data net) as [raw|e]; cbn [bind]; [|discriminate].
    destruct (App.process_data parse_datetime (JArr raw)) as [df'|e] eqn:Hp; cbn [fst]; [|discriminate].
    intro H. injection H as <-.
    eapply shape_rectangular, process_data_shape, Hp.
Qed.

(** X12: on every frame that [load_data] returns (from a snapshot whose
    columns have one cell per row, or from the API) the selection of
    the dashboard never fails: the runs are kept, the date column is
    there already, and each choice of the period yields a frame.  All
    Time keeps the runs as they are, and the numbers of runs nest: Last
    7 Days <= Last 30 Days <= Last 90 Days <= All Time and This Month
    <= This Year <= All Time. *)
Theorem dashboard_periods_nest parse_datetime (today : datetime)
        (fs : files) (net : network) (df : DataFrame) :
  (forall snapshot, csv_file fs = Some snapshot -> rectangular snapshot) ->
  fst (App.load_data parse_datetime fs net) = Ok df ->
  exists runs month year d7 d30 d90,
    App.run_rows df = Ok runs
    /\ App.with_date parse_datetime runs = Ok runs
    /\ App.df_filtered "All Time" today runs = Ok runs
    /\ App.df_filtered "This Month" today runs = Ok month
    /\ App.df_filtered "This Year" today runs = Ok year
    /\ App.df_filtered "Last 7 Days" today runs = Ok d7
    /\ App.df_filtered "Last 30 Days" today runs = Ok d30
    /\ App.df_filtered "Last 90 Days" today runs = Ok d90
    /\ App.total_runs d7 <= App.total_runs d30 <= App.total_runs d90
    /\ App.total_runs d90 <= App.total_runs runs
    /\ App.total_runs month <= App.total_runs year <= App.total_runs runs
    /\ App.total_runs runs <= Z.of_nat (nrows df).
Proof.
  intros Hsnap Hload.
  pose proof (load_data_loaded _ _ _ _ Hload) as Hloaded.
  pose proof (load_data_rectangular _ _ _ _ Hsnap Hload) as Hrect.
  assert (Hruns : exists runs,
             App.run_rows df = Ok runs /\ loaded runs /\ rectangular runs
             /\ (nrows runs <= nrows df)%nat).
  { unfold App.run_rows. rewrite has_column_getitem.
    destruct (getitem df "type") as [types|] eqn:Et; cbn [is_ok bind].
    - eexists. split; [reflexivity|].
      pose proof (rectangular_getitem _ _ _ Hrect Et) as Hlen.
      assert (Hm : List.length (series_eq_str types "Run") = nrows df)
        by (unfold series_eq_str; now rewrite length_map).
      refine (conj (loaded_filter_rows _ _ Hloaded) (conj (rectangular_filter_rows _ _ Hrect Hm) _)).
      cbn [filter_rows nrows]. rewrite <- Hm. apply selected_le.
    - exists df. auto. }
  destruct Hruns as (runs & Eruns & Hl & Hr & Hle).
  destruct Hl as ((sdl & Hsdl & Hts) & (dates & Hdates & Hds) & _).
  pose proof (rectangular_getitem _ _ _ Hr Hsdl) as Lsdl.
  pose proof (rectangular_getitem _ _ _ Hr Hdates) as Ldates.
  destruct (dt_accessor_total (fun t => VNum (num_of_Z (year_of (dt_date t)))) (VNum NaN) sdl Hts)
    as [years Eyears].
  destruct (dt_accessor_total (fun t => VNum (num_of_Z (month_of (dt_date t)))) (VNum NaN) sdl Hts)
    as [months Emonths].
  pose proof (dt_accessor_length _ _ _ _ Eyears) as Lyears.
  pose proof (dt_accessor_length _ _ _ _ Emonths) as Lmonths.
  assert (Ey : App.year_mask today runs = Ok (series_eq_int years (year_of (dt_date today)))).
  { unfold App.year_mask, dt_get_year. rewrite Hsdl. cbn [bind]. now rewrite Eyears. }
  assert (Em : App.month_mask today runs = Ok (series_eq_int months (month_of (dt_date today)))).
  { unfold App.month_mask, dt_get_month. rewrite Hsdl. cbn [bind]. now rewrite Emonths. }
  set (ym := series_eq_int years (year_of (dt_date today))) in *.
  set (mm := series_eq_int months (month_of (dt_date today))) in *.
  set (since := fun n : Z =>
                  map (fun v => match v with VDate d => dt_date today - n <=? d | _ => false end)
                    dates).
  assert (Es : forall n, App.since_mask today n runs = Ok (since n))
    by (intro n; now apply since_mask_dates).
  exists runs, (filter_rows (mask_and ym mm) runs), (filter_rows ym runs),
    (filter_rows (since 7) runs), (filter_rows (since 30) runs), (filter_rows (since 90) runs).
  assert (Lym : List.length ym = nrows runs)
    by (unfold ym; rewrite series_eq_int_length; congruence).
  assert (Lmm : List.length mm = nrows runs)
    by (unfold mm; rewrite series_eq_int_length; congruence).
  assert (Ls : forall n, List.length (since n) = nrows runs)
    by (intro n; unfold since; rewrite length_map; congruence).
  refine (conj Eruns (conj _ (conj eq_refl (conj _ (conj _ (conj _ (conj _ (conj _ _)))))))).
  - unfold App.with_date, App.assign_if. rewrite has_column_getitem, Hdates. reflexivity.
  - unfold App.df_filtered, App.period_mask. cbn [String.eqb Ascii.eqb Bool.eqb].
    rewrite Ey, Em. reflexivity.
  - unfold App.df_filtered, App.period_mask. cbn [String.eqb Ascii.eqb Bool.eqb].
    rewrite Ey. reflexivity.
  - unfold App.df_filtered, App.period_mask. cbn [String.eqb Ascii.eqb Bool.eqb].
    rewrite Es. reflexivity.
  - unfold App.df_filtered, App.period_mask. cbn [String.eqb Ascii.eqb Bool.eqb].
    rewrite Es. reflexivity.
  - unfold App.df_filtered, App.period_mask. cbn [String.eqb Ascii.eqb Bool.eqb].
    rewrite Es. reflexivity.
  - unfold App.total_runs, filter_rows. cbn [nrows]. fold (selected (since 7)).
    fold (selected (since 30)). fold (selected (since 90)). fold (selected ym).
    fold (selected (mask_and ym mm)).
    pose proof (selected_mono _ _ (since_mask_mono today 7 30 dates ltac:(lia))) as H1.
    pose proof (selected_mono _ _ (since_mask_mono today 30 90 dates ltac:(lia))) as H2.
    pose proof (selected_le (since 90)) as H3. rewrite Ls in H3.
    pose proof (selected_mono _ _ (mask_and_le ym mm ltac:(congruence))) as H4.
    pose proof (selected_le ym) as H5. rewrite Lym in H5.
    fold (since 7) in H1. fold (since 30) in H1, H2. fold (since 90) in H2.
    lia.
Qed.

Lemma dashboard_periods_nest_witness :
  exists runs month year d7 d30 d90,
    App.run_rows reloaded_frame = Ok runs
    /\ App.with_date iso_parser runs = Ok runs
    /\ App.df_filtered "All Time" sync_time runs = Ok runs
    /\ App.df_filtered "This Month" sync_time runs = Ok month
    /\ App.df_filtered "This Year" sync_time runs = Ok year
    /\ App.df_filtered "Last 7 Days" sync_time runs = Ok d7
    /\ App.df_filtered "Last 30 Days" sync_time runs = Ok d30
    /\ App.df_filtered "Last 90 Days" sync_time runs = Ok d90
    /\ App.total_runs d7 <= App.total_runs d30 <= App.total_runs d90
    /\ App.total_runs d90 <= App.total_runs runs
    /\ App.total_runs month <= App.total_runs year <= App.total_runs runs
    /\ App.total_runs runs <= Z.of_nat (nrows reloaded_frame).
Proof.
  apply (dashboard_periods_nest iso_parser sync_time
           (to_csv (mkFiles None None) legacy_snapshot) idle_net reloaded_frame).
  - intros snapshot H. injection H as <-. unfold rectangular. vm_compute. repeat constructor.
  - vm_compute. reflexivity.
Defined.

(** X13: the key metrics of a period without activity: when the mask of
    the period selects no row, the total distance is 0, the number of
    runs 0, the average pace missing (shown as a dash), the total
    elevation 0 and the longest run 0, and none of them raises. *)
Theorem key_metrics_of_empty_selection (mask : list bool) (df : DataFrame) :
  Forall (fun b => b = false) mask ->
  has_column "distance_km" df = true ->
  has_column "pace" df = true ->
  App.total_km (filter_rows mask df) = Ok 0%Q
  /\ App.total_runs (filter_rows mask df) = 0
  /\ App.avg_pace (filter_rows mask df) = Ok NaN
  /\ App.format_pace NaN = "-"%string
  /\ App.total_elevation (filter_rows mask df) = Ok 0%Q
  /\ App.longest_run (filter_rows mask df) = Ok (Fin 0).
Proof.
  intros Hmask Hkm Hpace.
  assert (Hcol : forall c, has_column c df = true ->
                           getitem (filter_rows mask df) c = Ok []).
  { intros c Hc. rewrite getitem_filter_rows. rewrite has_column_getitem in Hc.
    destruct (getitem df c); [|discriminate]. now rewrite select_rows_none. }
  assert (Hn : nrows (filter_rows mask df) = 0%nat) by (apply selected_none; exact Hmask).
  refine (conj _ (conj _ (conj _ (conj eq_refl (conj _ _))))).
  - unfold App.total_km. now rewrite Hcol.
  - unfold App.total_runs. now rewrite Hn.
  - unfold App.avg_pace. rewrite Hcol by assumption. cbn [bind series_gt mapM].
    rewrite getitem_filter_rows, Hcol by assumption. reflexivity.
  - unfold App.total_elevation. rewrite has_column_filter_rows.
    destruct (has_column "total_elevation_gain" df) eqn:E; [|reflexivity].
    now rewrite Hcol.
  - unfold App.longest_run, frame_empty. now rewrite Hn.
Qed.

Lemma key_metrics_of_empty_selection_witness :
  App.total_km (filter_rows [false; false; false] sample_frame) = Ok 0%Q
  /\ App.total_runs (filter_rows [false; false; false] sample_frame) = 0
  /\ App.avg_pace (filter_rows [false; false; false] sample_frame) = Ok NaN
  /\ App.format_pace NaN = "-"%string
  /\ App.total_elevation (filter_rows [false; false; false] sample_frame) = Ok 0%Q
  /\ App.longest_run (filter_rows [false; false; false] sample_frame) = Ok (Fin 0).
Proof.
  apply (key_metrics_of_empty_selection [false; false; false] sample_frame).
  - repeat constructor.
  - reflexivity.
  - reflexivity.
Defined.

(** *** Average pace *)

Lemma select_rows_filter (f : value -> bool) (col : list value) :
  select_rows (map f col) col = filter f col.
Proof.
  induction col as [|v col IH]; simpl; [reflexivity|]. destruct (f v); now rewrite IH.
Qed.

Lemma series_gt_numbers (col : list value) (k : Q) :
  Forall is_number col ->
  series_gt col k
  = Ok (map (fun v => match as_num v with Some x => num_gtb x (Fin k) | None => false end) col).
Proof.
  induction 1 as [|v col Hv _ IH]; [reflexivity|].
  unfold series_gt in *. cbn [mapM map]. rewrite IH.
  destruct v; try contradiction; reflexivity.
Qed.

Lemma positive_sum (l : list value) :
  Forall (fun v => exists q, v = VNum (Fin q) /\ (0 < q)%Q) l ->
  exists s, series_sum l = Ok s
            /\ series_count l = Z.of_nat (List.length l)
            /\ (0 <= s)%Q /\ (l <> [] -> (0 < s)%Q).
Proof.
  induction 1 as [|v l (q & -> & Hq) _ (s & Es & Ec & Hs & _)].
  - exists 0%Q. repeat split; [lra|congruence].
  - cbn [series_sum as_num series_count]. rewrite Es, Ec. cbn [bind].
    exists (q + s)%Q. repeat split; [simpl List.length; lia | lra | intros _; lra].
Qed.

(** X14: the average pace is the mean of the paces above zero: rows
    with pace 0 (the Unknown zone) and rows without a pace do not
    count.  Without a positive pace it is missing and shown as a dash;
    otherwise it is a positive number and never shown as a dash. *)
Theorem avg_pace_over_positive_paces (dff : DataFrame) (paces : list value) :
  getitem dff "pace" = Ok paces ->
  Forall is_number paces ->
  exists a,
    App.avg_pace dff = Ok a
    /\ series_mean (filter positive_pace paces) = Ok a
    /\ (existsb positive_pace paces = false ->
        a = NaN /\ App.format_pace a = "-"%string)
    /\ (existsb positive_pace paces = true ->
        exists q, a = Fin q /\ (0 < q)%Q /\ App.format_pace a <> "-"%string).
Proof.
  intros Hp Hnum.
  assert (Hsel : Forall (fun v => exists q, v = VNum (Fin q) /\ (0 < q)%Q)
                   (filter positive_pace paces)).
  { apply Forall_forall. intros v Hv. apply filter_In in Hv as [Hin Hv].
    pose proof (proj1 (Forall_forall _ _) Hnum v Hin) as Hn.
    unfold positive_pace in Hv.
    destruct v as [[q|]| | | | | |]; try contradiction; try discriminate.
    exists q. split; [reflexivity|]. now apply num_ltb_Fin in Hv. }
  destruct (positive_sum _ Hsel) as (s & Es & Ec & Hs0 & Hs).
  assert (Emean : series_mean (filter positive_pace paces)
                  = Ok (if Z.of_nat (List.length (filter positive_pace paces)) =? 0
                        then NaN
                        else Fin (s / inject_Z (Z.of_nat (List.length (filter positive_pace paces)))))).
  { unfold series_mean. rewrite Es, Ec. reflexivity. }
  eexists. refine (conj _ (conj Emean _)).
  - unfold App.avg_pace. rewrite Hp. cbn [bind].
    rewrite (series_gt_numbers _ _ Hnum). cbn [bind].
    rewrite getitem_filter_rows, Hp. cbn [bind].
    fold positive_pace. rewrite (select_rows_filter positive_pace). exact Emean.
  - split.
    + intro Hnone.
      assert (E : filter positive_pace paces = []).
      { clear -Hnone. induction paces as [|v l IH]; simpl in *; [reflexivity|].
        apply orb_false_iff in Hnone as [-> H]. auto. }
      rewrite E. simpl. auto.
    + intro Hsome.
      assert (Hne : filter positive_pace paces <> []).
      { apply existsb_exists in Hsome as (v & Hin & Hv).
        intro E. assert (Hf : In v (filter positive_pace paces)) by (apply filter_In; auto).
        rewrite E in Hf. exact Hf. }
      specialize (Hs Hne).
      destruct (List.length (filter positive_pace paces)) as [|n] eqn:El.
      { apply length_zero_iff_nil in El. contradiction. }
      replace (Z.of_nat (S n) =? 0) with false by (symmetry; apply Z.eqb_neq; lia).
      assert (Hq : (0 < s / inject_Z (Z.of_nat (S n)))%Q).
      { apply Qlt_shift_div_l.
        - change 0%Q with (inject_Z 0). rewrite <- Zlt_Qlt. lia.
        - lra. }
      eexists. refine (conj eq_refl (conj Hq _)).
      destruct (format_pace_positive _ Hq) as (m & sec & a & b & _ & _ & _ & _ & _ & _ & _ & Hnd).
      exact Hnd.
Qed.

Lemma avg_pace_over_positive_paces_witness :
  match getitem sample_frame "pace" with
  | Ok paces =>
      exists a,
        App.avg_pace sample_frame = Ok a
        /\ series_mean (filter positive_pace paces) = Ok a
        /\ (existsb positive_pace paces = false ->
            a = NaN /\ App.format_pace a = "-"%string)
        /\ (existsb positive_pace paces = true ->
            exists q, a = Fin q /\ (0 < q)%Q /\ App.format_pace a <> "-"%string)
  | Raise _ => False
  end.
Proof.
  destruct (getitem sample_frame "pace") as [paces|] eqn:E.
  - apply (avg_pace_over_positive_paces sample_frame paces E).
    vm_compute in E. injection E as <-. repeat constructor.
  - vm_compute in E. discriminate.
Defined.

(** *** Monthly goal progress *)

Lemma py_min_spec (a b : Q) :
  ((a <= b)%Q /\ App.py_min a b = a) \/ ((b < a)%Q /\ App.py_min a b = b).
Proof.
  unfold App.py_min. destruct (Qle_bool a b) eqn:E; cbn [negb].
  - left. split; [now apply Qle_bool_iff|reflexivity].
  - right. split; [|reflexivity]. apply Qnot_le_lt. intro H. apply Qle_bool_iff in H. congruence.
Qed.

(** X15: the progress towards the monthly goal, for a distance that is
    not negative: it lies between 0 and 100 (so that the progress bar
    gets a value between 0 and 1), it is 0 for a goal of 0 (no division
    by zero), it reaches 100 exactly when the distance reaches the
    goal, and below the goal it is the percentage of the goal. *)
Theorem progress_pct_bounds (current_month_km : Q) (monthly_goal : Z) :
  (0 <= current_month_km)%Q ->
  (0 <= App.progress_pct current_month_km monthly_goal)%Q
  /\ (App.progress_pct current_month_km monthly_goal <= 100)%Q
  /\ (monthly_goal <= 0 -> App.progress_pct current_month_km monthly_goal = 0%Q)
  /\ (0 < monthly_goal ->
      ((100 <= App.progress_pct current_month_km monthly_goal)%Q
       <-> (inject_Z monthly_goal <= current_month_km)%Q)
      /\ ((current_month_km <= inject_Z monthly_goal)%Q ->
          (App.progress_pct current_month_km monthly_goal
           == current_month_km / inject_Z monthly_goal * 100)%Q)).
Proof.
  intro Hkm. unfold App.progress_pct.
  destruct (Z.ltb_spec 0 monthly_goal) as [Hg|Hg].
  - assert (Hgq : (0 < inject_Z monthly_goal)%Q)
      by (change 0%Q with (inject_Z 0); rewrite <- Zlt_Qlt; exact Hg).
    set (g := inject_Z monthly_goal) in *.
    assert (Ex : (current_month_km == g * (current_month_km / g))%Q)
      by (rewrite Qmult_div_r; [reflexivity|lra]).
    assert (Hx0 : (0 <= current_month_km / g * 100)%Q).
    { apply Qmult_le_0_compat; [|lra]. apply Qle_shift_div_l; [exact Hgq|lra]. }
    assert (Hiff : (100 <= current_month_km / g * 100)%Q <-> (g <= current_month_km)%Q).
    { split; intro H.
      - rewrite Ex. set (x := (current_month_km / g)%Q) in *. nra.
      - assert (H1 : (1 <= current_month_km / g)%Q)
          by (apply Qle_shift_div_l; [exact Hgq|lra]).
        lra. }
    destruct (py_min_spec (current_month_km / g * 100) 100) as [[Hle ->]|[Hlt ->]].
    + refine (conj Hx0 (conj Hle (conj _ _))); [lia|]. intros _. split; [exact Hiff|].
      intros _. reflexivity.
    + refine (conj _ (conj _ (conj _ _))); [lra|lra|lia|]. intros _. split.
      * split; intro H; [apply Hiff; lra|lra].
      * intro H. assert (H1 : (g <= current_month_km)%Q) by (apply Hiff; lra).
        assert (E : (current_month_km == g)%Q) by lra.
        rewrite E. field. lra.
  - refine (conj _ (conj _ (conj _ _))); [lra|lra|reflexivity|lia].
Qed.

Lemma progress_pct_bounds_witness :
  (0 <= App.progress_pct 42 100)%Q
  /\ (App.progress_pct 42 100 <= 100)%Q
  /\ (100 <= 0 -> App.progress_pct 42 100 = 0%Q)
  /\ (0 < 100 ->
      ((100 <= App.progress_pct 42 100)%Q <-> (inject_Z 100 <= 42)%Q)
      /\ ((42 <= inject_Z 100)%Q ->
          (App.progress_pct 42 100 == 42 / inject_Z 100 * 100)%Q)).
Proof.
  apply (progress_pct_bounds 42 100). discriminate.
Defined.

(** ** Current streak *)

Lemma current_streak_loop_acc (d : date) (earlier : list date) (acc : Z) :
  App.current_streak_loop d earlier acc = acc + App.current_streak_loop d earlier 0.
Proof.
  revert d acc. induction earlier as [|p earlier IH]; intros d acc; simpl; [lia|].
  destruct (d - p =? 1); [|lia].
  rewrite (IH p (acc + 1)), (IH p 1). lia.
Qed.

Lemma last_cons (rest : list date) :
  forall x prev : date, last (x :: rest) prev = last rest x.
Proof.
  induction rest as [|y r IH]; intros x prev; [reflexivity|].
  change (last (x :: y :: r) prev) with (last (y :: r) prev).
  now rewrite !IH.
Qed.

(** The loop of the longest streak, one date further. *)
Lemma streak_loop_snoc (rest : list date) :
  forall (prev d mx tmp : Z),
    App.streak_loop prev (rest ++ [d]) mx tmp
    = let '(mx', tmp') := App.streak_loop prev rest mx tmp in
      if d - last rest prev =? 1 then (mx', tmp' + 1) else (Z.max mx' tmp', 1).
Proof.
  induction rest as [|x rest IH]; intros prev d mx tmp.
  - simpl. destruct (d - prev =? 1); reflexivity.
  - cbn [app App.streak_loop].
    rewrite last_cons.
    destruct (x - prev =? 1); apply IH.
Qed.

(** The streak in progress when the loop of the longest streak ends is
    the one the loop of the current streak counts. *)
Lemma streak_in_progress (l : list date) :
  forall d0,
    snd (App.streak_loop d0 l 0 1)
    = match rev (d0 :: l) with
      | [] => 1
      | last :: earlier => App.current_streak_loop last earlier 0 + 1
      end.
Proof.
  induction l as [|d l IH] using rev_ind; intro d0; [reflexivity|].
  rewrite streak_loop_snoc. specialize (IH d0).
  destruct (App.streak_loop d0 l 0 1) as [mx tmp]. cbn [snd] in IH.
  replace (rev (d0 :: l ++ [d])) with (d :: rev (d0 :: l))
    by (change (d0 :: l ++ [d]) with ((d0 :: l) ++ [d]); now rewrite rev_app_distr).
  assert (Hlast : exists earlier, rev (d0 :: l) = last l d0 :: earlier).
  { clear. revert d0. induction l as [|x l IHl] using rev_ind; intro d0.
    - exists []. reflexivity.
    - rewrite last_last. change (d0 :: l ++ [x]) with ((d0 :: l) ++ [x]).
      rewrite rev_app_distr. simpl. eauto. }
  destruct Hlast as [earlier Hrev]. rewrite Hrev in *.
  cbn [App.current_streak_loop].
  destruct (d - last l d0 =? 1); cbn [snd]; [|reflexivity].
  rewrite (current_streak_loop_acc _ _ (0 + 1)). lia.
Qed.

(** X16: the current streak never exceeds the longest streak, for any
    list of dates and any day; it is 0 exactly when there is no date or
    the last date lies more than one day before today. *)
Theorem current_streak_le_longest (today : date) (dates : list date) :
  0 <= App.current_streak today dates <= App.longest_streak dates
  /\ (App.current_streak today dates = 0
      <-> dates = [] \/ 1 < today - last dates 0).
Proof.
  unfold App.current_streak, App.longest_streak.
  destruct dates as [|d0 l]; [simpl; intuition lia|].
  pose proof (streak_in_progress l d0) as Hp.
  assert (Hlast : exists earlier, rev (d0 :: l) = last (d0 :: l) 0 :: earlier).
  { clear. assert (H : d0 :: l <> []) by discriminate. revert H.
    generalize (d0 :: l). intros dates H.
    destruct (exists_last H) as (l' & x & ->).
    rewrite last_last, rev_app_distr. simpl. eauto. }
  destruct Hlast as [earlier Hrev]. rewrite Hrev in *.
  destruct (App.streak_loop d0 l 0 1) as [mx tmp]. cbn [snd] in Hp. subst tmp.
  cbv beta iota zeta.
  assert (Hc : 0 <= App.current_streak_loop (last (d0 :: l) 0) earlier 0).
  { generalize (last (d0 :: l) 0). clear. intro d. revert d.
    induction earlier as [|p e IH]; intro d; simpl; [lia|].
    destruct (d - p =? 1); [|lia]. rewrite current_streak_loop_acc. specialize (IH p). lia. }
  destruct (Z.leb_spec (today - last (d0 :: l) 0) 1) as [Hle|Hgt].
  - split; [lia|]. split; [lia|]. intros [H|H]; [discriminate|lia].
  - split; [lia|]. split; [right; lia|reflexivity].
Qed.

(** *** The current streak as a run of days *)

Lemma current_streak_loop_run (earlier : list date) :
  forall d,
    StronglySorted (fun a b => b < a) (d :: earlier) ->
    run_ending (d :: earlier) d (App.current_streak_loop d earlier 0 + 1).
Proof.
  induction earlier as [|p earlier IH]; intros d Hs.
  - simpl. unfold run_ending, is_run. simpl. repeat split; [lia|intros; left; lia|].
    intros [H|[]]. lia.
  - inversion Hs as [|? ? Hrest Hall]; subst.
    inversion Hall as [|? ? Hp Hall']; subst.
    cbn [App.current_streak_loop].
    destruct (Z.eqb_spec (d - p) 1) as [Hgap|Hgap].
    + rewrite current_streak_loop_acc.
      destruct (IH p Hrest) as (Hn & Hrun & Hstop).
      set (n := App.current_streak_loop p earlier 0 + 1) in *.
      replace (0 + 1 + App.current_streak_loop p earlier 0 + 1) with (n + 1) by (unfold n; lia).
      refine (conj _ (conj _ _)); [lia| |].
      * intros i Hi. destruct (Z.eq_dec i n) as [->|Hne].
        -- left. lia.
        -- right. replace (d - (n + 1) + 1 + i) with (p - n + 1 + i) by lia. apply Hrun. lia.
      * intros [H|H]; [lia|]. apply Hstop. replace (p - n) with (d - (n + 1)) by lia. exact H.
    + refine (conj _ (conj _ _)); [lia| |].
      * intros i Hi. left. lia.
      * intros [H|[H|H]]; [lia|lia|].
        inversion Hrest as [|? ? _ Hpall]; subst.
        pose proof (proj1 (Forall_forall _ _) Hpall _ H) as Hlt. cbv beta in Hlt, Hp. lia.
Qed.

Lemma sorted_rev (l : list date) :
  StronglySorted Z.lt l -> StronglySorted (fun a b => b < a) (rev l).
Proof.
  induction 1 as [|a l Hs IH Ha]; simpl; [constructor|].
  assert (Happ : forall l1, StronglySorted (fun a b => b < a) l1 ->
                            Forall (fun x => a < x) l1 ->
                            StronglySorted (fun a b => b < a) (l1 ++ [a])).
  { induction 1 as [|x l1 Hs1 IH1 Hx]; intro Hall; simpl.
    - repeat constructor.
    - inversion Hall; subst. constructor; [auto|].
      apply Forall_app. split; [exact Hx|]. repeat constructor. assumption. }
  apply Happ; [exact IH|]. apply Forall_forall. intros x Hx.
  apply in_rev in Hx. exact (proj1 (Forall_forall _ _) Ha x Hx).
Qed.

(** X17: for an ascending list of distinct dates whose last date is
    today or yesterday (or later), the current streak is the length of
    the run of consecutive days that ends on the last date and cannot
    be extended backwards; when the last date is older it is 0. *)
Theorem current_streak_is_last_run (today : date) (dates : list date) :
  StronglySorted Z.lt dates ->
  dates <> [] ->
  (forall x, In x dates -> x <= last dates 0)
  /\ In (last dates 0) dates
  /\ (today - last dates 0 <= 1 ->
      run_ending dates (last dates 0) (App.current_streak today dates))
  /\ (1 < today - last dates 0 -> App.current_streak today dates = 0).
Proof.
  intros Hs Hne.
  destruct (exists_last Hne) as (l' & x & ->). rewrite last_last.
  pose proof (sorted_rev _ Hs) as Hr. rewrite rev_app_distr in Hr. simpl in Hr.
  unfold App.current_streak. rewrite rev_app_distr. simpl rev. cbn [app].
  refine (conj _ (conj _ (conj _ _))).
  - intros y Hy. apply in_app_iff in Hy as [Hy|[<-|[]]]; [|lia].
    inversion Hr as [|? ? _ Hall]; subst.
    apply in_rev in Hy. pose proof (proj1 (Forall_forall _ _) Hall y Hy) as Hlt.
    cbv beta in Hlt. lia.
  - apply in_app_iff. right. now left.
  - intro Hle. replace (today - x <=? 1) with true by (symmetry; apply Z.leb_le; lia).
    destruct (current_streak_loop_run (rev l') x Hr) as (Hn & Hrun & Hstop).
    assert (Hsame : forall y, In y (x :: rev l') <-> In y (l' ++ [x])).
    { intro y. rewrite in_app_iff. simpl. rewrite <- in_rev. intuition. }
    refine (conj Hn (conj _ _)).
    + intros i Hi. apply Hsame, Hrun, Hi.
    + intro H. apply Hstop, Hsame, H.
  - intro Hgt. replace (today - x <=? 1) with false by (symmetry; apply Z.leb_gt; lia).
    reflexivity.
Qed.

Lemma current_streak_is_last_run_witness :
  (forall x, In x [ymd2ord 2024 1 1; ymd2ord 2024 1 2; ymd2ord 2024 1 3; ymd2ord 2024 1 6]
             -> x <= last [ymd2ord 2024 1 1; ymd2ord 2024 1 2; ymd2ord 2024 1 3; ymd2ord 2024 1 6] 0)
  /\ In (last [ymd2ord 2024 1 1; ymd2ord 2024 1 2; ymd2ord 2024 1 3; ymd2ord 2024 1 6] 0)
        [ymd2ord 2024 1 1; ymd2ord 2024 1 2; ymd2ord 2024 1 3; ymd2ord 2024 1 6]
  /\ (ymd2ord 2024 1 7
      - last [ymd2ord 2024 1 1; ymd2ord 2024 1 2; ymd2ord 2024 1 3; ymd2ord 2024 1 6] 0 <= 1 ->
      run_ending [ymd2ord 2024 1 1; ymd2ord 2024 1 2; ymd2ord 2024 1 3; ymd2ord 2024 1 6]
        (last [ymd2ord 2024 1 1; ymd2ord 2024 1 2; ymd2ord 2024 1 3; ymd2ord 2024 1 6] 0)
        (App.current_streak (ymd2ord 2024 1 7)
           [ymd2ord 2024 1 1; ymd2ord 2024 1 2; ymd2ord 2024 1 3; ymd2ord 2024 1 6]))
  /\ (1 < ymd2ord 2024 1 7
          - last [ymd2ord 2024 1 1; ymd2ord 2024 1 2; ymd2ord 2024 1 3; ymd2ord 2024 1 6] 0 ->
      App.current_streak (ymd2ord 2024 1 7)
        [ymd2ord 2024 1 1; ymd2ord 2024 1 2; ymd2ord 2024 1 3; ymd2ord 2024 1 6] = 0).
Proof.
  apply (current_streak_is_last_run (ymd2ord 2024 1 7)
           [ymd2ord 2024 1 1; ymd2ord 2024 1 2; ymd2ord 2024 1 3; ymd2ord 2024 1 6]).
  - repeat (constructor; try reflexivity).
  - discriminate.
Defined.

(** ** More on the activity heatmap *)

(** The grid drawn from the frame that the first lines of the function
    hand to the aggregation. *)
Lemma heatmap_of_dated_frame parse_datetime (df df1 : DataFrame) (today : date)
      (dates km : list value) :
  App.with_date parse_datetime df = Ok df1 ->
  getitem df1 "date" = Ok dates ->
  getitem df1 "distance_km" = Ok km ->
  forallb groupable dates = true ->
  forallb numeric km = true ->
  exists hm,
    App.create_activity_heatmap parse_datetime df today = Ok hm
    /\ heatmap_facts today hm dates km.
Proof.
  unfold heatmap_facts. intros Hwd Hdates Hkm Hgd Hnum.
  destruct (groupby_sum_spec dates km Hgd Hnum) as (groups & Hgroups & _ & Hlook).
  set (start := today - 364).
  set (valf := fun d : Z => match lookup_group d groups with
                            | Some total => Fin total
                            | None => Fin 0
                            end).
  set (days := consecutive start 365).
  assert (Hinj : forall a b, In a days -> In b days ->
                             key_eqb (grid_key start a) (grid_key start b) = true -> a = b)
    by (intros a b; apply grid_key_injective).
  assert (Hin : forall d, In d days <-> start <= d <= today).
  { intro d. unfold days. rewrite in_consecutive. unfold start. lia. }
  assert (Hindex : sorted_unique (map (fun d : Z => fst (grid_key start d)) days) = consecutive 0 7).
  { apply sorted_unique_range. intro k. rewrite in_map_iff.
    change (Z.of_nat 7) with 7. unfold grid_key, weekday. cbn [fst snd]. split.
    - intros (d & <- & _). Z.div_mod_to_equations. lia.
    - intro Hk. exists (start + (k - (start + 6) mod 7) mod 7). split.
      + Z.div_mod_to_equations. lia.
      + apply Hin. unfold start. Z.div_mod_to_equations. lia. }
  assert (Hcolumns : sorted_unique (map (fun d : Z => snd (grid_key start d)) days) = consecutive 0 53).
  { apply sorted_unique_range. intro k. rewrite in_map_iff.
    change (Z.of_nat 53) with 53. unfold grid_key. cbn [fst snd]. split.
    - intros (d & <- & Hd). apply Hin in Hd. unfold start in *.
      Z.div_mod_to_equations. lia.
    - intro Hk. exists (start + 7 * k). split.
      + Z.div_mod_to_equations. lia.
      + apply Hin. unfold start. lia. }
  set (rowf := fun i : Z => map (fun c : Z => match lookup_cell (i, c)
                                                   (map (fun d : Z => (grid_key start d, valf d)) days) with
                                            | Some v => v
                                            | None => NaN
                                            end) (consecutive 0 53)).
  exists (mkHeatmap (map rowf (consecutive 0 7)) (consecutive 0 53)
            ["Mon"; "Tue"; "Wed"; "Thu"; "Fri"; "Sat"; "Sun"]%string).
  assert (Hcell : forall r c, 0 <= r < 7 -> 0 <= c < 53 ->
            grid_cell (mkHeatmap (map rowf (consecutive 0 7)) (consecutive 0 53)
                         ["Mon"; "Tue"; "Wed"; "Thu"; "Fri"; "Sat"; "Sun"]%string) r c
            = Some (match lookup_cell (r, c) (map (fun d : Z => (grid_key start d, valf d)) days) with
                    | Some v => v
                    | None => NaN
                    end)).
  { intros r c Hr Hc. unfold grid_cell. cbn [hm_z].
    rewrite (nth_error_map_consecutive rowf 7 r) by (simpl; lia).
    unfold rowf. now rewrite (nth_error_map_consecutive _ 53 c) by (simpl; lia). }
  refine (conj _ (conj eq_refl (conj _ (conj eq_refl (conj _ (conj _ (conj _ _))))))).
  - unfold App.create_activity_heatmap.
    change (App.assign_if (negb (has_column "date" df)) "date"
              (fun df0 => c <- getitem df0 "start_date_local" ;;
                          c0 <- to_datetime parse_datetime c ;; dt_get_date c0) df)
      with (App.with_date parse_datetime df).
    rewrite Hwd. cbn [bind].
    rewrite Hdates, Hkm. cbn [bind]. rewrite Hgroups. cbn [bind].
    replace (Z.to_nat (today - (today - 364) + 1)) with 365%nat by lia.
    fold start. fold days. rewrite map_map. cbn [fst snd].
    match goal with
    | |- context [pivot ?rows] =>
        change rows with (map (fun d : Z => (grid_key start d, valf d)) days)
    end.
    unfold pivot.
    rewrite (no_duplicate_key (grid_key start) valf days Hinj (consecutive_nodup _ _)).
    rewrite !map_map. cbn [fst snd bind pv_values pv_columns].
    rewrite Hindex, Hcolumns. reflexivity.
  - cbn [hm_z]. now rewrite length_map, consecutive_length.
  - cbn [hm_z]. intros row Hrow. apply in_map_iff in Hrow as (i & <- & _).
    unfold rowf. now rewrite length_map, consecutive_length.
  - intros d Hd.
    assert (Hw : 0 <= weekday d < 7) by (unfold weekday; Z.div_mod_to_equations; lia).
    assert (Hc : 0 <= (d - start) / 7 < 53) by (unfold start in *; Z.div_mod_to_equations; lia).
    refine (conj Hw (conj Hc _)).
    rewrite Hcell by assumption.
    change (weekday d, (d - start) / 7) with (grid_key start d).
    rewrite (lookup_cell_key (grid_key start) valf days Hinj d) by (apply Hin; exact Hd).
    unfold valf. specialize (Hlook d). destruct (lookup_group d groups) as [t|].
    + exists t. destruct Hlook as [Hact Ht]. repeat split; [exact Ht|]. congruence.
    + exists 0%Q. repeat split.
      clear -Hlook. revert km Hlook. induction dates as [|v ds IHd]; intros [|k ks] H;
        simpl in *; try reflexivity.
      apply orb_false_iff in H as [H1 H2]. rewrite H1. now apply IHd.
  - intros d1 d2 H1 H2 E. apply (Hinj d1 d2); [now apply Hin|now apply Hin|].
    rewrite E. apply key_eqb_refl.
  - intros r c Hr Hc. rewrite Hcell by assumption.
    destruct (lookup_cell (r, c) _) as [v|] eqn:E; [left|now right].
    apply lookup_cell_some in E as (d & Hd & Hk & _).
    exists d. split; [now apply Hin|].
    unfold key_eqb in Hk. apply andb_true_iff in Hk as [K1 K2].
    apply Z.eqb_eq in K1, K2. simpl in K1, K2. unfold grid_key. simpl. congruence.
Qed.

Lemma is_date_groupable (dates : list value) :
  Forall is_date dates -> forallb groupable dates = true.
Proof.
  intro H. apply forallb_forall. intros v Hv.
  pose proof (proj1 (Forall_forall _ _) H v Hv) as Hd.
  destruct v; try contradiction; reflexivity.
Qed.

(** X18: a frame without a date column is drawn from its timestamps:
    when the timestamps convert and the distances are numbers, the
    heatmap is the one of the frame with the dates of the timestamps
    added, and it shows the trailing 365 days of those dates. *)
Theorem heatmap_backfills_date parse_datetime (df : DataFrame) (today : date)
        (sdl km : list value) :
  has_column "date" df = false ->
  getitem df "start_date_local" = Ok sdl ->
  is_ok (to_datetime parse_datetime sdl) = true ->
  getitem df "distance_km" = Ok km ->
  forallb numeric km = true ->
  exists hm ts dates,
    to_datetime parse_datetime sdl = Ok ts
    /\ dt_get_date ts = Ok dates
    /\ App.create_activity_heatmap parse_datetime df today = Ok hm
    /\ App.create_activity_heatmap parse_datetime (setitem df "date" dates) today = Ok hm
    /\ heatmap_facts today hm dates km.
Proof.
  intros Hno Hsdl Hok Hkm Hnum.
  destruct (to_datetime parse_datetime sdl) as [ts|] eqn:Ets; [|discriminate].
  pose proof (to_datetime_timestamps _ _ _ Ets) as Hts.
  destruct (dt_accessor_total (fun t => VDate (dt_date t)) VNaT ts Hts) as [dates Edates].
  fold (dt_get_date ts) in Edates.
  pose proof (is_date_groupable _ (dt_get_date_dates _ _ Edates)) as Hgd.
  assert (Hwd : App.with_date parse_datetime df = Ok (setitem df "date" dates)).
  { unfold App.with_date, App.assign_if. rewrite Hno. cbn [negb].
    rewrite Hsdl. cbn [bind]. rewrite Ets. cbn [bind]. now rewrite Edates. }
  assert (Hwd' : App.with_date parse_datetime (setitem df "date" dates)
                 = Ok (setitem df "date" dates)).
  { unfold App.with_date, App.assign_if.
    rewrite has_column_getitem, getitem_setitem. reflexivity. }
  assert (Gd : getitem (setitem df "date" dates) "date" = Ok dates)
    by (rewrite getitem_setitem; reflexivity).
  assert (Gk : getitem (setitem df "date" dates) "distance_km" = Ok km)
    by (rewrite getitem_setitem; exact Hkm).
  destruct (heatmap_of_dated_frame parse_datetime df _ today dates km Hwd Gd Gk Hgd Hnum)
    as (hm & Ehm & Hfacts).
  exists hm, ts, dates. refine (conj eq_refl (conj Edates (conj Ehm (conj _ Hfacts)))).
  rewrite <- Ehm. unfold App.create_activity_heatmap.
  repeat match goal with
         | |- context [App.assign_if (negb (has_column "date" ?d)) "date" ?f ?d] =>
             change (App.assign_if (negb (has_column "date" d)) "date" f d)
               with (App.with_date parse_datetime d)
         end.
  rewrite Hwd, Hwd'. reflexivity.
Qed.

Lemma heatmap_backfills_date_witness :
  match getitem undated_frame "start_date_local", getitem undated_frame "distance_km" with
  | Ok sdl, Ok km =>
      exists hm ts dates,
        to_datetime iso_parser sdl = Ok ts
        /\ dt_get_date ts = Ok dates
        /\ App.create_activity_heatmap iso_parser undated_frame (ymd2ord 2024 6 30) = Ok hm
        /\ App.create_activity_heatmap iso_parser (setitem undated_frame "date" dates)
             (ymd2ord 2024 6 30) = Ok hm
        /\ heatmap_facts (ymd2ord 2024 6 30) hm dates km
  | _, _ => False
  end.
Proof.
  destruct (getitem undated_frame "start_date_local") as [sdl|] eqn:E1;
    [|vm_compute in E1; discriminate].
  destruct (getitem undated_frame "distance_km") as [km|] eqn:E2;
    [|vm_compute in E2; discriminate].
  apply (heatmap_backfills_date iso_parser undated_frame (ymd2ord 2024 6 30) sdl km).
  - vm_compute. reflexivity.
  - exact E1.
  - vm_compute in E1. injection E1 as <-. vm_compute. reflexivity.
  - exact E2.
  - vm_compute in E2. injection E2 as <-. vm_compute. reflexivity.
Defined.

(** X19: the 365 days fill 52 week columns and one cell more: every
    cell of the columns 0 to 51 holds a day, the first day sits in
    column 0 on the weekday of today, and column 52 holds today alone,
    its other six cells being empty. *)
Theorem heatmap_last_column_is_today parse_datetime (df : DataFrame) (today : date) :
  dataset_ready df = true ->
  exists hm,
    App.create_activity_heatmap parse_datetime df today = Ok hm
    /\ grid_key (today - 364) today = (weekday today, 52)
    /\ grid_key (today - 364) (today - 364) = (weekday (today - 364), 0)
    /\ weekday (today - 364) = weekday today
    /\ (exists x, grid_cell hm (weekday today) 52 = Some (Fin x))
    /\ (forall r, 0 <= r < 7 -> r <> weekday today -> grid_cell hm r 52 = Some NaN)
    /\ (forall r c, 0 <= r < 7 -> 0 <= c < 52 -> exists x, grid_cell hm r c = Some (Fin x)).
Proof.
  unfold dataset_ready. intro Hready.
  destruct (getitem df "date") as [dates|] eqn:Hdates; [|discriminate].
  destruct (getitem df "distance_km") as [km|] eqn:Hkm; [|discriminate].
  apply andb_true_iff in Hready as [Hgd Hnum].
  assert (Hwd : App.with_date parse_datetime df = Ok df).
  { unfold App.with_date, App.assign_if. now rewrite has_column_getitem, Hdates. }
  destruct (heatmap_of_dated_frame parse_datetime df df today dates km Hwd Hdates Hkm Hgd Hnum)
    as (hm & Ehm & _ & _ & _ & _ & Hday & _ & Hother).
  exists hm.
  assert (K1 : grid_key (today - 364) today = (weekday today, 52)).
  { unfold grid_key. f_equal. replace (today - (today - 364)) with 364 by lia. reflexivity. }
  assert (K0 : grid_key (today - 364) (today - 364) = (weekday (today - 364), 0)).
  { unfold grid_key. f_equal. now rewrite Z.sub_diag. }
  assert (Kw : weekday (today - 364) = weekday today).
  { unfold weekday. Z.div_mod_to_equations. lia. }
  refine (conj Ehm (conj K1 (conj K0 (conj Kw (conj _ (conj _ _)))))).
  - destruct (Hday today ltac:(lia)) as (_ & _ & x & Hx & _).
    replace ((today - (today - 364)) / 7) with 52 in Hx
      by (replace (today - (today - 364)) with 364 by lia; reflexivity).
    eauto.
  - intros r Hr Hne. destruct (Hother r 52 Hr ltac:(lia)) as [(d & Hd & Hk)|H]; [|exact H].
    exfalso. unfold grid_key in Hk. injection Hk as Hw Hc.
    assert (d = today) by (Z.div_mod_to_equations; lia). subst d. congruence.
  - intros r c Hr Hc.
    set (start := today - 364) in *.
    set (d := start + 7 * c + (r - weekday start) mod 7).
    assert (Hd : start <= d <= today)
      by (unfold d, start; pose proof (Z.mod_pos_bound (r - weekday (today - 364)) 7); lia).
    destruct (Hday d Hd) as (_ & _ & x & Hx & _).
    assert (Kd : weekday d = r /\ (d - start) / 7 = c).
    { unfold d, weekday. Z.div_mod_to_equations. lia. }
    destruct Kd as [Kr Kc]. rewrite Kr, Kc in Hx. eauto.
Qed.

Lemma heatmap_last_column_is_today_witness :
  exists hm,
    App.create_activity_heatmap iso_parser sample_frame (ymd2ord 2024 6 30) = Ok hm
    /\ grid_key (ymd2ord 2024 6 30 - 364) (ymd2ord 2024 6 30) = (weekday (ymd2ord 2024 6 30), 52)
    /\ grid_key (ymd2ord 2024 6 30 - 364) (ymd2ord 2024 6 30 - 364)
       = (weekday (ymd2ord 2024 6 30 - 364), 0)
    /\ weekday (ymd2ord 2024 6 30 - 364) = weekday (ymd2ord 2024 6 30)
    /\ (exists x, grid_cell hm (weekday (ymd2ord 2024 6 30)) 52 = Some (Fin x))
    /\ (forall r, 0 <= r < 7 -> r <> weekday (ymd2ord 2024 6 30) -> grid_cell hm r 52 = Some NaN)
    /\ (forall r c, 0 <= r < 7 -> 0 <= c < 52 -> exists x, grid_cell hm r c = Some (Fin x)).
Proof.
  apply (heatmap_last_column_is_today iso_parser sample_frame (ymd2ord 2024 6 30)).
  vm_compute. reflexivity.
Defined.

(** ** Most active month *)

Lemma idxmax_first_largest (s : list (Z * Q)) (m : Z) :
  idxmax s = Ok m ->
  exists total,
    In (m, total) s /\ forall k v, In (k, v) s -> (v <= total)%Q.
Proof.
  destruct s as [|first s']; [discriminate|]. simpl. intro H. injection H as <-.
  assert (Hfold : forall (l : list (Z * Q)) (best : Z * Q),
             let r := fold_left (fun best kv : Z * Q => if negb (Qle_bool (snd kv) (snd best)) then kv else best)
                        l best in
             In r (best :: l) /\ forall kv, In kv (best :: l) -> (snd kv <= snd r)%Q).
  { induction l as [|kv l IH]; intro best; simpl.
    - split; [now left|]. intros kv [<-|[]]. apply Qle_refl.
    - destruct (Qle_bool (snd kv) (snd best)) eqn:E; cbn [negb].
      + destruct (IH best) as [Hin Hmax]. split.
        * destruct Hin as [Hin|Hin]; [now left|right; now right].
        * intros x [<-|[<-|Hx]].
          -- apply Hmax. now left.
          -- apply Qle_bool_iff in E. eapply Qle_trans; [exact E|]. apply Hmax. now left.
          -- apply Hmax. now right.
      + destruct (IH kv) as [Hin Hmax]. split.
        * right. exact Hin.
        * intros x [<-|[<-|Hx]].
          -- assert (Hlt : (snd best < snd kv)%Q).
             { apply Qnot_le_lt. intro Hle. apply Qle_bool_iff in Hle. congruence. }
             eapply Qle_trans; [apply Qlt_le_weak; exact Hlt|]. apply Hmax. now left.
          -- apply Hmax. now left.
          -- apply Hmax. now right. }
  destruct (Hfold s' first) as [Hin Hmax].
  set (r := fold_left _ s' first) in *.
  exists (snd r). split.
  - now rewrite <- surjective_pairing.
  - intros k v Hkv. exact (Hmax (k, v) Hkv).
Qed.


Lemma month_total_inactive (keys : list (option Z)) (km : list value) (k : Z) :
  month_active keys km k = false -> (month_total keys km k == 0)%Q.
Proof.
  revert km. induction keys as [|[k'|] keys IH]; intros [|v km] H; simpl in *;
    try reflexivity; auto.
  apply orb_false_iff in H as [-> H]. auto.
Qed.

Lemma group_totals_spec (keys : list (option Z)) (km : list value) (groups : list (Z * Q)) :
  group_totals keys km = Ok groups ->
  sorted_groups groups
  /\ forall k,
      match lookup_group k groups with
      | Some t => month_active keys km k = true /\ (t == month_total keys km k)%Q
      | None => month_active keys km k = false
      end.
Proof.
  revert km groups. induction keys as [|key keys IH]; intros km groups H.
  - simpl in H. injection H as <-. split; [constructor|reflexivity].
  - destruct km as [|v km]; [simpl in H; injection H as <-; split; [constructor|reflexivity]|].
    cbn [group_totals] in H. apply bind_ok in H as (groups' & Eg & H).
    apply bind_ok in H as (x & Ex & H).
    destruct (IH _ _ Eg) as [Hs Hl].
    assert (Hx : x = km_value v).
    { unfold km_value. destruct (as_num v) as [[q|]|]; try discriminate; now injection Ex as <-. }
    subst x. destruct key as [k'|]; injection H as <-.
    + destruct (add_to_group_spec k' (km_value v) groups' Hs) as [Hs' Hl'].
      split; [exact Hs'|]. intro k. rewrite Hl'. cbn [month_active month_total].
      rewrite (Z.eqb_sym k' k).
      destruct (Z.eqb_spec k k') as [->|Hne]; cbn [orb]; [|apply Hl].
      specialize (Hl k'). destruct (lookup_group k' groups') as [t|].
      * destruct Hl as [_ Ht]. split; [reflexivity|]. now rewrite Ht.
      * split; [reflexivity|]. rewrite (month_total_inactive _ _ _ Hl). ring.
    + split; [exact Hs|]. exact Hl.
Qed.

Lemma lookup_group_In (groups : list (Z * Q)) (k : Z) (v : Q) :
  sorted_groups groups -> In (k, v) groups -> lookup_group k groups = Some v.
Proof.
  unfold sorted_groups. induction groups as [|[k' t] groups IH]; simpl; intros Hs Hin; [contradiction|].
  inversion Hs as [|? ? Hs' Hall]; subst.
  destruct Hin as [E|Hin].
  - injection E as -> ->. now rewrite Z.eqb_refl.
  - destruct (Z.eqb_spec k k') as [->|_]; [|auto].
    exfalso. assert (Hk : In k' (map fst groups)) by (apply in_map_iff; exists (k', v); auto).
    pose proof (proj1 (Forall_forall _ _) Hall k' Hk). lia.
Qed.

Lemma In_lookup_group (groups : list (Z * Q)) (k : Z) (v : Q) :
  lookup_group k groups = Some v -> In (k, v) groups.
Proof.
  induction groups as [|[k' t] groups IH]; simpl; [discriminate|].
  destruct (Z.eqb_spec k k') as [->|_]; [intro H; injection H as ->; now left|auto].
Qed.

(** X20: the most active month is a month with activity whose total
    distance is at least the total of every month with activity. *)
Theorem best_month_is_most_active (df : DataFrame) (m : Z) :
  App.best_month df = Ok m ->
  exists sdl keys km,
    getitem df "start_date_local" = Ok sdl
    /\ dt_to_period_M sdl = Ok keys
    /\ getitem df "distance_km" = Ok km
    /\ month_active keys km m = true
    /\ forall k, month_active keys km k = true ->
                 (month_total keys km k <= month_total keys km m)%Q.
Proof.
  intro H. unfold App.best_month in H. apply bind_ok in H as (totals & Et & H).
  destruct (idxmax_first_largest _ _ H) as (total & Hin & Hmax).
  unfold App.monthly_totals in Et.
  apply bind_ok in Et as (sdl & Esdl & Et). apply bind_ok in Et as (keys & Ekeys & Et).
  apply bind_ok in Et as (km & Ekm & Et).
  destruct (group_totals_spec _ _ _ Et) as [Hs Hl].
  exists sdl, keys, km. refine (conj Esdl (conj Ekeys (conj Ekm _))).
  pose proof (Hl m) as Hm. rewrite (lookup_group_In _ _ _ Hs Hin) in Hm.
  destruct Hm as [Hact Htotal]. split; [exact Hact|].
  intros k Hk. pose proof (Hl k) as Hk'.
  destruct (lookup_group k totals) as [t|] eqn:E; [|congruence].
  destruct Hk' as [_ Ht]. rewrite <- Ht, <- Htotal.
  apply (Hmax k t). now apply In_lookup_group.
Qed.

Lemma best_month_is_most_active_witness :
  exists sdl keys km,
    getitem sample_frame "start_date_local" = Ok sdl
    /\ dt_to_period_M sdl = Ok keys
    /\ getitem sample_frame "distance_km" = Ok km
    /\ month_active keys km (2024 * 12 + 0) = true
    /\ forall k, month_active keys km k = true ->
                 (month_total keys km k <= month_total keys km (2024 * 12 + 0))%Q.
Proof.
  apply (best_month_is_most_active sample_frame (2024 * 12 + 0)).
  vm_compute. reflexivity.
Defined.

(** X21: when no activity is a run, the frame of the runs has no row
    and the most active month does not exist: [idxmax] raises
    [ValueError] on the empty totals. *)
Theorem best_month_fails_without_runs (df : DataFrame) (types sdl km : list value) :
  getitem df "type" = Ok types ->
  Forall (fun v => v <> VStr "Run") types ->
  getitem df "start_date_local" = Ok sdl ->
  getitem df "distance_km" = Ok km ->
  exists runs,
    App.run_rows df = Ok runs
    /\ nrows runs = 0%nat
    /\ App.best_month runs = Raise ValueError.
Proof.
  intros Ht Hnone Hsdl Hkm.
  assert (Hmask : Forall (fun b => b = false) (series_eq_str types "Run")).
  { unfold series_eq_str. apply Forall_map. eapply Forall_impl; [|exact Hnone].
    intros v Hv. destruct v; try reflexivity.
    destruct (String.eqb_spec s "Run") as [->|_]; [congruence|reflexivity]. }
  eexists. split; [|split].
  - unfold App.run_rows. rewrite has_column_getitem, Ht. cbn [is_ok bind]. reflexivity.
  - apply selected_none. exact Hmask.
  - unfold App.best_month, App.monthly_totals.
    rewrite !getitem_filter_rows, Hsdl, Hkm. cbn [bind].
    rewrite !select_rows_none by exact Hmask. reflexivity.
Qed.

Lemma best_month_fails_without_runs_witness :
  exists runs,
    App.run_rows ride_frame = Ok runs
    /\ nrows runs = 0%nat
    /\ App.best_month runs = Raise ValueError.
Proof.
  destruct (getitem ride_frame "start_date_local") as [sdl|] eqn:E1;
    [|vm_compute in E1; discriminate].
  destruct (getitem ride_frame "distance_km") as [km|] eqn:E2;
    [|vm_compute in E2; discriminate].
  apply (best_month_fails_without_runs ride_frame
           [VStr "Ride"; VStr "Ride"; VStr "Ride"] sdl km).
  - reflexivity.
  - repeat constructor; discriminate.
  - exact E1.
  - exact E2.
Defined.

(** ** The first sync *)




(** ** The token request *)

(** X23: when the token request fails, no sync path requests any
    activity: the fetch, [update_data], [auto_update_if_needed] and the
    scheduled job report that error and leave the files as they were;
    an HTTP error status is such a failure even when the body carries a
    token. *)
Theorem token_failure_stops_sync parse_datetime (now : datetime) (net : network)
        (fs : files) (e : exn) :
  App.get_access_token net = Raise e ->
  (forall fuel, App.fetch_strava_data_run fuel net = Some (Raise e, []))
  /\ App.fetch_strava_data net = Raise e
  /\ App.update_data parse_datetime now net fs = (Some e, fs)
  /\ snd (App.auto_update_if_needed parse_datetime now net fs) = fs
  /\ UpdateData.main parse_datetime true now net fs = (1, fs)
  /\ (forall status body,
        token_endpoint net = Response status body ->
        400 <= status < 600 ->
        e = RequestException).
Proof.
  intro Htoken.
  assert (Hrun : forall fuel, App.fetch_strava_data_run fuel net = Some (Raise e, []))
    by (intro fuel; unfold App.fetch_strava_data_run; now rewrite Htoken).
  assert (Hfetch : App.fetch_strava_data net = Raise e)
    by (unfold App.fetch_strava_data; now rewrite Hrun).
  refine (conj Hrun (conj Hfetch (conj _ (conj _ (conj _ _))))).
  - unfold App.update_data. now rewrite Hfetch.
  - unfold App.auto_update_if_needed. rewrite Hfetch. cbn [bind].
    destruct (App.should_update_data _ _); reflexivity.
  - unfold UpdateData.main. cbn [negb].
    change (UpdateData.get_access_token net) with (App.get_access_token net).
    now rewrite Htoken.
  - intros status body Hreply Hstatus. unfold App.get_access_token in Htoken.
    rewrite Hreply in Htoken. unfold raise_for_status in Htoken.
    replace ((400 <=? status) && (status <? 600)) with true in Htoken
      by (symmetry; apply andb_true_iff; split; [apply Z.leb_le|apply Z.ltb_lt]; lia).
    cbn [bind] in Htoken. congruence.
Qed.

Lemma token_failure_stops_sync_witness :
  (forall fuel, App.fetch_strava_data_run fuel unauthorized_net = Some (Raise RequestException, []))
  /\ App.fetch_strava_data unauthorized_net = Raise RequestException
  /\ App.update_data iso_parser sync_time unauthorized_net previous_files
     = (Some RequestException, previous_files)
  /\ snd (App.auto_update_if_needed iso_parser sync_time unauthorized_net previous_files)
     = previous_files
  /\ UpdateData.main iso_parser true sync_time unauthorized_net previous_files
     = (1, previous_files)
  /\ (forall status body,
        token_endpoint unauthorized_net = Response status body ->
        400 <= status < 600 ->
        RequestException = RequestException).
Proof.
  apply (token_failure_stops_sync iso_parser sync_time unauthorized_net previous_files
           RequestException).
  reflexivity.
Defined.

(** ** The refresh schedule over time *)

Lemma should_update_data_due (cfg : config) (now : datetime) :
  valid_time now ->
  (forall last, last_update cfg = Some last -> valid_time last) ->
  App.should_update_data cfg now = true <-> refresh_due cfg now.
Proof.
  intros Hnow Hlast. unfold App.should_update_data, refresh_due.
  destruct (last_update cfg) as [last|]; [|tauto].
  specialize (Hlast last eq_refl).
  assert (H8 : valid_time (replace_time now 8 0 0 0))
    by (unfold valid_time, replace_time; simpl; lia).
  change (mkDatetime (dt_date now) 8 0 0 0) with (replace_time now 8 0 0 0).
  rewrite <- datetime_ltb_instant, <- datetime_leb_instant by assumption.
  destruct (datetime_ltb last (replace_time now 8 0 0 0)); simpl;
    destruct (datetime_leb (replace_time now 8 0 0 0) now); simpl;
      destruct (Z.ltb_spec (dt_date last) (dt_date now)); intuition (try lia; try congruence).
Qed.

Lemma instant_date (a b : datetime) :
  valid_time a -> valid_time b ->
  (instant a <= instant b -> dt_date a <= dt_date b)
  /\ (instant a + DAY_US <= instant b -> dt_date a < dt_date b).
Proof.
  unfold valid_time, instant, DAY_US. intros Ha Hb. split; intro H; nia.
Qed.

(** X24: a refresh that is due stays due at every later time until a
    sync records a new [last_update], and data synced 24 hours ago or
    earlier is always due. *)
Theorem refresh_stays_due (cfg : config) (now later : datetime) :
  valid_time now ->
  valid_time later ->
  (forall last, last_update cfg = Some last -> valid_time last) ->
  instant now <= instant later ->
  (App.should_update_data cfg now = true -> App.should_update_data cfg later = true)
  /\ (forall last, last_update cfg = Some last ->
                   instant last + DAY_US <= instant now ->
                   App.should_update_data cfg now = true).
Proof.
  intros Hnow Hlater Hlast Hle. split.
  - rewrite !should_update_data_due by assumption.
    unfold refresh_due. destruct (last_update cfg) as [last|]; [|tauto].
    specialize (Hlast last eq_refl).
    destruct (instant_date now later Hnow Hlater) as [Hd _].
    specialize (Hd Hle).
    intros [[H1 H2]|H]; [|right; lia].
    destruct (Z.eq_dec (dt_date now) (dt_date later)) as [E|E].
    + left. rewrite <- E. split; [exact H1|lia].
    + right.
      assert (Hl : dt_date last <= dt_date now).
      { destruct (Z.le_gt_cases (dt_date last) (dt_date now)) as [Hl|Hl]; [exact Hl|].
        exfalso. unfold valid_time, instant in *. simpl in H1. nia. }
      lia.
  - intros last E Hstale. apply should_update_data_due; [assumption..|].
    unfold refresh_due. rewrite E. right.
    apply (instant_date last now (Hlast last E) Hnow). exact Hstale.
Qed.

Lemma refresh_stays_due_witness :
  (App.should_update_data (mkConfig (Some 100) (Some (mkDatetime (ymd2ord 2024 1 7) 7 0 0 0)))
     (mkDatetime (ymd2ord 2024 1 8) 9 0 0 0) = true ->
   App.should_update_data (mkConfig (Some 100) (Some (mkDatetime (ymd2ord 2024 1 7) 7 0 0 0)))
     (mkDatetime (ymd2ord 2024 1 11) 6 30 0 0) = true)
  /\ (forall last,
         last_update (mkConfig (Some 100) (Some (mkDatetime (ymd2ord 2024 1 7) 7 0 0 0)))
         = Some last ->
         instant last + DAY_US <= instant (mkDatetime (ymd2ord 2024 1 8) 9 0 0 0) ->
         App.should_update_data
           (mkConfig (Some 100) (Some (mkDatetime (ymd2ord 2024 1 7) 7 0 0 0)))
           (mkDatetime (ymd2ord 2024 1 8) 9 0 0 0) = true).
Proof.
  apply (refresh_stays_due
           (mkConfig (Some 100) (Some (mkDatetime (ymd2ord 2024 1 7) 7 0 0 0)))
           (mkDatetime (ymd2ord 2024 1 8) 9 0 0 0)
           (mkDatetime (ymd2ord 2024 1 11) 6 30 0 0)).
  - unfold valid_time; simpl; lia.
  - unfold valid_time; simpl; lia.
  - intros last H. injection H as <-. unfold valid_time; simpl; lia.
  - vm_compute. discriminate.
Defined.

(** ** Streaks of a date column *)

Lemma unique_dates_In (col : list value) (d : date) :
  In d (App.unique_dates col) <-> In (VDate d) col.
Proof.
  unfold App.unique_dates. rewrite sorted_unique_In, in_flat_map. split.
  - intros (v & Hv & Hd). destruct v; simpl in Hd; try contradiction.
    destruct Hd as [<-|[]]. exact Hv.
  - intro H. exists (VDate d). split; [exact H|now left].
Qed.

Lemma sorted_same_members (l1 : list Z) :
  forall l2,
    StronglySorted Z.lt l1 -> StronglySorted Z.lt l2 ->
    (forall x, In x l1 <-> In x l2) -> l1 = l2.
Proof.
  induction l1 as [|a l1 IH]; intros [|b l2] H1 H2 Hsame.
  - reflexivity.
  - exfalso. apply (proj2 (Hsame b)). now left.
  - exfalso. apply (proj1 (Hsame a)). now left.
  - inversion H1 as [|? ? S1 A1]; subst. inversion H2 as [|? ? S2 A2]; subst.
    assert (Ha : forall x, In x l1 -> a < x) by (apply Forall_forall; exact A1).
    assert (Hb : forall x, In x l2 -> b < x) by (apply Forall_forall; exact A2).
    assert (E : a = b).
    { destruct (proj1 (Hsame a) (or_introl eq_refl)) as [E|Hin]; [now symmetry|].
      destruct (proj2 (Hsame b) (or_introl eq_refl)) as [E|Hin']; [exact E|].
      specialize (Ha _ Hin'). specialize (Hb _ Hin). lia. }
    subst b. f_equal. apply IH; [exact S1|exact S2|].
    intro x. split; intro Hx.
    + destruct (proj1 (Hsame x) (or_intror Hx)) as [E|Hin]; [|exact Hin].
      specialize (Ha _ Hx). lia.
    + destruct (proj2 (Hsame x) (or_intror Hx)) as [E|Hin]; [|exact Hin].
      specialize (Hb _ Hx). lia.
Qed.

Lemma longest_streak_of_sorted (dates : list date) :
  dates <> [] ->
  StronglySorted Z.lt dates ->
  longest_run dates (App.longest_streak dates).
Proof.
  intros Hne Hsorted. destruct dates as [|d0 rest]; [congruence|].
  unfold App.longest_streak.
  pose proof (streak_loop_longest rest [d0] d0 0 1 Hsorted) as H.
  destruct (App.streak_loop d0 rest 0 1) as [mx tmp]. apply H.
  refine (conj _ (conj _ (conj _ (conj _ (conj _ (conj _ (conj _ _))))))); simpl.
  - now left.
  - intros x [<-|[]]. lia.
  - lia.
  - lia.
  - intros i Hi. left. lia.
  - intros [H0|[]]. lia.
  - exists d0. intros i Hi. lia.
  - intros f k Hrun Hend. destruct (Z.le_gt_cases k 0) as [Hk|Hk]; [exact Hk|].
    exfalso. destruct (Hrun (k - 1)) as [H0|[]]; lia.
Qed.

(** X25: on a date column without missing values the streaks count
    days, not rows: the dates handed to the loops are the days that
    occur in the column, the longest streak is the length of the
    longest run of consecutive such days, and two columns with the same
    days give the same longest and current streak, whatever the order
    of the rows and the number of runs on a day. *)
Theorem streaks_count_days (today : date) (col col' : list value) :
  col <> [] ->
  all_dates col ->
  (forall d, In d (App.unique_dates col) <-> In (VDate d) col)
  /\ longest_run (App.unique_dates col) (App.longest_streak (App.unique_dates col))
  /\ (all_dates col' ->
      same_days col col' ->
      App.longest_streak (App.unique_dates col') = App.longest_streak (App.unique_dates col)
      /\ App.current_streak today (App.unique_dates col')
         = App.current_streak today (App.unique_dates col)).
Proof.
  intros Hne Hall. refine (conj (unique_dates_In col) (conj _ _)).
  - apply longest_streak_of_sorted; [|apply unique_dates_sorted].
    destruct col as [|v col]; [congruence|].
    inversion Hall as [|? ? [d ->] _]; subst.
    intro E. assert (Hd : In d (App.unique_dates (VDate d :: col)))
      by (apply unique_dates_In; now left).
    rewrite E in Hd. exact Hd.
  - intros _ Hsame.
    assert (E : App.unique_dates col' = App.unique_dates col).
    { apply sorted_same_members; try apply unique_dates_sorted.
      intro d. rewrite !unique_dates_In. symmetry. apply Hsame. }
    now rewrite E.
Qed.

Lemma streaks_count_days_witness :
  (forall d, In d (App.unique_dates [VDate 5; VDate 3; VDate 4; VDate 3])
             <-> In (VDate d) [VDate 5; VDate 3; VDate 4; VDate 3])
  /\ longest_run (App.unique_dates [VDate 5; VDate 3; VDate 4; VDate 3])
       (App.longest_streak (App.unique_dates [VDate 5; VDate 3; VDate 4; VDate 3]))
  /\ (all_dates [VDate 3; VDate 4; VDate 5] ->
      same_days [VDate 5; VDate 3; VDate 4; VDate 3] [VDate 3; VDate 4; VDate 5] ->
      App.longest_streak (App.unique_dates [VDate 3; VDate 4; VDate 5])
      = App.longest_streak (App.unique_dates [VDate 5; VDate 3; VDate 4; VDate 3])
      /\ App.current_streak 6 (App.unique_dates [VDate 3; VDate 4; VDate 5])
         = App.current_streak 6 (App.unique_dates [VDate 5; VDate 3; VDate 4; VDate 3])).
Proof.
  apply (streaks_count_days 6 [VDate 5; VDate 3; VDate 4; VDate 3] [VDate 3; VDate 4; VDate 5]).
  - discriminate.
  - repeat constructor; eauto.
Defined.

(** ** Records without a required field *)

Lemma pd_DataFrame_fields (records : list json) :
  Forall (fun r => exists fields, r = JObj fields) records ->
  exists df,
    pd_DataFrame records = Ok df
    /\ forall c, getitem df c = if has_field c records
                                then Ok (map (record_cell c) records)
                                else Raise (KeyError c).
Proof.
  intro Hall.
  destruct (union_keys_total records [] Hall) as [labels Hl].
  pose proof (union_keys_mem _ _ _ Hl) as Hmem.
  assert (E : pd_DataFrame records
              = Ok (mkDataFrame (List.length records)
                      (map (fun c => (c, map (record_cell c) records)) labels))).
  { unfold pd_DataFrame. destruct records as [|r rest]; [now rewrite Hl|].
    inversion Hall as [|? ? [fields ->] _]; subst. now rewrite Hl. }
  eexists. split; [exact E|].
  intro c. unfold getitem. cbn [cols].
  rewrite (assoc_map_labels (fun c => map (record_cell c) records)), Hmem.
  simpl. destruct (has_field c records); reflexivity.
Qed.

Lemma timed_activity_cell parse_datetime (r : json) :
  timed_activity parse_datetime r = true ->
  (exists s t, record_cell "start_date_local" r = VStr s /\ parse_datetime (VStr s) = Some t)
  /\ has_field "start_date_local" [r] = true.
Proof.
  destruct r as [| | | | |fields]; try discriminate. unfold timed_activity.
  assert (Hkey : forall c j, assoc c fields = Some j -> mem c (map fst fields) = true).
  { intros c j. unfold mem. induction fields as [|[k v] l IH]; simpl; [discriminate|].
    destruct (String.eqb c k); [reflexivity|exact IH]. }
  destruct (assoc "start_date_local" fields) as [[| | |s| |]|] eqn:E1; try discriminate.
  destruct (parse_datetime (VStr s)) as [t|] eqn:E4; [|discriminate]. intros _.
  unfold has_field, record_cell. cbn [existsb record_keys].
  rewrite E1, (Hkey _ _ E1). simpl. split; eauto.
Qed.

(** X26: for a list of objects, the first of the fields
    [start_date_local], [distance] and [moving_time] that no record has
    is reported as a [KeyError] naming it, by both files: the timestamp
    first, then (the timestamps parsing) the distance, then (the
    distances being numbers) the moving time. *)
Theorem process_data_missing_field parse_datetime (records : list json) :
  Forall (fun r => exists fields, r = JObj fields) records ->
  (has_field "start_date_local" records = false ->
   App.process_data parse_datetime (JArr records) = Raise (KeyError "start_date_local")
   /\ UpdateData.process_data parse_datetime (JArr records)
      = Raise (KeyError "start_date_local"))
  /\ (records <> [] ->
      forallb (timed_activity parse_datetime) records = true ->
      (has_field "distance" records = false ->
       App.process_data parse_datetime (JArr records) = Raise (KeyError "distance")
       /\ UpdateData.process_data parse_datetime (JArr records)
          = Raise (KeyError "distance"))
      /\ (has_field "distance" records = true ->
          Forall (fun r => is_number (record_cell "distance" r)) records ->
          has_field "moving_time" records = false ->
          App.process_data parse_datetime (JArr records) = Raise (KeyError "moving_time")
          /\ UpdateData.process_data parse_datetime (JArr records)
             = Raise (KeyError "moving_time"))).
Proof.
  intro Hobj.
  destruct (pd_DataFrame_fields records Hobj) as (df0 & Edf0 & Hget0).
  destruct (select_total df0 (filter (fun c => has_column c df0) RAW_COLS)) as (df1 & Edf1 & Hget1).
  { intros c Hc. apply filter_In in Hc. tauto. }
  assert (Hraw : forall c, mem c RAW_COLS = true ->
                           getitem df1 c = if has_field c records
                                           then Ok (map (record_cell c) records)
                                           else Raise (KeyError c)).
  { intros c Hc. rewrite Hget1, mem_filter, Hc, has_column_getitem, !Hget0.
    destruct (has_field c records); reflexivity. }
  split.
  - intro F1. pose proof (Hraw "start_date_local"%string eq_refl) as G1. rewrite F1 in G1.
    assert (E : App.process_data parse_datetime (JArr records)
                = Raise (KeyError "start_date_local")).
    { unfold App.process_data. rewrite Edf0. cbn [bind]. rewrite Edf1. cbn [bind].
      rewrite G1. reflexivity. }
    split; exact E.
  - intros Hne Htimed.
    assert (Hall : Forall (fun r => timed_activity parse_datetime r = true) records)
      by (apply Forall_forall; apply forallb_forall; exact Htimed).
    assert (F1 : has_field "start_date_local" records = true).
    { destruct records as [|r rest]; [congruence|].
      inversion Hall as [|? ? Hr _]; subst.
      apply has_field_cons. apply (timed_activity_cell _ _ Hr). }
    pose proof (Hraw "start_date_local"%string eq_refl) as G1. rewrite F1 in G1.
    pose proof (Hraw "distance"%string eq_refl) as G2.
    pose proof (Hraw "moving_time"%string eq_refl) as G3.
    destruct (mapM_total (to_datetime_scalar parse_datetime)
                (map (record_cell "start_date_local") records)) as [sdl Esdl].
    { apply Forall_map. eapply Forall_impl; [|exact Hall]. intros r Hr.
      destruct (timed_activity_cell _ _ Hr) as ((s & t & -> & Hs) & _).
      simpl. rewrite Hs. eauto. }
    fold (to_datetime parse_datetime (map (record_cell "start_date_local") records)) in Esdl.
    pose proof (to_datetime_timestamps _ _ _ Esdl) as Hts.
    destruct (dt_accessor_total (fun t => VDate (dt_date t)) VNaT sdl Hts) as [dates Edates].
    destruct (dt_accessor_total (fun t => VNum (num_of_Z (dt_hour t))) (VNum NaN) sdl Hts) as [hours Ehours].
    destruct (dt_accessor_total (fun t => VStr (day_name (dt_date t))) (VNum NaN) sdl Hts) as [wd Ewd].
    destruct (dt_accessor_total (fun t => VNum (num_of_Z (isoweek (dt_date t)))) (VNum NaN) sdl Hts) as [wk Ewk].
    destruct (dt_accessor_total (fun t => VNum (num_of_Z (month_of (dt_date t)))) (VNum NaN) sdl Hts) as [mo Emo].
    destruct (dt_accessor_total (fun t => VNum (num_of_Z (year_of (dt_date t)))) (VNum NaN) sdl Hts) as [yr Eyr].
    split.
    + intro F2. rewrite F2 in G2.
      assert (E : App.process_data parse_datetime (JArr records)
                  = Raise (KeyError "distance")).
      { unfold App.process_data. rewrite Edf0. cbn [bind]. rewrite Edf1. cbn [bind].
        rewrite G1. cbn [bind]. rewrite Esdl. cbn [bind].
        rewrite !getitem_setitem. cbn [String.eqb Ascii.eqb Bool.eqb bind].
        rewrite (to_datetime_fixed _ _ Hts). cbn [bind].
        unfold dt_get_date. rewrite Edates. cbn [bind].
        rewrite !getitem_setitem. cbn [String.eqb Ascii.eqb Bool.eqb bind].
        unfold dt_get_hour. rewrite Ehours. cbn [bind].
        rewrite !getitem_setitem. cbn [String.eqb Ascii.eqb Bool.eqb bind].
        unfold dt_day_name. rewrite Ewd. cbn [bind].
        rewrite !getitem_setitem. cbn [String.eqb Ascii.eqb Bool.eqb bind].
        unfold dt_isocalendar_week. rewrite Ewk. cbn [bind].
        rewrite !getitem_setitem. cbn [String.eqb Ascii.eqb Bool.eqb bind].
        unfold dt_get_month. rewrite Emo. cbn [bind].
        rewrite !getitem_setitem. cbn [String.eqb Ascii.eqb Bool.eqb bind].
        unfold dt_get_year. rewrite Eyr. cbn [bind].
        rewrite !getitem_setitem. cbn [String.eqb Ascii.eqb Bool.eqb bind].
        rewrite G2. reflexivity. }
      split; exact E.
    + intros F2 N2 F3. rewrite F2 in G2. rewrite F3 in G3.
      destruct (series_div_total (map (record_cell "distance") records) 1000) as [dk Edk].
      { apply Forall_map. exact N2. }
      assert (E : App.process_data parse_datetime (JArr records)
                  = Raise (KeyError "moving_time")).
      { unfold App.process_data. rewrite Edf0. cbn [bind]. rewrite Edf1. cbn [bind].
        rewrite G1. cbn [bind]. rewrite Esdl. cbn [bind].
        rewrite !getitem_setitem. cbn [String.eqb Ascii.eqb Bool.eqb bind].
        rewrite (to_datetime_fixed _ _ Hts). cbn [bind].
        unfold dt_get_date. rewrite Edates. cbn [bind].
        rewrite !getitem_setitem. cbn [String.eqb Ascii.eqb Bool.eqb bind].
        unfold dt_get_hour. rewrite Ehours. cbn [bind].
        rewrite !getitem_setitem. cbn [String.eqb Ascii.eqb Bool.eqb bind].
        unfold dt_day_name. rewrite Ewd. cbn [bind].
        rewrite !getitem_setitem. cbn [String.eqb Ascii.eqb Bool.eqb bind].
        unfold dt_isocalendar_week. rewrite Ewk. cbn [bind].
        rewrite !getitem_setitem. cbn [String.eqb Ascii.eqb Bool.eqb bind].
        unfold dt_get_month. rewrite Emo. cbn [bind].
        rewrite !getitem_setitem. cbn [String.eqb Ascii.eqb Bool.eqb bind].
        unfold dt_get_year. rewrite Eyr. cbn [bind].
        rewrite !getitem_setitem. cbn [String.eqb Ascii.eqb Bool.eqb bind].
        rewrite G2. cbn [bind]. rewrite Edk. cbn [bind].
        rewrite !getitem_setitem. cbn [String.eqb Ascii.eqb Bool.eqb bind].
        rewrite G3. reflexivity. }
      split; exact E.
Qed.

Lemma process_data_missing_field_witness :
  App.process_data iso_parser (JArr untracked_records) = Raise (KeyError "distance")
  /\ UpdateData.process_data iso_parser (JArr untracked_records)
     = Raise (KeyError "distance").
Proof.
  apply (process_data_missing_field iso_parser untracked_records).
  - repeat constructor. eauto.
  - discriminate.
  - reflexivity.
  - reflexivity.
Defined.

(** ** Monthly totals and the total distance *)

Lemma add_to_group_sum (k : Z) (x : Q) (groups : list (Z * Q)) :
  (totals_sum (add_to_group k x groups) == x + totals_sum groups)%Q.
Proof.
  induction groups as [|[k' t] groups IH]; simpl.
  - reflexivity.
  - destruct (k <? k'); [reflexivity|].
    destruct (k =? k'); simpl.
    + ring.
    + rewrite IH. ring.
Qed.

Lemma group_totals_sum (keys : list (option Z)) :
  forall (km : list value) (groups : list (Z * Q)),
    List.length keys = List.length km ->
    Forall (fun key => key <> None) keys ->
    group_totals keys km = Ok groups ->
    exists total, series_sum km = Ok total /\ (totals_sum groups == total)%Q.
Proof.
  induction keys as [|key keys IH]; intros [|v km] groups Hlen Hkeys H; try discriminate.
  - injection H as <-. exists 0%Q. split; reflexivity.
  - cbn [group_totals] in H. apply bind_ok in H as (groups' & Eg & H).
    apply bind_ok in H as (x & Ex & H).
    apply Forall_cons_iff in Hkeys as [Hkey Hkeys].
    destruct (IH km groups' ltac:(simpl in Hlen; lia) Hkeys Eg) as (total & Es & Ht).
    destruct key as [k|]; [|congruence]. injection H as <-.
    cbn [series_sum]. destruct (as_num v) as [[q|]|]; try discriminate; injection Ex as <-.
    + rewrite Es. cbn [bind]. eexists. split; [reflexivity|].
      rewrite add_to_group_sum, Ht. reflexivity.
    + exists total. split; [exact Es|]. rewrite add_to_group_sum, Ht. ring.
Qed.

Lemma dt_to_period_M_keys (sdl : list value) :
  forall keys,
    dt_to_period_M sdl = Ok keys ->
    List.length keys = List.length sdl
    /\ (Forall (fun v => v <> VNaT) sdl -> Forall (fun key => key <> None) keys).
Proof.
  unfold dt_to_period_M. induction sdl as [|v sdl IH]; intros keys H.
  - injection H as <-. split; [reflexivity|constructor].
  - cbn [mapM] in H. apply bind_ok in H as (key & Ek & H).
    apply bind_ok in H as (keys' & Ek' & H). injection H as <-.
    destruct (IH _ Ek') as [Hlen Hall]. split; [simpl; congruence|].
    intro Hn. apply Forall_cons_iff in Hn as [Hv Hn]. constructor; [|auto].
    destruct v; try discriminate; try congruence.
Qed.

(** X27: on a frame whose timestamps are all present, the monthly
    totals are listed by ascending month and add up to the total
    distance of the frame, in exact arithmetic. *)
Theorem monthly_totals_add_up (df : DataFrame) (totals : list (Z * Q)) :
  rectangular df ->
  (forall sdl, getitem df "start_date_local" = Ok sdl -> Forall (fun v => v <> VNaT) sdl) ->
  App.monthly_totals df = Ok totals ->
  sorted_groups totals
  /\ exists total, App.total_km df = Ok total /\ (totals_sum totals == total)%Q.
Proof.
  intros Hrect Hdated H. unfold App.monthly_totals in H.
  apply bind_ok in H as (sdl & Esdl & H). apply bind_ok in H as (keys & Ekeys & H).
  apply bind_ok in H as (km & Ekm & H).
  destruct (dt_to_period_M_keys _ _ Ekeys) as [Hlen Hall].
  split; [apply (group_totals_spec _ _ _ H)|].
  unfold App.total_km. rewrite Ekm. cbn [bind].
  apply (group_totals_sum keys km totals); [|apply Hall, Hdated, Esdl|exact H].
  rewrite Hlen, (rectangular_getitem _ _ _ Hrect Esdl), (rectangular_getitem _ _ _ Hrect Ekm).
  reflexivity.
Qed.

Lemma monthly_totals_add_up_witness :
  match App.monthly_totals sample_frame with
  | Ok totals =>
      sorted_groups totals
      /\ exists total, App.total_km sample_frame = Ok total /\ (totals_sum totals == total)%Q
  | Raise _ => False
  end.
Proof.
  destruct (App.monthly_totals sample_frame) as [totals|e] eqn:E.
  - apply (monthly_totals_add_up sample_frame totals).
    + repeat constructor.
    + intros sdl Hsdl. vm_compute in Hsdl. injection Hsdl as <-.
      repeat constructor; discriminate.
    + exact E.
  - vm_compute in E. discriminate.
Defined.
